(** * Option-symbol codec of [polygon/options/options.py]

    A shallow embedding of the symbol functions of the options client
    ([build_option_symbol], [OptionSymbol.__init__], the TD Ameritrade
    variants, [detect_symbol_format], [ensure_prefix]) together with the
    Python built-ins they rely on, and the properties of the codec.

    Conventions of the embedding:
    - a Python [str] is a [list ascii]; the model covers ASCII text
      (characters above 127 are treated as caseless symbols);
    - a raised exception is a value [Raise e] of the [result] type, and
      statements are sequenced with [x <- e ;; k];
    - Python integers are [Z]; a binary64 float is a sign, a mantissa and
      a binary exponent, with the rounding written out. *)

From Stdlib Require Import String Ascii ZArith Lia Bool List.
Import ListNotations.
Local Open Scope Z_scope.

Set Implicit Arguments.

(* ===================================================================== *)
(** * Exceptions *)
(* ===================================================================== *)

Module Py.

(** The exceptions the modelled code can raise, one constructor per
    raising site or built-in failure. *)
Inductive exception : Type :=
| ValueError_expiry_length   (* build_option_symbol: 'Expiry string must have 6 characters' *)
| ValueError_symbol_length   (* ensure_prefix: 'Option symbol length must at least be 15 letters' *)
| ValueError_int_literal     (* int(str): invalid literal *)
| ValueError_float_literal   (* float(str): could not convert *)
| ValueError_date            (* datetime.date(y, m, d): field out of range *)
| ValueError_nan_to_int      (* int(nan) *)
| OverflowError_inf_to_int   (* int(inf) *)
| OverflowError_int_to_float (* float(int), int / int: result too large *)
| IndexError_string          (* s[i] past the end *)
| IndexError_list.           (* l[i] past the end *)

(** The Python class of an exception value. *)
Inductive exception_class : Type := ValueError | OverflowError | IndexError.

Definition class_of (e : exception) : exception_class :=
  match e with
  | ValueError_expiry_length | ValueError_symbol_length | ValueError_int_literal
  | ValueError_float_literal | ValueError_date | ValueError_nan_to_int => ValueError
  | OverflowError_inf_to_int | OverflowError_int_to_float => OverflowError
  | IndexError_string | IndexError_list => IndexError
  end.

Inductive result (A : Type) : Type :=
| Ok (a : A)
| Raise (e : exception).

Arguments Ok {A} a.
Arguments Raise {A} e.

Definition bind {A B : Type} (r : result A) (k : A -> result B) : result B :=
  match r with
  | Ok a => k a
  | Raise e => Raise e
  end.

Definition raises {A : Type} (r : result A) : bool :=
  match r with Ok _ => false | Raise _ => true end.

End Py.

Import Py.

Notation "x <- e ;; k" := (bind e (fun x => k))
  (at level 61, e at next level, right associativity).

(* ===================================================================== *)
(** * Strings *)
(* ===================================================================== *)

Definition str : Type := list ascii.

(** String literals of the source. *)
Definition lit (s : string) : str := list_ascii_of_string s.

Definition code (c : ascii) : Z := Z.of_nat (nat_of_ascii c).
Definition chr (n : Z) : ascii := ascii_of_nat (Z.to_nat n).

Definition is_digit (c : ascii) : bool := (48 <=? code c) && (code c <=? 57).
Definition is_upper_letter (c : ascii) : bool := (65 <=? code c) && (code c <=? 90).
Definition is_lower_letter (c : ascii) : bool := (97 <=? code c) && (code c <=? 122).
(** [c.isalpha()] *)
Definition is_alpha (c : ascii) : bool := is_upper_letter c || is_lower_letter c.
(** the whitespace [int(str)] and [float(str)] skip around a literal *)
Definition is_space (c : ascii) : bool :=
  ((9 <=? code c) && (code c <=? 13)) || (code c =? 32).

Definition upper_char (c : ascii) : ascii :=
  if is_lower_letter c then chr (code c - 32) else c.
Definition lower_char (c : ascii) : ascii :=
  if is_upper_letter c then chr (code c + 32) else c.

(** [s.upper()], [s.lower()] *)
Definition upper (s : str) : str := map upper_char s.
Definition lower (s : str) : str := map lower_char s.

Definition eqb_char (a b : ascii) : bool := Ascii.eqb a b.

Fixpoint eqb_str (a b : str) : bool :=
  match a, b with
  | [], [] => true
  | x :: a', y :: b' => eqb_char x y && eqb_str a' b'
  | _, _ => false
  end.

(** [s.startswith(p)] *)
Fixpoint startswith (p s : str) : bool :=
  match p, s with
  | [], _ => true
  | x :: p', y :: s' => eqb_char x y && startswith p' s'
  | _ :: _, [] => false
  end.

(** [c in s] for a one-character [c] *)
Definition contains (c : ascii) (s : str) : bool := existsb (eqb_char c) s.

(** [x in [a, b, ...]] for a list of strings *)
Definition str_in (x : str) (l : list str) : bool := existsb (eqb_str x) l.

(** [s[a:b]], [s[a:]], [s[:b]] for non-negative bounds, and [s[:-n]] *)
Definition slice (a b : nat) (s : str) : str := firstn (b - a) (skipn a s).
Definition slice_from (a : nat) (s : str) : str := skipn a s.
Definition slice_to (b : nat) (s : str) : str := firstn b s.
Definition drop_last (n : nat) (s : str) : str := firstn (length s - n) s.

(** [s[i]] *)
Definition index (i : nat) (s : str) : result ascii :=
  match nth_error s i with
  | Some c => Ok c
  | None => Raise IndexError_string
  end.

(** [l[i]] on a list of strings *)
Definition item (i : nat) (l : list str) : result str :=
  match nth_error l i with
  | Some x => Ok x
  | None => Raise IndexError_list
  end.

(** [s.rjust(n, c)], [s.ljust(n, c)] *)
Definition rjust (n : nat) (c : ascii) (s : str) : str :=
  repeat c (n - length s) ++ s.
Definition ljust (n : nat) (c : ascii) (s : str) : str :=
  s ++ repeat c (n - length s).

(** [s.split(c)] for a one-character separator *)
Fixpoint split (c : ascii) (s : str) : list str :=
  match s with
  | [] => [[]]
  | x :: r =>
      if eqb_char x c then [] :: split c r
      else match split c r with
           | h :: t => (x :: h) :: t
           | [] => [[x]]
           end
  end.

(** Removal of the whitespace around a numeric literal. *)
Fixpoint lstrip (s : str) : str :=
  match s with
  | c :: r => if is_space c then lstrip r else s
  | [] => []
  end.
Definition strip (s : str) : str := rev (lstrip (rev (lstrip s))).

(* ===================================================================== *)
(** * Integers: [str(int)] and [int(str)] *)
(* ===================================================================== *)

Definition digit_char (d : Z) : ascii := chr (48 + d).
Definition digit_val (c : ascii) : Z := code c - 48.

(** Decimal digits of a non-negative integer, most significant first.
    The fuel is the bit length, which bounds the number of digits. *)
Fixpoint digits_fuel (fuel : nat) (n : Z) (acc : str) : str :=
  match fuel with
  | O => digit_char (n mod 10) :: acc
  | S f =>
      if n <? 10 then digit_char n :: acc
      else digits_fuel f (n / 10) (digit_char (n mod 10) :: acc)
  end.

Definition digits (n : Z) : str := digits_fuel (Z.to_nat (Z.log2 n)) n [].

(** [str(n)] for an int *)
Definition str_of_int (n : Z) : str :=
  if n <? 0 then "-"%char :: digits (- n) else digits n.

(** Value of a run of decimal digits. *)
Definition digits_value (s : str) : Z :=
  fold_left (fun acc c => 10 * acc + digit_val c) s 0.

(** A digit part of a numeric literal: digits with single underscores
    between them. Returns the digits, or [None] when the text is not a
    digit part. *)
Fixpoint digitpart_tail (s : str) : option str :=
  match s with
  | [] => Some []
  | c :: r =>
      if is_digit c then option_map (cons c) (digitpart_tail r)
      else if eqb_char c "_" then
        match r with
        | d :: r' => if is_digit d then option_map (cons d) (digitpart_tail r') else None
        | [] => None
        end
      else None
  end.

Definition digitpart (s : str) : option str :=
  match s with
  | c :: r => if is_digit c then option_map (cons c) (digitpart_tail r) else None
  | [] => None
  end.

(** An optional sign in front of a literal. *)
Definition split_sign (s : str) : bool * str :=
  match s with
  | c :: r =>
      if eqb_char c "-" then (true, r)
      else if eqb_char c "+" then (false, r)
      else (false, s)
  | [] => (false, s)
  end.

(** [int(s)] for a string, base 10: surrounding whitespace, an optional
    sign, then a digit part. *)
Definition int_of_str (s : str) : result Z :=
  let '(neg, body) := split_sign (strip s) in
  match digitpart body with
  | Some ds => Ok (if neg then - digits_value ds else digits_value ds)
  | None => Raise ValueError_int_literal
  end.

(* ===================================================================== *)
(** * Floats: binary64 with round-to-nearest-even *)
(* ===================================================================== *)

(** A binary64 value. [Finite neg m e] is [(-1)^neg * m * 2^e] with
    [0 <= m < 2^53] and [-1074 <= e <= 971]; the values built by
    [round_ratio] are in canonical form: [2^52 <= m] unless [e = -1074],
    and zero is [Finite neg 0 0]. *)
Inductive float64 : Type :=
| Finite (neg : bool) (m : Z) (e : Z)
| Infinity (neg : bool)
| NaN.

(** The float nearest to [n / d] (ties to even), for [0 <= n] and [0 < d].
    [k] is the number of fraction bits kept: the quotient [n * 2^k / d]
    lies in [[2^52, 2^53)], or [k = 1074] for subnormal results. *)
Definition round_ratio (neg : bool) (n d : Z) : float64 :=
  if n =? 0 then Finite neg 0 0 else
  let k0 := 52 - Z.log2 n + Z.log2 d in
  let k1 := if n * 2 ^ Z.max k0 0 <? d * 2 ^ 52 * 2 ^ Z.max (- k0) 0
            then k0 + 1 else k0 in
  let k := Z.min k1 1074 in
  let num := n * 2 ^ Z.max k 0 in
  let den := d * 2 ^ Z.max (- k) 0 in
  let q := num / den in
  let r := num mod den in
  let m := if (den <? 2 * r) || ((den =? 2 * r) && Z.odd q) then q + 1 else q in
  let '(m, e) := if m =? 2 ^ 53 then (2 ^ 52, 1 - k) else (m, - k) in
  if m =? 0 then Finite neg 0 0
  else if 971 <? e then Infinity neg
  else Finite neg m e.

(** [a / b] on ints, for [b > 0] (the code divides by the constant 1000). *)
Definition true_divide (a b : Z) : result float64 :=
  match round_ratio (a <? 0) (Z.abs a) b with
  | Infinity _ => Raise OverflowError_int_to_float
  | x => Ok x
  end.

(** [float(n)] for an int *)
Definition float_of_int (n : Z) : result float64 := true_divide n 1.

(** [int(x)] for a float: truncation toward zero *)
Definition int_of_float (x : float64) : result Z :=
  match x with
  | Finite neg m e =>
      let a := if 0 <=? e then m * 2 ^ e else m / 2 ^ (- e) in
      Ok (if neg then - a else a)
  | Infinity _ => Raise OverflowError_inf_to_int
  | NaN => Raise ValueError_nan_to_int
  end.

(** [x == n] for a float [x] and an int [n]: exact comparison of values *)
Definition float_eq_int (x : float64) (n : Z) : bool :=
  match x with
  | Finite neg m e =>
      let s := if neg then - m else m in
      if 0 <=? e then s * 2 ^ e =? n else s =? n * 2 ^ (- e)
  | _ => false
  end.

(** [x == y] on floats in canonical form *)
Definition float_eqb (x y : float64) : bool :=
  match x, y with
  | Finite n1 m1 e1, Finite n2 m2 e2 =>
      if (m1 =? 0) && (m2 =? 0) then true
      else Bool.eqb n1 n2 && (m1 =? m2) && (e1 =? e2)
  | Infinity n1, Infinity n2 => Bool.eqb n1 n2
  | _, _ => false
  end.

(** ** [float(str)] *)

(** Cut a string at the first character satisfying [p]. *)
Fixpoint break_at (p : ascii -> bool) (s : str) : str * option str :=
  match s with
  | [] => ([], None)
  | c :: r =>
      if p c then ([], Some r)
      else let '(a, b) := break_at p r in (c :: a, b)
  end.

(** An empty string or a digit part. *)
Definition opt_digitpart (s : str) : option str :=
  match s with
  | [] => Some []
  | _ => digitpart s
  end.

(** The digits before and after the point of [number]:
    [[digitpart] "." digitpart | digitpart ["."]]. *)
Definition parse_number (s : str) : option (str * str) :=
  match break_at (eqb_char ".") s with
  | (ip, None) => option_map (fun d => (d, [])) (digitpart ip)
  | (ip, Some fp) =>
      match opt_digitpart ip, opt_digitpart fp with
      | Some a, Some b =>
          match a, b with
          | [], [] => None
          | _, _ => Some (a, b)
          end
      | _, _ => None
      end
  end.

(** [exponent ::= ("e" | "E") [sign] digitpart], absent meaning 0. *)
Definition parse_exponent (s : option str) : option Z :=
  match s with
  | None => Some 0
  | Some t =>
      let '(neg, body) := split_sign t in
      option_map (fun d => if neg then - digits_value d else digits_value d)
                 (digitpart body)
  end.

Definition is_e (c : ascii) : bool := eqb_char c "e" || eqb_char c "E".

(** [float(s)] for a string. *)
Definition float_of_str (s : str) : result float64 :=
  let '(neg, body) := split_sign (strip s) in
  let low := lower body in
  if str_in low [lit "inf"; lit "infinity"] then Ok (Infinity neg)
  else if eqb_str low (lit "nan") then Ok NaN
  else
    let '(mant, ex) := break_at is_e body in
    match parse_number mant, parse_exponent ex with
    | Some (ip, fp), Some x =>
        let d := digits_value (ip ++ fp) in
        let e10 := x - Z.of_nat (length fp) in
        Ok (if 0 <=? e10 then round_ratio neg (d * 10 ^ e10) 1
            else round_ratio neg d (10 ^ (- e10)))
    | _, _ => Raise ValueError_float_literal
    end.

(** ** [str(float)]: the shortest decimal that reads back as the float *)

(** Smallest [j' >= j] with [d <= n * 10^j']. *)
Fixpoint lead_zeros (fuel : nat) (n d j : Z) : Z :=
  match fuel with
  | O => j
  | S f => if d <=? n * 10 ^ j then j else lead_zeros f n d (j + 1)
  end.

(** The position [t] of the decimal point of [n / d > 0]:
    [10^(t-1) <= n / d < 10^t]. *)
Definition decimal_point (n d : Z) : Z :=
  if d <=? n then Z.of_nat (length (digits (n / d)))
  else 1 - lead_zeros (S (Z.to_nat (Z.log2 d))) n d 1.

(** [c * 10^(-s)] rounded to a float. *)
Definition float_of_decimal (neg : bool) (c s : Z) : float64 :=
  if 0 <=? s then round_ratio neg c (10 ^ s) else round_ratio neg (c * 10 ^ (- s)) 1.

(** The [p]-digit decimals next to [n / d] that read back as [x]:
    the closer one when both do. *)
Definition candidate (x : float64) (neg : bool) (n d t : Z) (p : Z) : option Z :=
  let s := p - t in
  let num := n * 10 ^ Z.max s 0 in
  let den := d * 10 ^ Z.max (- s) 0 in
  let lo := num / den in
  let r := num mod den in
  let hi := lo + 1 in
  let lo_ok := float_eqb (float_of_decimal neg lo s) x in
  let hi_ok := float_eqb (float_of_decimal neg hi s) x in
  if lo_ok && hi_ok then
    Some (if (2 * r <? den) || ((2 * r =? den) && Z.even lo) then lo else hi)
  else if lo_ok then Some lo
  else if hi_ok then Some hi
  else None.

(** The shortest decimal that reads back as [x]: its digits as an integer
    and their number, trying 1, 2, ... digits. Seventeen digits determine
    a binary64 value, so the search started with fuel 17 ends on a
    candidate. *)
Fixpoint shortest (fuel : nat) (x : float64) (neg : bool) (n d t : Z) (p : Z) : Z * Z :=
  match fuel with
  | O => ((n * 10 ^ Z.max (p - t) 0) / (d * 10 ^ Z.max (t - p) 0), p)
  | S f =>
      match candidate x neg n d t p with
      | Some c => (c, p)
      | None => shortest f x neg n d t (p + 1)
      end
  end.

Fixpoint strip_zeros_rev (s : str) : str :=
  match s with
  | c :: r => if eqb_char c "0" then strip_zeros_rev r else s
  | [] => []
  end.

(** Drop the trailing zeros of a digit string. *)
Definition rstrip_zeros (s : str) : str := rev (strip_zeros_rev (rev s)).

Definition zeros (n : Z) : str := repeat "0"%char (Z.to_nat n).

(** Layout of [repr]: the digits [ds] with the point after [pt] of them;
    exponent notation when [pt <= -4] or [pt > 16]. *)
Definition layout (ds : str) (pt : Z) : str :=
  let n := Z.of_nat (length ds) in
  if (pt <=? -4) || (16 <? pt) then
    let x := pt - 1 in
    let xs := digits (Z.abs x) in
    firstn 1 ds
      ++ (match skipn 1 ds with [] => [] | r => "."%char :: r end)
      ++ "e"%char :: (if x <? 0 then "-"%char else "+"%char) :: rjust 2 "0" xs
  else if pt <=? 0 then lit "0." ++ zeros (- pt) ++ ds
  else if n <=? pt then ds ++ zeros (pt - n) ++ lit ".0"
  else firstn (Z.to_nat pt) ds ++ "."%char :: skipn (Z.to_nat pt) ds.

(** [str(x)] (and [repr(x)]) for a float *)
Definition str_of_float (x : float64) : str :=
  match x with
  | NaN => lit "nan"
  | Infinity neg => if neg then lit "-inf" else lit "inf"
  | Finite neg m e =>
      let sign := if neg then ["-"%char] else [] in
      if m =? 0 then sign ++ lit "0.0"
      else
        let n := m * 2 ^ Z.max e 0 in
        let d := 2 ^ Z.max (- e) 0 in
        let t := decimal_point n d in
        let '(c, p) := shortest 17 x neg n d t 1 in
        let all := digits c in
        let pt := t + (Z.of_nat (length all) - p) in
        sign ++ layout (rstrip_zeros all) pt
  end.

(* ===================================================================== *)
(** * Dates: [datetime.date] *)
(* ===================================================================== *)

Record date : Type := mkdate { year : Z; month : Z; day : Z }.

Definition is_leap (y : Z) : bool :=
  (y mod 4 =? 0) && (negb (y mod 100 =? 0) || (y mod 400 =? 0)).

Definition days_in_month (y m : Z) : Z :=
  if (m =? 2) then (if is_leap y then 29 else 28)
  else if (m =? 4) || (m =? 6) || (m =? 9) || (m =? 11) then 30
  else 31.

Definition valid_date (d : date) : bool :=
  (1 <=? year d) && (year d <=? 9999)
  && (1 <=? month d) && (month d <=? 12)
  && (1 <=? day d) && (day d <=? days_in_month (year d) (month d)).

(** [datetime.date(y, m, d)] *)
Definition date_new (y m d : Z) : result date :=
  if valid_date (mkdate y m d) then Ok (mkdate y m d) else Raise ValueError_date.

(** A two-digit field of [strftime]. *)
Definition pad2 (n : Z) : str := rjust 2 "0" (digits n).

(** [d.strftime('%y%m%d')] *)
Definition strftime_ymd (d : date) : str :=
  pad2 (year d mod 100) ++ pad2 (month d) ++ pad2 (day d).

(** [d.strftime('%m%d%y')] *)
Definition strftime_mdy (d : date) : str :=
  pad2 (month d) ++ pad2 (day d) ++ pad2 (year d mod 100).

(** [d.strftime('%Y')]: the year in decimal (four digits from year 1000 on) *)
Definition strftime_Y (d : date) : str := digits (year d).

(* ===================================================================== *)
(** * Arguments of the builders *)
(* ===================================================================== *)

(** The [expiry] argument: a [datetime.date] / [datetime.datetime], or a
    string. *)
Inductive expiry_arg : Type :=
| ExpiryDate (d : date)
| ExpiryStr (s : str).

(** A Python number: the [strike_price] argument and attribute. *)
Inductive number : Type :=
| PyInt (n : Z)
| PyFloat (x : float64).

(** [str(v)], [int(v)], [float(v)] for a number *)
Definition str_of_number (v : number) : str :=
  match v with
  | PyInt n => str_of_int n
  | PyFloat x => str_of_float x
  end.

Definition int_of_number (v : number) : result Z :=
  match v with
  | PyInt n => Ok n
  | PyFloat x => int_of_float x
  end.

Definition float_of_number (v : number) : result float64 :=
  match v with
  | PyInt n => float_of_int n
  | PyFloat x => Ok x
  end.

(** The float written as the literal [s] in a Python program; [nan] when
    [s] is not a literal. *)
Definition float_literal (s : string) : float64 :=
  match float_of_str (lit s) with
  | Ok x => x
  | Raise _ => NaN
  end.

(* ===================================================================== *)
(** * The symbol functions of [options.py] *)
(* ===================================================================== *)

(** ['C' if call_or_put.lower() in ['c', 'call'] else 'P'] *)
Definition option_letter (call_or_put : str) : str :=
  if str_in (lower call_or_put) [lit "c"; lit "call"] then lit "C" else lit "P".

(** The [expiry] handling of [build_option_symbol]. *)
Definition polygon_expiry (expiry : expiry_arg) : result str :=
  match expiry with
  | ExpiryDate d => Ok (strftime_ymd d)
  | ExpiryStr s =>
      if negb (length s =? 6)%nat then Raise ValueError_expiry_length else Ok s
  end.

(** The [strike, strike_dec] pair of [build_option_symbol]. *)
Definition strike_fields (strike_price : number) : result (str * str) :=
  if contains "." (str_of_number strike_price) then
    a <- item 0 (split "." (str_of_number strike_price)) ;;
    b <- item 1 (split "." (str_of_number strike_price)) ;;
    Ok (rjust 5 "0" a, slice_to 3 (ljust 3 "0" b))
  else
    n <- int_of_number strike_price ;;
    Ok (rjust 5 "0" (str_of_int n), lit "000").

Definition build_option_symbol (underlying_symbol : str) (expiry : expiry_arg)
    (call_or_put : str) (strike_price : number) (prefix_o : bool) : result str :=
  expiry <- polygon_expiry expiry ;;
  let call_or_put := option_letter call_or_put in
  sd <- strike_fields strike_price ;;
  let '(strike, strike_dec) := sd in
  if prefix_o then
    Ok (lit "O:" ++ upper underlying_symbol ++ expiry ++ call_or_put ++ strike ++ strike_dec)
  else
    Ok (upper underlying_symbol ++ expiry ++ call_or_put ++ strike ++ strike_dec).

(** The [format_] argument of the TD Ameritrade functions: ['dot'], or
    anything else (['underscore'] by default). *)
Inductive tda_format : Type := Underscore | Dot.

Definition build_option_symbol_for_tda (underlying_symbol : str) (expiry : expiry_arg)
    (call_or_put : str) (strike_price : number) (format_ : tda_format) : result str :=
  let expiry := match expiry with
                | ExpiryDate d => strftime_mdy d
                | ExpiryStr s => s
                end in
  let call_or_put := option_letter call_or_put in
  f <- float_of_number strike_price ;;
  n <- int_of_float f ;;
  let strike_price := if float_eq_int f n then PyInt n else strike_price in
  match format_ with
  | Dot =>
      Ok ("."%char :: underlying_symbol ++ expiry ++ call_or_put ++ str_of_number strike_price)
  | Underscore =>
      Ok (underlying_symbol ++ "_"%char :: expiry ++ call_or_put ++ str_of_number strike_price)
  end.

(** The attributes of an [OptionSymbol] object. *)
Record OptionSymbol : Type := mkOptionSymbol {
  underlying_symbol : str;
  expiry : date;
  call_or_put : str;
  strike_price : number;
  option_symbol : str
}.

Inductive symbol_format : Type := Polygon | Tda.

Section Parsing.

(** [datetime.date.today()] *)
Variable today : date.

(** The first two characters of the current year. *)
Definition century : str := slice_to 2 (strftime_Y today).

(** [OptionSymbol.__init__] with [symbol_format='polygon'] *)
Definition init_polygon (option_symbol : str) : result OptionSymbol :=
  let option_symbol :=
    if startswith (lit "O:") option_symbol then slice_from 2 option_symbol
    else option_symbol in
  let underlying_symbol := drop_last 15 option_symbol in
  let _len := length underlying_symbol in
  let underlying_symbol := filter (fun x => negb (is_digit x)) underlying_symbol in
  let _expiry := slice _len (_len + 6) option_symbol in
  y <- int_of_str (century ++ slice_to 2 _expiry) ;;
  m <- int_of_str (slice 2 4 _expiry) ;;
  d <- int_of_str (slice 4 6 _expiry) ;;
  expiry <- date_new y m d ;;
  c <- index (_len + 6) option_symbol ;;
  let call_or_put := upper [c] in
  n <- int_of_str (slice_from (_len + 7) option_symbol) ;;
  strike_price <- true_divide n 1000 ;;
  Ok (mkOptionSymbol underlying_symbol expiry call_or_put (PyFloat strike_price)
        (underlying_symbol ++ slice_from _len option_symbol)).

(** The number of leading alphabetic characters: the [for char in
    option_symbol] loop of the dot branch. *)
Fixpoint count_alpha (s : str) : nat :=
  match s with
  | c :: r => if is_alpha c then S (count_alpha r) else O
  | [] => O
  end.

(** The rewriting of a dot symbol into an underscore symbol. *)
Definition dot_to_underscore (option_symbol : str) : str :=
  let option_symbol := upper (slice_from 1 option_symbol) in
  let num := count_alpha option_symbol in
  slice_to num option_symbol ++ "_"%char
    :: slice (num + 2) (num + 4) option_symbol
    ++ slice (num + 4) (num + 6) option_symbol
    ++ slice num (num + 2) option_symbol
    ++ slice_from (num + 6) option_symbol.

(** [OptionSymbol.__init__] with [symbol_format='tda'] *)
Definition init_tda (option_symbol : str) (fmt : tda_format) : result OptionSymbol :=
  let option_symbol :=
    match fmt with
    | Dot => dot_to_underscore option_symbol
    | Underscore => option_symbol
    end in
  let _split := split "_" option_symbol in
  underlying_symbol <- item 0 _split ;;
  rest <- item 1 _split ;;
  let _expiry := slice_to 6 rest in
  y <- int_of_str (century ++ slice 4 6 _expiry) ;;
  m <- int_of_str (slice_to 2 _expiry) ;;
  d <- int_of_str (slice 2 4 _expiry) ;;
  expiry <- date_new y m d ;;
  c <- index 6 rest ;;
  f <- float_of_str (slice_from 7 rest) ;;
  n <- int_of_float f ;;
  let strike_price := if float_eq_int f n then PyInt n else PyFloat f in
  Ok (mkOptionSymbol underlying_symbol expiry [c] strike_price option_symbol).

Definition OptionSymbol_init (option_symbol : str) (symbol_format : symbol_format)
    (fmt : tda_format) : result OptionSymbol :=
  match symbol_format with
  | Polygon => init_polygon option_symbol
  | Tda => init_tda option_symbol fmt
  end.

(** [parse_option_symbol], with the default [output_format='object'] *)
Definition parse_option_symbol (option_symbol : str) : result OptionSymbol :=
  OptionSymbol_init option_symbol Polygon Underscore.

(** The [format_] chosen by the TD Ameritrade entry points. *)
Definition tda_format_of (option_symbol : str) : tda_format :=
  if startswith (lit ".") option_symbol then Dot else Underscore.

(** [parse_option_symbol_from_tda], with the default [output_format] *)
Definition parse_option_symbol_from_tda (option_symbol : str) : result OptionSymbol :=
  OptionSymbol_init option_symbol Tda (tda_format_of option_symbol).

Definition convert_from_tda_to_polygon_format (option_symbol : str) (prefix_o : bool)
    : result str :=
  _temp <- OptionSymbol_init option_symbol Tda (tda_format_of option_symbol) ;;
  build_option_symbol (underlying_symbol _temp) (ExpiryDate (expiry _temp))
    (call_or_put _temp) (strike_price _temp) prefix_o.

Definition convert_from_polygon_to_tda_format (option_symbol : str) (format_ : tda_format)
    : result str :=
  _temp <- OptionSymbol_init option_symbol Polygon Underscore ;;
  build_option_symbol_for_tda (underlying_symbol _temp) (ExpiryDate (expiry _temp))
    (call_or_put _temp) (strike_price _temp) format_.

End Parsing.

(** [detect_symbol_format]: [Some] of the format name, [None] for [False] *)
Definition detect_symbol_format (option_symbol : str) : option str :=
  if startswith (lit ".") option_symbol || contains "_" option_symbol then Some (lit "tda")
  else if startswith (lit "O:") option_symbol || (15 <? length option_symbol)%nat
  then Some (lit "polygon")
  else None.

Definition ensure_prefix (symbol : str) : result str :=
  if (length symbol <? 15)%nat then Raise ValueError_symbol_length
  else if startswith (lit "O:") (upper symbol) then Ok (upper symbol)
  else Ok (lit "O:" ++ upper symbol).

(* ===================================================================== *)
(** * Vocabulary of the specification *)
(* ===================================================================== *)

(** A string made of decimal digits only. *)
Definition all_digits (s : str) : Prop := Forall (fun c => is_digit c = true) s.

(** A string without decimal digits. *)
Definition no_digits (s : str) : Prop := Forall (fun c => is_digit c = false) s.

(** [s] starts with the market marker, in either case: ["O:"] or ["o:"]. *)
Definition starts_with_marker_ci (s : str) : Prop :=
  exists a rest, s = a :: ":"%char :: rest /\ (a = "O"%char \/ a = "o"%char).

(** The text of a plain decimal number: the digits [ip] alone, or [ip],
    a point and the digits [fp]. *)
Definition decimal_text (ip fp : str) : str :=
  match fp with
  | [] => ip
  | _ => ip ++ "."%char :: fp
  end.

(** The thousandths denoted by the decimal [ip.fp], cut after the third
    fractional digit: [floor (1000 * ip.fp)]. *)
Definition thousandths (ip fp : str) : Z :=
  digits_value (ip ++ fp) * 1000 / 10 ^ Z.of_nat (length fp).

(** A float compared at three decimals: the integer nearest to
    [1000 * x] (ties to even), [None] for infinities and nan. *)
Definition millis (x : float64) : option Z :=
  match x with
  | Finite neg m e =>
      let num := 1000 * m * 2 ^ Z.max e 0 in
      let den := 2 ^ Z.max (- e) 0 in
      let q := num / den in
      let r := num mod den in
      let a := if (den <? 2 * r) || ((den =? 2 * r) && Z.odd q) then q + 1 else q in
      Some (if neg then - a else a)
  | _ => None
  end.

(** [x] is exactly the rational [n / d]. *)
Definition exact_quotient (x : float64) (n d : Z) : Prop :=
  match x with
  | Finite neg m e =>
      (if neg then - m else m) * 2 ^ Z.max e 0 * d = n * 2 ^ Z.max (- e) 0
  | _ => False
  end.

(** [x] is within half a unit in its last place of [n / d]: no float is
    nearer to the quotient. *)
Definition nearest_to_quotient (x : float64) (n d : Z) : Prop :=
  match x with
  | Finite neg m e =>
      2 * Z.abs ((if neg then - m else m) * 2 ^ Z.max e 0 * d - n * 2 ^ Z.max (- e) 0)
      <= d * 2 ^ Z.max e 0
  | _ => False
  end.

(** The expiry can be read back by the parser: a calendar date whose
    century is the current one, the year being written with four digits. *)
Definition expiry_in_current_century (today d : date) : Prop :=
  valid_date d = true /\ 1000 <= year today <= 9999 /\ year d / 100 = year today / 100.

(** The underlying can be read back: no digit in it, and no leading marker
    that the parser would strip (the builder's own marker apart). *)
Definition underlying_readable (u : str) (prefix_o : bool) : Prop :=
  no_digits u /\ (prefix_o = false -> startswith (lit "O:") (upper u) = false).

(** Re-encoding of a parsed TD Ameritrade symbol in the variant it was
    written in. *)
Definition tda_reencode (today : date) (s : str) : result str :=
  o <- parse_option_symbol_from_tda today s ;;
  build_option_symbol_for_tda (underlying_symbol o) (ExpiryDate (expiry o))
    (call_or_put o) (strike_price o) (tda_format_of s).

(** A string of 7-bit ASCII characters: on such a string [upper] and
    [lower] are [str.upper] and [str.lower]. *)
Definition ascii_only (s : str) : Prop := Forall (fun c => (code c <? 128) = true) s.

(** [cp] is the letter c or the word call, each letter in either case. *)
Definition spells_call (cp : str) : Prop :=
  (exists a, cp = [a] /\ (a = "c"%char \/ a = "C"%char))
  \/ (exists a b c d,
        cp = [a; b; c; d]
        /\ (a = "c"%char \/ a = "C"%char) /\ (b = "a"%char \/ b = "A"%char)
        /\ (c = "l"%char \/ c = "L"%char) /\ (d = "l"%char \/ d = "L"%char)).

(** All characters, for facts checked character by character. *)
Definition forall_ascii (P : ascii -> bool) : bool :=
  forallb (fun n => P (ascii_of_nat n)) (seq 0 256).

(* ===================================================================== *)
(** * Characters and strings *)
(* ===================================================================== *)

Lemma forall_ascii_spec (P : ascii -> bool) :
  forall_ascii P = true -> forall c, P c = true.
Proof.
  unfold forall_ascii. intros H c.
  rewrite forallb_forall in H.
  rewrite <- (ascii_nat_embedding c).
  apply H, in_seq. pose proof (nat_ascii_bounded c). lia.
Qed.

Lemma eqb_char_eq (a b : ascii) : eqb_char a b = true <-> a = b.
Proof. apply Ascii.eqb_eq. Qed.

Lemma eqb_char_refl (a : ascii) : eqb_char a a = true.
Proof. apply Ascii.eqb_refl. Qed.

Lemma eqb_str_eq (a b : str) : eqb_str a b = true <-> a = b.
Proof.
  revert b. induction a as [|x a IH]; intros [|y b]; simpl; split; intro H;
    try reflexivity; try discriminate.
  - apply andb_true_iff in H as [H1 H2].
    apply eqb_char_eq in H1. apply IH in H2. congruence.
  - injection H as -> ->. rewrite eqb_char_refl. simpl. now apply IH.
Qed.

Lemma startswith_iff (p s : str) :
  startswith p s = true <-> exists r, s = p ++ r.
Proof.
  revert s. induction p as [|x p IH]; intros s; simpl.
  - split; [intros _; now exists s | reflexivity].
  - destruct s as [|y s].
    + split; [discriminate | intros [r H]; discriminate].
    + rewrite andb_true_iff, eqb_char_eq, IH. split.
      * intros [-> [r ->]]. now exists r.
      * intros [r H]. injection H as -> ->. split; [reflexivity | now exists r].
Qed.

Lemma startswith_app (p r : str) : startswith p (p ++ r) = true.
Proof. apply startswith_iff. now exists r. Qed.

Lemma contains_In (c : ascii) (s : str) : contains c s = true <-> In c s.
Proof.
  unfold contains. rewrite existsb_exists. split.
  - intros [x [Hin Heq]]. apply eqb_char_eq in Heq. now subst.
  - intros H. exists c. split; [assumption | apply eqb_char_refl].
Qed.

Lemma contains_false (c : ascii) (s : str) : contains c s = false <-> ~ In c s.
Proof.
  rewrite <- contains_In. destruct (contains c s); intuition congruence.
Qed.

Lemma length_upper (s : str) : length (upper s) = length s.
Proof. apply length_map. Qed.

Lemma upper_app (a b : str) : upper (a ++ b) = upper a ++ upper b.
Proof. apply map_app. Qed.

Lemma upper_char_idem (c : ascii) : upper_char (upper_char c) = upper_char c.
Proof.
  apply eqb_char_eq.
  apply (forall_ascii_spec (fun c => eqb_char (upper_char (upper_char c)) (upper_char c))).
  vm_compute. reflexivity.
Qed.

Lemma upper_idem (s : str) : upper (upper s) = upper s.
Proof.
  unfold upper. rewrite map_map. apply map_ext. intros c. apply upper_char_idem.
Qed.

Lemma upper_char_O (c : ascii) :
  upper_char c = "O"%char <-> c = "O"%char \/ c = "o"%char.
Proof.
  pose proof (forall_ascii_spec
    (fun c => Bool.eqb (eqb_char (upper_char c) "O")
                       (eqb_char c "O" || eqb_char c "o"))) as H.
  specialize (H eq_refl c). apply Bool.eqb_prop in H.
  rewrite <- !eqb_char_eq, <- orb_true_iff, H. reflexivity.
Qed.

Lemma upper_char_colon (c : ascii) : upper_char c = ":"%char <-> c = ":"%char.
Proof.
  pose proof (forall_ascii_spec
    (fun c => Bool.eqb (eqb_char (upper_char c) ":") (eqb_char c ":"))) as H.
  specialize (H eq_refl c). apply Bool.eqb_prop in H.
  rewrite <- !eqb_char_eq, H. reflexivity.
Qed.

Lemma marker_ci_iff (s : str) :
  startswith (lit "O:") (upper s) = true <-> starts_with_marker_ci s.
Proof.
  rewrite startswith_iff. unfold starts_with_marker_ci. split.
  - intros [r H]. destruct s as [|a [|b s]]; try discriminate.
    change (upper_char a :: upper_char b :: upper s = "O"%char :: ":"%char :: r) in H.
    injection H; intros _ Hb Ha.
    apply (proj1 (upper_char_O a)) in Ha.
    apply (proj1 (upper_char_colon b)) in Hb. subst b.
    now exists a, s.
  - intros (a & rest & -> & Ha). exists (upper rest).
    change (upper_char a :: upper_char ":" :: upper rest
            = "O"%char :: ":"%char :: upper rest).
    apply (proj2 (upper_char_O a)) in Ha. now rewrite Ha.
Qed.

Lemma firstn_exact {A : Type} (a b : list A) (n : nat) :
  length a = n -> firstn n (a ++ b) = a.
Proof.
  intros <-. rewrite firstn_app, Nat.sub_diag, firstn_all. simpl. apply app_nil_r.
Qed.

Lemma skipn_exact {A : Type} (a b : list A) (n : nat) :
  length a = n -> skipn n (a ++ b) = b.
Proof.
  intros <-. rewrite skipn_app, Nat.sub_diag, skipn_all. reflexivity.
Qed.

(* ===================================================================== *)
(** * Decimal digits *)
(* ===================================================================== *)

Lemma is_digit_val (c : ascii) :
  is_digit c = true -> 0 <= digit_val c <= 9 /\ digit_char (digit_val c) = c.
Proof.
  pose proof (forall_ascii_spec
    (fun c => implb (is_digit c)
                ((0 <=? digit_val c) && (digit_val c <=? 9)
                 && eqb_char (digit_char (digit_val c)) c))) as H.
  specialize (H eq_refl c). cbv beta in H. intros Hd. rewrite Hd in H. simpl in H.
  apply andb_true_iff in H as [H H3]. apply andb_true_iff in H as [H1 H2].
  apply eqb_char_eq in H3. apply Z.leb_le in H1, H2. split; [lia | assumption].
Qed.

Lemma digit_char_val (d : Z) :
  0 <= d <= 9 -> is_digit (digit_char d) = true /\ digit_val (digit_char d) = d.
Proof.
  intros H.
  assert (d = 0 \/ d = 1 \/ d = 2 \/ d = 3 \/ d = 4 \/ d = 5 \/ d = 6 \/ d = 7
          \/ d = 8 \/ d = 9) as Hd by lia.
  repeat (destruct Hd as [-> | Hd]; [split; reflexivity|]). subst. split; reflexivity.
Qed.

Lemma digit_not_space (c : ascii) : is_digit c = true -> is_space c = false.
Proof.
  pose proof (forall_ascii_spec
    (fun c => implb (is_digit c) (negb (is_space c)))) as H.
  specialize (H eq_refl c). cbv beta in H. intros Hd. rewrite Hd in H. simpl in H.
  now apply negb_true_iff in H.
Qed.

Lemma digit_not_sign (c : ascii) :
  is_digit c = true -> eqb_char c "-" = false /\ eqb_char c "+" = false.
Proof.
  pose proof (forall_ascii_spec
    (fun c => implb (is_digit c) (negb (eqb_char c "-") && negb (eqb_char c "+")))) as H.
  specialize (H eq_refl c). cbv beta in H. intros Hd. rewrite Hd in H. simpl in H.
  apply andb_true_iff in H as [H1 H2].
  now rewrite negb_true_iff in H1, H2.
Qed.

Lemma digit_not_point (c : ascii) : is_digit c = true -> c <> "."%char.
Proof. intros H ->. discriminate. Qed.

Lemma digits_value_snoc (s : str) (c : ascii) :
  digits_value (s ++ [c]) = 10 * digits_value s + digit_val c.
Proof. unfold digits_value. now rewrite fold_left_app. Qed.

Lemma digits_value_app (a b : str) :
  digits_value (a ++ b) = digits_value a * 10 ^ Z.of_nat (length b) + digits_value b.
Proof.
  induction b as [|c b IH] using rev_ind.
  - rewrite app_nil_r. simpl. unfold digits_value at 3. simpl. lia.
  - rewrite app_assoc, !digits_value_snoc, IH, length_app. simpl length.
    rewrite Nat2Z.inj_add, Z.pow_add_r by lia. change (10 ^ Z.of_nat 1) with 10. lia.
Qed.

Lemma digits_value_cons (c : ascii) (s : str) :
  digits_value (c :: s) = digit_val c * 10 ^ Z.of_nat (length s) + digits_value s.
Proof.
  change (c :: s) with ([c] ++ s). rewrite digits_value_app.
  unfold digits_value at 1. simpl. lia.
Qed.

Lemma digits_value_bound (s : str) :
  all_digits s -> 0 <= digits_value s < 10 ^ Z.of_nat (length s).
Proof.
  induction s as [|c s IH] using rev_ind; intros H.
  - unfold digits_value. simpl. lia.
  - apply Forall_app in H as [Hs Hc]. inversion Hc as [|? ? Hd _]; subst.
    apply is_digit_val in Hd as [Hd _]. specialize (IH Hs).
    rewrite digits_value_snoc, length_app. simpl length.
    rewrite Nat2Z.inj_add, Z.pow_add_r by lia. change (10 ^ Z.of_nat 1) with 10. lia.
Qed.

Lemma digits_value_zeros (k : nat) (s : str) :
  digits_value (repeat "0"%char k ++ s) = digits_value s.
Proof.
  induction k as [|k IH]; simpl; [reflexivity|].
  rewrite digits_value_cons, IH. change (digit_val "0") with 0. lia.
Qed.

Lemma all_digits_zeros (k : nat) : all_digits (repeat "0"%char k).
Proof. induction k; simpl; constructor; [reflexivity | assumption]. Qed.

(** [str(n)] of a non-negative int: its decimal digits. *)
Lemma digits_fuel_spec (fuel : nat) :
  forall n acc, 0 <= n < 10 ^ Z.of_nat (S fuel) ->
  exists ds, digits_fuel fuel n acc = ds ++ acc
             /\ all_digits ds /\ ds <> [] /\ digits_value ds = n
             /\ forall k, (1 <= k)%nat -> n < 10 ^ Z.of_nat k -> (length ds <= k)%nat.
Proof.
  induction fuel as [|f IH]; intros n acc Hn.
  - change (10 ^ Z.of_nat 1) with 10 in Hn.
    exists [digit_char n]. simpl. rewrite Z.mod_small by lia.
    destruct (digit_char_val (d := n)) as [H1 H2]; [lia|].
    split; [reflexivity|]. split; [repeat constructor; assumption|].
    split; [discriminate|]. split; [unfold digits_value; simpl; lia|].
    intros k Hk _. simpl. lia.
  - simpl digits_fuel. destruct (n <? 10) eqn:Hlt.
    + apply Z.ltb_lt in Hlt. exists [digit_char n].
      destruct (digit_char_val (d := n)) as [H1 H2]; [lia|].
      split; [reflexivity|]. split; [repeat constructor; assumption|].
      split; [discriminate|]. split; [unfold digits_value; simpl; lia|].
      intros k Hk _. simpl. lia.
    + apply Z.ltb_ge in Hlt.
      assert (Hq : 0 <= n / 10 < 10 ^ Z.of_nat (S f)).
      { split; [apply Z.div_pos; lia|].
        apply Z.div_lt_upper_bound; [lia|].
        replace (10 * 10 ^ Z.of_nat (S f)) with (10 ^ Z.of_nat (S (S f))); [lia|].
        rewrite (Nat2Z.inj_succ (S f)), Z.pow_succ_r by lia. reflexivity. }
      destruct (IH (n / 10) (digit_char (n mod 10) :: acc) Hq)
        as (ds & Heq & Hall & Hne & Hval & Hlen).
      pose proof (Z.mod_pos_bound n 10 ltac:(lia)) as Hm.
      destruct (digit_char_val (d := n mod 10)) as [H1 H2]; [lia|].
      exists (ds ++ [digit_char (n mod 10)]).
      split; [rewrite Heq, <- app_assoc; reflexivity|].
      split; [apply Forall_app; split; [assumption | repeat constructor; assumption]|].
      split; [intros E; now apply app_eq_nil in E as [_ E]|].
      split; [rewrite digits_value_snoc, Hval, H2; symmetry; apply Z.div_mod; lia|].
      intros k Hk Hnk. rewrite length_app. simpl.
        destruct k as [|[|k]]; [lia | change (10 ^ Z.of_nat 1) with 10 in Hnk; lia |].
        assert (length ds <= S k)%nat; [|lia].
        apply Hlen; [lia|]. apply Z.div_lt_upper_bound; [lia|].
        rewrite (Nat2Z.inj_succ (S k)), Z.pow_succ_r in Hnk by lia. exact Hnk.
Qed.

Lemma digits_spec (n : Z) :
  0 <= n ->
  all_digits (digits n) /\ digits n <> [] /\ digits_value (digits n) = n
  /\ forall k, (1 <= k)%nat -> n < 10 ^ Z.of_nat k -> (length (digits n) <= k)%nat.
Proof.
  intros Hn. unfold digits.
  assert (Hb : 0 <= n < 10 ^ Z.of_nat (S (Z.to_nat (Z.log2 n)))).
  { split; [assumption|].
    destruct (Z.eq_dec n 0) as [->|Hz]; [simpl; lia|].
    pose proof (Z.log2_spec n ltac:(lia)) as [_ Hl].
    pose proof (Z.log2_nonneg n).
    rewrite Nat2Z.inj_succ, Z2Nat.id by lia.
    eapply Z.lt_le_trans; [exact Hl|].
    apply Z.pow_le_mono_l. lia. }
  destruct (digits_fuel_spec (Z.to_nat (Z.log2 n)) [] Hb)
    as (ds & Heq & H1 & H2 & H3 & H4).
  rewrite app_nil_r in Heq. rewrite Heq. auto.
Qed.

Lemma digits_length_lower (s : str) (k : nat) :
  all_digits s -> 10 ^ Z.of_nat k <= digits_value s -> (k < length s)%nat.
Proof.
  intros Hs Hk. pose proof (digits_value_bound Hs) as [_ Hb].
  destruct (Nat.lt_ge_cases k (length s)) as [|Hge]; [assumption|].
  assert (10 ^ Z.of_nat (length s) <= 10 ^ Z.of_nat k)
    by (apply Z.pow_le_mono_r; lia).
  lia.
Qed.

Lemma rjust_digits (k : nat) (s : str) :
  all_digits s -> (length s <= k)%nat ->
  all_digits (rjust k "0" s) /\ length (rjust k "0" s) = k
  /\ digits_value (rjust k "0" s) = digits_value s.
Proof.
  intros Hs Hk. unfold rjust. repeat split.
  - apply Forall_app. split; [apply all_digits_zeros | assumption].
  - rewrite length_app, repeat_length. lia.
  - apply digits_value_zeros.
Qed.

(** A two-digit [strftime] field. *)
Lemma pad2_spec (n : Z) :
  0 <= n < 100 ->
  all_digits (pad2 n) /\ length (pad2 n) = 2%nat /\ digits_value (pad2 n) = n.
Proof.
  intros Hn. destruct (digits_spec (n := n)) as (H1 & H2 & H3 & H4); [lia|].
  unfold pad2.
  destruct (@rjust_digits 2 (digits n) H1) as (R1 & R2 & R3).
  - apply H4; [lia | simpl; lia].
  - rewrite R3, H3. auto.
Qed.

(** ** [int(str)] on a run of digits *)

Lemma lstrip_digits (s : str) : all_digits s -> lstrip s = s.
Proof.
  intros H. destruct s as [|c s]; [reflexivity|].
  inversion H as [|? ? Hc _]; subst. simpl. now rewrite (digit_not_space _ Hc).
Qed.

Lemma strip_digits (s : str) : all_digits s -> strip s = s.
Proof.
  intros H. unfold strip. rewrite (lstrip_digits H).
  rewrite lstrip_digits by (now apply Forall_rev). apply rev_involutive.
Qed.

Lemma digitpart_tail_digits (s : str) : all_digits s -> digitpart_tail s = Some s.
Proof.
  induction 1 as [|c s Hc Hs IH]; simpl; [reflexivity|].
  now rewrite Hc, IH.
Qed.

Lemma digitpart_digits (s : str) :
  all_digits s -> s <> [] -> digitpart s = Some s.
Proof.
  intros H Hne. destruct s as [|c s]; [congruence|].
  inversion H as [|? ? Hc Hs]; subst. simpl.
  now rewrite Hc, (digitpart_tail_digits Hs).
Qed.

Lemma split_sign_digits (s : str) : all_digits s -> split_sign s = (false, s).
Proof.
  intros H. destruct s as [|c s]; [reflexivity|].
  inversion H as [|? ? Hc _]; subst. simpl.
  destruct (digit_not_sign _ Hc) as [-> ->]. reflexivity.
Qed.

Lemma int_of_str_digits (s : str) :
  all_digits s -> s <> [] -> int_of_str s = Ok (digits_value s).
Proof.
  intros H Hne. unfold int_of_str.
  now rewrite (strip_digits H), (split_sign_digits H), (digitpart_digits H Hne).
Qed.

(* ===================================================================== *)
(** * [ensure_prefix] *)
(* ===================================================================== *)

Lemma ensure_prefix_long (s : str) :
  (15 <= length s)%nat ->
  ensure_prefix s
  = Ok (if startswith (lit "O:") (upper s) then upper s else lit "O:" ++ upper s).
Proof.
  intros H. unfold ensure_prefix.
  destruct (length s <? 15)%nat eqn:E; [apply Nat.ltb_lt in E; lia|].
  now destruct (startswith (lit "O:") (upper s)).
Qed.

Lemma ensure_prefix_fixed (r : str) :
  (15 <= length r)%nat -> startswith (lit "O:") r = true -> upper r = r ->
  ensure_prefix r = Ok r.
Proof.
  intros Hl Hs Hu. rewrite (ensure_prefix_long _ Hl), Hu, Hs. reflexivity.
Qed.

(** C10. [ensure_prefix] raises exactly on the symbols shorter than 15
    characters. On any other symbol it returns the uppercased symbol,
    as it is when the symbol already starts with ["O:"] in either case and
    behind an added ["O:"] when it does not; the result starts with
    ["O:"], is uppercase, and [ensure_prefix] maps it to itself, so that
    applying [ensure_prefix] twice is the same as applying it once. *)
Theorem ensure_prefix_spec (s : str) :
  (raises (ensure_prefix s) = true <-> (length s < 15)%nat)
  /\ ((15 <= length s)%nat ->
      exists r, ensure_prefix s = Ok r
        /\ (starts_with_marker_ci s -> r = upper s)
        /\ (~ starts_with_marker_ci s -> r = lit "O:" ++ upper s)
        /\ startswith (lit "O:") r = true
        /\ upper r = r
        /\ ensure_prefix r = Ok r
        /\ (r0 <- ensure_prefix s ;; ensure_prefix r0) = ensure_prefix s).
Proof.
  split.
  - unfold ensure_prefix. destruct (length s <? 15)%nat eqn:E.
    + apply Nat.ltb_lt in E. simpl. tauto.
    + apply Nat.ltb_ge in E.
      destruct (startswith (lit "O:") (upper s)); simpl; split;
        [discriminate | lia | discriminate | lia].
  - intros Hl. rewrite (ensure_prefix_long _ Hl).
    destruct (startswith (lit "O:") (upper s)) eqn:Hs.
    + assert (Hfix : ensure_prefix (upper s) = Ok (upper s)).
      { apply ensure_prefix_fixed; [now rewrite length_upper | assumption | apply upper_idem]. }
      exists (upper s).
      split; [reflexivity|]. split; [reflexivity|].
      split; [intros Hn; exfalso; apply Hn; now apply marker_ci_iff|].
      split; [assumption|]. split; [apply upper_idem|].
      split; [exact Hfix | exact Hfix].
    + assert (Hfix : ensure_prefix (lit "O:" ++ upper s) = Ok (lit "O:" ++ upper s)).
      { apply ensure_prefix_fixed.
        - rewrite length_app, length_upper. lia.
        - apply startswith_app.
        - rewrite upper_app, upper_idem. reflexivity. }
      exists (lit "O:" ++ upper s).
      split; [reflexivity|].
      split; [intros Hm; apply marker_ci_iff in Hm; congruence|].
      split; [reflexivity|]. split; [apply startswith_app|].
      split; [rewrite upper_app, upper_idem; reflexivity|].
      split; [exact Hfix | exact Hfix].
Qed.

Lemma ensure_prefix_spec_witness :
  exists r, ensure_prefix (lit "tsla211015p00125000") = Ok r
    /\ r = lit "O:TSLA211015P00125000" /\ ensure_prefix r = Ok r.
Proof.
  destruct (ensure_prefix_spec (lit "tsla211015p00125000")) as [_ H].
  destruct H as (r & H1 & _ & H3 & _ & _ & H6 & _); [vm_compute; lia|].
  exists r. split; [exact H1|]. split; [|exact H6].
  apply H3. intros (a & rest & H & _). discriminate H.
Defined.

(* ===================================================================== *)
(** * [detect_symbol_format] *)
(* ===================================================================== *)

(** C6. [detect_symbol_format] answers ['tda'] exactly for the strings
    that start with a dot or contain an underscore; among the others it
    answers ['polygon'] exactly for those that start with ["O:"] or are
    longer than 15 characters, and [False] (here [None]) for the rest.
    [".TSLA210903C700"] is detected as a TD Ameritrade symbol, of the dot
    variant for the TD Ameritrade parser, and ["O:TSLA211015P00125000"] as
    a polygon symbol. *)
Theorem detect_symbol_format_spec (s : str) :
  let tda_like := (exists r, s = "."%char :: r) \/ In "_"%char s in
  let polygon_like := (exists r, s = lit "O:" ++ r) \/ (15 < length s)%nat in
  (detect_symbol_format s = Some (lit "tda") <-> tda_like)
  /\ (detect_symbol_format s = Some (lit "polygon") <-> ~ tda_like /\ polygon_like)
  /\ (detect_symbol_format s = None <-> ~ tda_like /\ ~ polygon_like)
  /\ detect_symbol_format (lit ".TSLA210903C700") = Some (lit "tda")
  /\ tda_format_of (lit ".TSLA210903C700") = Dot
  /\ detect_symbol_format (lit "O:TSLA211015P00125000") = Some (lit "polygon").
Proof.
  intros tda_like polygon_like.
  assert (Ht : startswith (lit ".") s || contains "_" s = true <-> tda_like).
  { rewrite orb_true_iff, startswith_iff, contains_In. reflexivity. }
  assert (Hp : startswith (lit "O:") s || (15 <? length s)%nat = true <-> polygon_like).
  { rewrite orb_true_iff, startswith_iff, Nat.ltb_lt. reflexivity. }
  unfold detect_symbol_format.
  destruct (startswith (lit ".") s || contains "_" s);
    destruct (startswith (lit "O:") s || (15 <? length s)%nat);
    repeat split; try reflexivity; try discriminate; try tauto;
    try (intros; exfalso; intuition congruence); intuition congruence.
Qed.

(* ===================================================================== *)
(** * The builders: option type, expiry, concrete symbols *)
(* ===================================================================== *)

Lemma option_letter_cases (cp : str) :
  (str_in (lower cp) [lit "c"; lit "call"] = true
   <-> lower cp = lit "c" \/ lower cp = lit "call").
Proof.
  unfold str_in. simpl. rewrite orb_false_r, orb_true_iff, !eqb_str_eq. reflexivity.
Qed.

(** The characters that [lower] turns into a given lowercase letter:
    the letter itself and its capital. *)
Lemma lower_char_preimage (l u x : ascii) :
  forall_ascii (fun y => Bool.eqb (eqb_char (lower_char y) l)
                                  (eqb_char y l || eqb_char y u)) = true ->
  (lower_char x = l <-> x = l \/ x = u).
Proof.
  intros H.
  pose proof (forall_ascii_spec _ H x) as Hx. cbv beta in Hx.
  apply Bool.eqb_prop in Hx.
  rewrite <- !eqb_char_eq, <- orb_true_iff, Hx. reflexivity.
Qed.

Lemma lower_char_c (x : ascii) :
  lower_char x = "c"%char <-> x = "c"%char \/ x = "C"%char.
Proof. apply lower_char_preimage. vm_compute. reflexivity. Qed.

Lemma lower_char_a (x : ascii) :
  lower_char x = "a"%char <-> x = "a"%char \/ x = "A"%char.
Proof. apply lower_char_preimage. vm_compute. reflexivity. Qed.

Lemma lower_char_l (x : ascii) :
  lower_char x = "l"%char <-> x = "l"%char \/ x = "L"%char.
Proof. apply lower_char_preimage. vm_compute. reflexivity. Qed.

(** [call_or_put.lower() in ['c', 'call']], character by character. *)
Lemma spells_call_lower (cp : str) :
  spells_call cp <-> lower cp = lit "c" \/ lower cp = lit "call".
Proof.
  change (lit "c") with ["c"%char].
  change (lit "call") with ["c"%char; "a"%char; "l"%char; "l"%char].
  unfold spells_call, lower. split.
  - intros [(a & -> & Ha)|(a & b & c & d & -> & Ha & Hb & Hc & Hd)]; cbn [map].
    + left. apply lower_char_c in Ha. now rewrite Ha.
    + right. apply lower_char_c in Ha. apply lower_char_a in Hb.
      apply lower_char_l in Hc. apply lower_char_l in Hd.
      now rewrite Ha, Hb, Hc, Hd.
  - intros [H|H].
    + destruct cp as [|a [|b r]]; cbn [map] in H; try discriminate H.
      injection H as H. left. exists a. split; [reflexivity | now apply lower_char_c].
    + destruct cp as [|a [|b [|c [|d [|e r]]]]]; cbn [map] in H; try discriminate H.
      injection H as Ha Hb Hc Hd. right. exists a, b, c, d.
      split; [reflexivity|].
      split; [now apply lower_char_c|]. split; [now apply lower_char_a|].
      split; now apply lower_char_l.
Qed.

(** C7. The builders emit ['C'] exactly when [call_or_put] is the letter
    c or the word call, each letter in lower or upper case ([c], [C],
    [call], [CALL], [Call], ...), which is when the lowercased argument is
    ['c'] or ['call']; they emit ['P'] for every other string ([p], [put],
    [PUT], but also [cal], [calls] and the empty string). The argument has
    no other effect: whether a builder raises, and every other character
    of its result, do not depend on it. *)
Theorem option_letter_spec (cp : str) :
  (option_letter cp = lit "C" <-> spells_call cp)
  /\ (option_letter cp = lit "P" <-> ~ spells_call cp)
  /\ (spells_call cp <-> lower cp = lit "c" \/ lower cp = lit "call")
  /\ (option_letter (lit "c") = lit "C" /\ option_letter (lit "C") = lit "C"
      /\ option_letter (lit "call") = lit "C" /\ option_letter (lit "CALL") = lit "C"
      /\ option_letter (lit "Call") = lit "C")
  /\ (option_letter (lit "p") = lit "P" /\ option_letter (lit "put") = lit "P"
      /\ option_letter (lit "PUT") = lit "P" /\ option_letter (lit "cal") = lit "P"
      /\ option_letter (lit "calls") = lit "P" /\ option_letter [] = lit "P")
  /\ (forall u e k p,
        (exists err, forall cp', build_option_symbol u e cp' k p = Raise err)
        \/ (exists pre post, forall cp',
              build_option_symbol u e cp' k p = Ok (pre ++ option_letter cp' ++ post)))
  /\ (forall u e k f,
        (exists err, forall cp', build_option_symbol_for_tda u e cp' k f = Raise err)
        \/ (exists pre post, forall cp',
              build_option_symbol_for_tda u e cp' k f
              = Ok (pre ++ option_letter cp' ++ post))).
Proof.
  pose proof (option_letter_cases cp) as Hc.
  rewrite <- spells_call_lower in Hc.
  split; [|split; [|split; [apply spells_call_lower|split; [|split; [|split]]]]].
  - unfold option_letter. destruct (str_in (lower cp) [lit "c"; lit "call"]).
    + split; [intros _; now apply Hc | reflexivity].
    + split; [discriminate | intros H; apply Hc in H; discriminate].
  - unfold option_letter. destruct (str_in (lower cp) [lit "c"; lit "call"]).
    + split; [discriminate | intros H; exfalso; apply H; now apply Hc].
    + split; [intros _ H; apply Hc in H; discriminate | reflexivity].
  - repeat split; vm_compute; reflexivity.
  - repeat split; vm_compute; reflexivity.
  - intros u e k p. unfold build_option_symbol.
    destruct (polygon_expiry e) as [ex|err]; [|left; now exists err].
    destruct (strike_fields k) as [[a b]|err]; [|left; now exists err].
    right. destruct p.
    + exists (lit "O:" ++ upper u ++ ex), (a ++ b). intros cp'. simpl bind.
      now rewrite <- !app_assoc.
    + exists (upper u ++ ex), (a ++ b). intros cp'. simpl bind.
      now rewrite <- !app_assoc.
  - intros u e k f. unfold build_option_symbol_for_tda.
    destruct (float_of_number k) as [x|err]; cbn [bind]; [|left; now exists err].
    destruct (int_of_float x) as [n|err]; cbn [bind]; [|left; now exists err].
    right.
    set (ex := match e with ExpiryDate d => strftime_mdy d | ExpiryStr s => s end).
    set (st := str_of_number (if float_eq_int x n then PyInt n else k)).
    destruct f.
    + exists (u ++ "_"%char :: ex), st. intros cp'.
      now rewrite <- app_assoc, <- app_comm_cons.
    + exists ("."%char :: u ++ ex), st. intros cp'.
      now rewrite <- app_comm_cons, <- !app_assoc.
Qed.

Lemma two_digits (s : str) (n : Z) :
  all_digits s -> length s = 2%nat -> digits_value s = n ->
  s = [digit_char (n / 10); digit_char (n mod 10)].
Proof.
  intros Hs Hl <-. destruct s as [|a [|b [|c r]]]; try discriminate.
  inversion Hs as [|? ? Ha Hs']; subst. inversion Hs' as [|? ? Hb _]; subst.
  apply is_digit_val in Ha as [Ha1 Ha2]. apply is_digit_val in Hb as [Hb1 Hb2].
  assert (Hv : digits_value [a; b] = 10 * digit_val a + digit_val b)
    by (unfold digits_value; cbn [fold_left]; lia).
  rewrite Hv.
  replace ((10 * digit_val a + digit_val b) / 10) with (digit_val a)
    by (apply Z.div_unique with (r := digit_val b); lia).
  replace ((10 * digit_val a + digit_val b) mod 10) with (digit_val b)
    by (apply Z.mod_unique with (q := digit_val a); lia).
  now rewrite Ha2, Hb2.
Qed.

Lemma pad2_explicit (n : Z) :
  0 <= n < 100 -> pad2 n = [digit_char (n / 10); digit_char (n mod 10)].
Proof.
  intros H. destruct (pad2_spec H) as (H1 & H2 & H3). now apply two_digits.
Qed.

Lemma valid_date_bounds (d : date) :
  valid_date d = true ->
  1 <= year d <= 9999 /\ 1 <= month d <= 12 /\ 1 <= day d <= 31.
Proof.
  unfold valid_date, days_in_month. intros H.
  repeat (apply andb_true_iff in H as [H ?]).
  repeat match goal with
         | [ E : (_ <=? _) = true |- _ ] => apply Z.leb_le in E
         end.
  repeat split; try lia.
  destruct (month d =? 2); [destruct (is_leap (year d)); lia|].
  destruct ((month d =? 4) || (month d =? 6) || (month d =? 9) || (month d =? 11)); lia.
Qed.

Lemma strike_fields_no_expiry_error (k : number) :
  strike_fields k <> Raise ValueError_expiry_length.
Proof.
  unfold strike_fields.
  destruct (contains "." (str_of_number k)).
  - destruct (split "." (str_of_number k)) as [|a [|b l]]; simpl; discriminate.
  - destruct k as [n|[neg m e|neg|]]; simpl; discriminate.
Qed.

(** C8. In [build_option_symbol] a date is always accepted and written
    as the six digits [YYMMDD]; a string of six characters is accepted as
    it is, whatever it contains; a string of any other length raises the
    expiry [ValueError]. That is the only check: the builder raises this
    error for no other expiry, and an accepted expiry is copied into the
    symbol unchanged. *)
Theorem expiry_validation (u cp : str) (k : number) (p : bool) :
  (forall d, polygon_expiry (ExpiryDate d) = Ok (strftime_ymd d))
  /\ (forall d, valid_date d = true ->
        strftime_ymd d
        = map digit_char [year d mod 100 / 10; year d mod 10;
                          month d / 10; month d mod 10; day d / 10; day d mod 10])
  /\ (forall s, length s = 6%nat -> polygon_expiry (ExpiryStr s) = Ok s)
  /\ (forall s, length s <> 6%nat ->
        polygon_expiry (ExpiryStr s) = Raise ValueError_expiry_length)
  /\ (forall e, build_option_symbol u e cp k p = Raise ValueError_expiry_length
                <-> exists s, e = ExpiryStr s /\ length s <> 6%nat)
  /\ (forall e ex, polygon_expiry e = Ok ex ->
        build_option_symbol u e cp k p
        = (sd <- strike_fields k ;;
           Ok ((if p then lit "O:" else []) ++ upper u ++ ex
               ++ option_letter cp ++ fst sd ++ snd sd))).
Proof.
  assert (Hstr : forall s, polygon_expiry (ExpiryStr s)
                 = if (length s =? 6)%nat then Ok s else Raise ValueError_expiry_length).
  { intros s. unfold polygon_expiry. now destruct (length s =? 6)%nat. }
  split; [reflexivity|]. split; [|split; [|split; [|split]]].
  - intros d Hd. apply valid_date_bounds in Hd as (Hy & Hm & Hdd).
    unfold strftime_ymd.
    pose proof (Z.mod_pos_bound (year d) 100 ltac:(lia)) as Hyy.
    rewrite !pad2_explicit by lia. simpl.
    replace (year d mod 100 mod 10) with (year d mod 10)
      by (Z.to_euclidean_division_equations; lia).
    reflexivity.
  - intros s Hs. rewrite Hstr, Hs. reflexivity.
  - intros s Hs. rewrite Hstr. destruct (length s =? 6)%nat eqn:E; [|reflexivity].
    apply Nat.eqb_eq in E. contradiction.
  - intros e. unfold build_option_symbol. split.
    + destruct e as [d|s].
      * simpl. pose proof (strike_fields_no_expiry_error k) as Hk.
        destruct (strike_fields k) as [[a b]|err]; simpl.
        -- destruct p; discriminate.
        -- congruence.
      * rewrite Hstr. destruct (length s =? 6)%nat eqn:E.
        -- simpl. pose proof (strike_fields_no_expiry_error k) as Hk.
           destruct (strike_fields k) as [[a b]|err]; simpl.
           ++ destruct p; discriminate.
           ++ congruence.
        -- intros _. exists s. split; [reflexivity|]. now apply Nat.eqb_neq.
    + intros (s & -> & Hs). rewrite Hstr.
      apply Nat.eqb_neq in Hs. now rewrite Hs.
  - intros e ex He. unfold build_option_symbol. rewrite He. simpl.
    destruct (strike_fields k) as [[a b]|err]; simpl; [|reflexivity].
    now destruct p.
Qed.

Lemma expiry_validation_witness :
  strftime_ymd (mkdate 2021 10 15) = lit "211015"
  /\ polygon_expiry (ExpiryStr (lit "abcdef")) = Ok (lit "abcdef")
  /\ polygon_expiry (ExpiryStr (lit "2021-10-15")) = Raise ValueError_expiry_length.
Proof.
  destruct (expiry_validation (lit "TSLA") (lit "put") (PyInt 125) false)
    as (_ & H2 & H3 & H4 & _).
  split; [|split].
  - rewrite (H2 (mkdate 2021 10 15)); reflexivity.
  - apply H3. reflexivity.
  - apply H4. simpl. lia.
Defined.

(** C5. The two documented symbols: TSLA, 15 October 2021, put, 125.0,
    with the marker; and FB with the expiry given as ['210903'], a call at
    700. *)
Theorem build_option_symbol_examples :
  build_option_symbol (lit "TSLA") (ExpiryDate (mkdate 2021 10 15)) (lit "put")
    (PyFloat (float_literal "125.0")) true
  = Ok (lit "O:TSLA211015P00125000")
  /\ build_option_symbol (lit "FB") (ExpiryStr (lit "210903")) (lit "c") (PyInt 700) false
     = Ok (lit "FB210903C00700000").
Proof. split; vm_compute; reflexivity. Qed.

(* ===================================================================== *)
(** * [parse_option_symbol] on short strings *)
(* ===================================================================== *)

Lemma int_of_str_nil : int_of_str [] = Raise ValueError_int_literal.
Proof. reflexivity. Qed.

Lemma index_ok (i : nat) (s : str) (c : ascii) : index i s = Ok c -> (i < length s)%nat.
Proof.
  unfold index. destruct (nth_error s i) eqn:E; [|discriminate].
  intros _. apply nth_error_Some. congruence.
Qed.

Lemma int_of_str_raises (s : str) (e : exception) :
  int_of_str s = Raise e -> e = ValueError_int_literal.
Proof.
  unfold int_of_str. destruct (split_sign (strip s)) as [neg b].
  destruct (digitpart b); [discriminate|]. intros H. now injection H as <-.
Qed.

Lemma index_raises (i : nat) (s : str) (e : exception) :
  index i s = Raise e -> e = IndexError_string.
Proof.
  unfold index. destruct (nth_error s i); [discriminate|].
  intros H. now injection H as <-.
Qed.

(** The parse has failed with [e]: no result, and the error reported. *)
Ltac failed_with e :=
  split; [discriminate | intros _; exists e; split; [reflexivity|]].

(** One [int(...)] of the parse: continue with its value, or fail with
    its [ValueError]. *)
Ltac step_int t y :=
  let E := fresh "E" in
  let e := fresh "e" in
  destruct t as [y|e] eqn:E; cbn [bind];
  [|failed_with e; apply int_of_str_raises in E; subst e; now left].

Lemma init_polygon_short (today : date) (s : str) :
  let body := if startswith (lit "O:") s then slice_from 2 s else s in
  (length body < 15)%nat ->
  init_polygon today s
  = (y <- int_of_str (century today ++ slice_to 2 (slice 0 6 body)) ;;
     m <- int_of_str (slice 2 4 (slice 0 6 body)) ;;
     d <- int_of_str (slice 4 6 (slice 0 6 body)) ;;
     expiry <- date_new y m d ;;
     c <- index 6 body ;;
     n <- int_of_str (slice_from 7 body) ;;
     strike_price <- true_divide n 1000 ;;
     Ok (mkOptionSymbol [] expiry (upper [c]) (PyFloat strike_price) body)).
Proof.
  intros body Hlen. unfold init_polygon. fold body. cbv zeta.
  unfold drop_last. replace (length body - 15)%nat with 0%nat by lia.
  reflexivity.
Qed.

(** C2, counterexample: a string of 10 characters that
    [parse_option_symbol] accepts. *)
Lemma short_symbol_is_parsed :
  length (lit "211015P125") = 10%nat
  /\ parse_option_symbol (mkdate 2026 11 4) (lit "211015P125")
     = Ok (mkOptionSymbol [] (mkdate 2021 10 15) (lit "P")
             (PyFloat (Finite false 4503599627370496 (-55))) (lit "211015P125")).
Proof. split; vm_compute; reflexivity. Qed.

(** C2, amended. [parse_option_symbol] does not check the length. For a
    string shorter than 15 characters once the marker is removed, the
    underlying is empty and the whole string is read as the suffix: when
    the parse succeeds the string has at least 8 characters, and a string
    of at most 7 characters always fails, with the [ValueError] or
    [IndexError] of a conversion or of the indexing. *)
Theorem parse_short_symbol (today : date) (s : str) :
  let body := if startswith (lit "O:") s then slice_from 2 s else s in
  (length body < 15)%nat ->
  (forall o, parse_option_symbol today s = Ok o ->
     underlying_symbol o = [] /\ option_symbol o = body /\ (8 <= length body)%nat)
  /\ ((length body <= 7)%nat ->
      exists e, parse_option_symbol today s = Raise e
                /\ (class_of e = ValueError \/ class_of e = IndexError)).
Proof.
  intros body Hlen.
  unfold parse_option_symbol, OptionSymbol_init.
  rewrite (init_polygon_short today s Hlen). fold body.
  step_int (int_of_str (century today ++ slice_to 2 (slice 0 6 body))) y.
  step_int (int_of_str (slice 2 4 (slice 0 6 body))) m.
  step_int (int_of_str (slice 4 6 (slice 0 6 body))) d.
  unfold date_new. destruct (valid_date (mkdate y m d)); cbn [bind];
    [|failed_with ValueError_date; now left].
  destruct (index 6 body) as [c|e5] eqn:E5; cbn [bind].
  2:{ failed_with e5. apply index_raises in E5. subst. now right. }
  apply index_ok in E5.
  destruct (int_of_str (slice_from 7 body)) as [n|e6] eqn:E6; cbn [bind].
  2:{ failed_with e6. apply int_of_str_raises in E6. subst. now left. }
  assert (Hlen8 : (8 <= length body)%nat).
  { destruct (Nat.le_gt_cases 8 (length body)) as [|Hlt]; [assumption|].
    unfold slice_from in E6. rewrite skipn_all2 in E6 by lia. discriminate. }
  split; [|intros; lia].
  destruct (true_divide n 1000) as [x|e7]; cbn [bind]; [|discriminate].
  intros o Ho. injection Ho as <-. simpl. auto.
Qed.

Lemma parse_short_symbol_witness :
  exists e, parse_option_symbol (mkdate 2026 11 4) (lit "TSLA") = Raise e
            /\ (class_of e = ValueError \/ class_of e = IndexError).
Proof.
  destruct (parse_short_symbol (mkdate 2026 11 4) (lit "TSLA")) as [_ H];
    [vm_compute; lia | apply H; vm_compute; lia].
Defined.

(* ===================================================================== *)
(** * The TD Ameritrade codec *)
(* ===================================================================== *)

(** The underscore variant reads back what the builder writes. *)
Example tda_underscore_round_trip :
  build_option_symbol_for_tda (lit "TSLA") (ExpiryDate (mkdate 2021 9 3)) (lit "c")
    (PyInt 700) Underscore = Ok (lit "TSLA_090321C700")
  /\ tda_reencode (mkdate 2026 11 4) (lit "TSLA_090321C700") = Ok (lit "TSLA_090321C700")
  /\ tda_reencode (mkdate 2026 11 4) (lit "TSLA_090321P712.5") = Ok (lit "TSLA_090321P712.5").
Proof. repeat split; vm_compute; reflexivity. Qed.


Lemma skipn_skip {A : Type} (a b : list A) (n i : nat) :
  length a = n -> skipn (n + i) (a ++ b) = skipn i b.
Proof.
  intros <-. rewrite skipn_app, skipn_all2 by lia.
  replace (length a + i - length a)%nat with i by lia. reflexivity.
Qed.

Lemma slice_from_skip (a b : str) (n i : nat) :
  length a = n -> slice_from (n + i) (a ++ b) = slice_from i b.
Proof. apply skipn_skip. Qed.

Lemma slice_skip (a b : str) (n i j : nat) :
  length a = n -> slice (n + i) (n + j) (a ++ b) = slice i j b.
Proof.
  intros H. unfold slice. rewrite (skipn_skip a b i H).
  replace (n + j - (n + i))%nat with (j - i)%nat by lia. reflexivity.
Qed.

(** The dot branch of the parser moves the first two of the six date
    characters behind the other four. *)
Lemma dot_to_underscore_date (u a b c rest : str) :
  Forall (fun x => is_alpha x = true) u ->
  upper u = u -> length a = 2%nat -> length b = 2%nat -> length c = 2%nat ->
  upper (a ++ b ++ c ++ rest) = a ++ b ++ c ++ rest ->
  (forall x r, a = x :: r -> is_alpha x = false) ->
  dot_to_underscore ("."%char :: u ++ a ++ b ++ c ++ rest)
  = u ++ "_"%char :: b ++ c ++ a ++ rest.
Proof.
  intros Hu Huu Ha Hb Hc Hup Hna. unfold dot_to_underscore.
  change (slice_from 1 ("."%char :: u ++ a ++ b ++ c ++ rest))
    with (u ++ a ++ b ++ c ++ rest).
  rewrite upper_app, Huu, Hup.
  assert (Hn : count_alpha (u ++ a ++ b ++ c ++ rest) = length u).
  { clear Huu. induction u as [|x u IH]; simpl.
    - destruct a as [|x r]; [discriminate|]. simpl. now rewrite (Hna x r eq_refl).
    - inversion Hu as [|? ? Hx Hu']; subst. rewrite Hx. f_equal. now apply IH. }
  rewrite Hn. unfold slice_to. rewrite firstn_exact by reflexivity.
  rewrite <- (Nat.add_0_r (length u)) at 5.
  rewrite !slice_skip, slice_from_skip by reflexivity.
  change (slice 2 4 (a ++ b ++ c ++ rest)) with (slice (2 + 0) (2 + 2) (a ++ b ++ c ++ rest)).
  change (slice 4 6 (a ++ b ++ c ++ rest)) with (slice (2 + 2) (2 + 4) (a ++ b ++ c ++ rest)).
  change (slice_from 6 (a ++ b ++ c ++ rest)) with (slice_from (2 + 4) (a ++ b ++ c ++ rest)).
  rewrite !(slice_skip a _ _ _ Ha), (slice_from_skip a _ _ Ha).
  change (slice 2 4 (b ++ c ++ rest)) with (slice (2 + 0) (2 + 2) (b ++ c ++ rest)).
  change (slice_from 4 (b ++ c ++ rest)) with (slice_from (2 + 2) (b ++ c ++ rest)).
  rewrite (slice_skip b _ _ _ Hb), (slice_from_skip b _ _ Hb).
  change (slice_from 2 (c ++ rest)) with (slice_from (2 + 0) (c ++ rest)).
  rewrite (slice_from_skip c _ _ Hc).
  unfold slice, slice_from. simpl skipn. simpl Nat.sub.
  rewrite (firstn_exact a _ Ha), (firstn_exact b _ Hb), (firstn_exact c _ Hc).
  reflexivity.
Qed.

(* ===================================================================== *)
(** * Division by 1000 *)
(* ===================================================================== *)

(** The rounding of [a / 1000] for an integer of at most eight digits:
    between 34 and 62 fraction bits are kept, and the mantissa is within
    half a unit of the scaled quotient. *)
Lemma round_ratio_1000 (neg : bool) (a : Z) :
  0 < a < 10 ^ 8 ->
  exists m k, round_ratio neg a 1000 = Finite neg m (- k)
              /\ 34 <= k <= 62 /\ 0 < m
              /\ 2 * Z.abs (1000 * m - a * 2 ^ k) <= 1000.
Proof.
  intros Ha. unfold round_ratio.
  destruct (a =? 0) eqn:E0; [apply Z.eqb_eq in E0; lia|]. clear E0.
  change (Z.log2 1000) with 9.
  assert (HL : 0 <= Z.log2 a < 27).
  { split; [apply Z.log2_nonneg|]. apply Z.log2_lt_pow2; [lia|]. 
    change (2 ^ 27) with 134217728. change (10 ^ 8) with 100000000 in Ha. lia. }
  set (k0 := 52 - Z.log2 a + 9).
  assert (Hk0 : 35 <= k0 <= 61) by (unfold k0; lia).
  rewrite (Z.max_l k0 0), (Z.max_r (- k0) 0) by lia.
  set (k1 := if a * 2 ^ k0 <? 1000 * 2 ^ 52 * 2 ^ 0 then k0 + 1 else k0).
  assert (Hk1 : 35 <= k1 <= 62)
    by (unfold k1; destruct (a * 2 ^ k0 <? 1000 * 2 ^ 52 * 2 ^ 0); lia).
  clearbody k1. clear k0 Hk0 HL.
  rewrite (Z.min_l k1 1074), (Z.max_l k1 0), (Z.max_r (- k1) 0) by lia.
  change (1000 * 2 ^ 0) with 1000.
  assert (HP : 2 ^ 35 <= 2 ^ k1) by (apply Z.pow_le_mono_r; lia).
  assert (HP2 : 2 ^ k1 = 2 * 2 ^ (k1 - 1)).
  { rewrite <- Z.pow_succ_r by lia. f_equal. lia. }
  assert (HP3 : 0 < 2 ^ (k1 - 1)) by (apply Z.pow_pos_nonneg; lia).
  change (2 ^ 35) with 34359738368 in HP.
  set (P := 2 ^ k1) in *. 
  pose proof (Z.div_mod (a * P) 1000 ltac:(lia)) as Hdm.
  pose proof (Z.mod_pos_bound (a * P) 1000 ltac:(lia)) as Hr.
  set (q := a * P / 1000) in *. set (r := (a * P) mod 1000) in *.
  assert (Hq : 0 < q) by nia.
  set (m0 := if (1000 <? 2 * r) || ((1000 =? 2 * r) && Z.odd q) then q + 1 else q).
  assert (Hm0 : 0 < m0 /\ 2 * Z.abs (1000 * m0 - a * P) <= 1000).
  { unfold m0. destruct (1000 <? 2 * r) eqn:E1; cbn [orb andb].
    - apply Z.ltb_lt in E1. lia.
    - apply Z.ltb_ge in E1. destruct (1000 =? 2 * r) eqn:E2; cbn [orb andb].
      + apply Z.eqb_eq in E2. destruct (Z.odd q); lia.
      + apply Z.eqb_neq in E2. lia. }
  clearbody m0.
  destruct (m0 =? 2 ^ 53) eqn:E53.
  - apply Z.eqb_eq in E53. change (2 ^ 52 =? 0) with false. cbv iota.
    destruct (971 <? 1 - k1) eqn:E9; [apply Z.ltb_lt in E9; lia|].
    exists (2 ^ 52), (k1 - 1). split; [f_equal; lia|].
    split; [lia|]. split; [reflexivity|].
    change (2 ^ 53) with (2 * 2 ^ 52) in E53. lia.
  - destruct (m0 =? 0) eqn:Ez; [apply Z.eqb_eq in Ez; lia|].
    destruct (971 <? - k1) eqn:E9; [apply Z.ltb_lt in E9; lia|].
    exists m0, k1. repeat split; lia.
Qed.

Lemma millis_near (neg : bool) (m k a : Z) :
  34 <= k -> 0 <= a -> 2 * Z.abs (1000 * m - a * 2 ^ k) <= 1000 ->
  millis (Finite neg m (- k)) = Some (if neg then - a else a).
Proof.
  intros Hk Ha Hd. unfold millis.
  rewrite (Z.max_r (- k) 0), (Z.max_l (- - k) 0) by lia.
  rewrite Z.opp_involutive. change (2 ^ 0) with 1. rewrite Z.mul_1_r.
  assert (HP : 2 ^ 34 <= 2 ^ k) by (apply Z.pow_le_mono_r; lia).
  change (2 ^ 34) with 17179869184 in HP.
  set (P := 2 ^ k) in *.
  assert (Hcases : (1000 * m / P = a /\ (1000 * m) mod P = 1000 * m - a * P
                    /\ 0 <= 1000 * m - a * P)
                   \/ (1000 * m / P = a - 1 /\ (1000 * m) mod P = P + (1000 * m - a * P)
                       /\ 1000 * m - a * P < 0)).
  { destruct (Z_le_gt_dec 0 (1000 * m - a * P)) as [Hpos|Hneg].
    - left. split; [|split; [|assumption]].
      + symmetry. apply Z.div_unique with (r := 1000 * m - a * P); lia.
      + symmetry. apply Z.mod_unique with (q := a); lia.
    - right. split; [|split; [|lia]].
      + symmetry. apply Z.div_unique with (r := P + (1000 * m - a * P)); lia.
      + symmetry. apply Z.mod_unique with (q := a - 1); lia. }
  destruct Hcases as [(Hq & Hr & Hs)|(Hq & Hr & Hs)]; rewrite Hq, Hr.
  - destruct (P <? 2 * (1000 * m - a * P)) eqn:E1; [apply Z.ltb_lt in E1; lia|].
    destruct (P =? 2 * (1000 * m - a * P)) eqn:E2; [apply Z.eqb_eq in E2; lia|].
    reflexivity.
  - destruct (P <? 2 * (P + (1000 * m - a * P))) eqn:E1;
      [|apply Z.ltb_ge in E1; lia].
    cbn [orb]. replace (a - 1 + 1) with a by lia. reflexivity.
Qed.

(** The quotient of an integer of at most eight digits by 1000: the
    nearest float, which gives the integer back at three decimals. *)
Lemma true_divide_1000 (n : Z) :
  Z.abs n < 10 ^ 8 ->
  exists x, true_divide n 1000 = Ok x
            /\ nearest_to_quotient x n 1000 /\ millis x = Some n.
Proof.
  intros Hn. destruct (Z.eq_dec n 0) as [->|Hz].
  - exists (Finite false 0 0). repeat split. vm_compute. discriminate.
  - destruct (@round_ratio_1000 (n <? 0) (Z.abs n)) as (m & k & Hx & Hk & Hm & Hd); [lia|].
    exists (Finite (n <? 0) m (- k)). unfold true_divide. rewrite Hx.
    split; [reflexivity|]. split.
    + unfold nearest_to_quotient.
      rewrite (Z.max_r (- k) 0), (Z.max_l (- - k) 0) by lia.
      rewrite Z.opp_involutive. change (2 ^ 0) with 1.
      destruct (n <? 0) eqn:E; [apply Z.ltb_lt in E | apply Z.ltb_ge in E]; lia.
    + rewrite (@millis_near (n <? 0) m k (Z.abs n)) by lia.
      destruct (n <? 0) eqn:E; [apply Z.ltb_lt in E | apply Z.ltb_ge in E];
        f_equal; lia.
Qed.

(** ** [int(str)]: the size of the result *)

Lemma digitpart_tail_bounded (k : nat) :
  forall s ds, (length s <= k)%nat -> digitpart_tail s = Some ds ->
  all_digits ds /\ (length ds <= length s)%nat.
Proof.
  induction k as [|k IH]; intros s ds Hk.
  - destruct s; [|simpl in Hk; lia]. simpl. intros H. injection H as <-.
    split; [constructor | simpl; lia].
  - destruct s as [|c r]; simpl.
    + intros H. injection H as <-. split; [constructor | simpl; lia].
    + simpl in Hk. destruct (is_digit c) eqn:Hc.
      * destruct (digitpart_tail r) as [t|] eqn:Ht; [|discriminate].
        simpl. intros H. injection H as <-.
        destruct (IH r t ltac:(lia) Ht) as [H1 H2].
        split; [now constructor | simpl; lia].
      * destruct (eqb_char c "_"); [|discriminate].
        destruct r as [|d r']; [discriminate|].
        destruct (is_digit d) eqn:Hd; [|discriminate].
        destruct (digitpart_tail r') as [t|] eqn:Ht; [|discriminate].
        simpl. intros H. injection H as <-. simpl in Hk.
        destruct (IH r' t ltac:(lia) Ht) as [H1 H2].
        split; [now constructor | simpl; lia].
Qed.

Lemma digitpart_tail_spec (s ds : str) :
  digitpart_tail s = Some ds -> all_digits ds /\ (length ds <= length s)%nat.
Proof. apply (@digitpart_tail_bounded (length s)). lia. Qed.

Lemma digitpart_spec (s ds : str) :
  digitpart s = Some ds -> all_digits ds /\ (length ds <= length s)%nat.
Proof.
  destruct s as [|c r]; simpl; [discriminate|].
  destruct (is_digit c) eqn:Hc; [|discriminate].
  destruct (digitpart_tail r) as [t|] eqn:Ht; [|discriminate].
  simpl. intros H. injection H as <-.
  destruct (digitpart_tail_spec _ Ht) as [H1 H2].
  split; [now constructor | simpl; lia].
Qed.

Lemma lstrip_length (s : str) : (length (lstrip s) <= length s)%nat.
Proof.
  induction s as [|c s IH]; simpl; [lia|].
  destruct (is_space c); simpl; lia.
Qed.

Lemma strip_length (s : str) : (length (strip s) <= length s)%nat.
Proof.
  unfold strip. rewrite length_rev.
  pose proof (lstrip_length (rev (lstrip s))) as H1.
  rewrite length_rev in H1. pose proof (lstrip_length s). lia.
Qed.

Lemma split_sign_length (s : str) :
  (length (snd (split_sign s)) <= length s)%nat.
Proof.
  destruct s as [|c r]; simpl; [lia|].
  destruct (eqb_char c "-"); [simpl; lia|].
  destruct (eqb_char c "+"); simpl; lia.
Qed.

Lemma int_of_str_bound (s : str) (n : Z) :
  int_of_str s = Ok n -> Z.abs n < 10 ^ Z.of_nat (length s).
Proof.
  unfold int_of_str. pose proof (split_sign_length (strip s)) as Hl.
  pose proof (strip_length s) as Hs.
  destruct (split_sign (strip s)) as [neg body]. simpl in Hl.
  destruct (digitpart body) as [ds|] eqn:Hd; [|discriminate].
  destruct (digitpart_spec _ Hd) as [H1 H2].
  pose proof (digits_value_bound H1) as Hb.
  assert (10 ^ Z.of_nat (length ds) <= 10 ^ Z.of_nat (length s))
    by (apply Z.pow_le_mono_r; lia).
  intros Hn. injection Hn as <-. destruct neg; lia.
Qed.

(* ===================================================================== *)
(** * Strike decoding in [parse_option_symbol] *)
(* ===================================================================== *)

Lemma drop_last_length (n : nat) (s : str) :
  length (drop_last n s) = (length s - n)%nat.
Proof. unfold drop_last. rewrite length_firstn. lia. Qed.

(** C9, counterexample: the strike read from the suffix [00000100] is
    the float nearest to one tenth, not the rational 100/1000. *)
Lemma strike_is_rounded :
  exists o x,
    parse_option_symbol (mkdate 2026 11 4) (lit "X211015C00000100") = Ok o
    /\ int_of_str (lit "00000100") = Ok 100
    /\ strike_price o = PyFloat x
    /\ ~ exact_quotient x 100 1000.
Proof.
  eexists. eexists. split; [vm_compute; reflexivity|].
  split; [vm_compute; reflexivity|]. split; [reflexivity|].
  vm_compute. discriminate.
Qed.

(** C9, amended. For every symbol that [parse_option_symbol] accepts,
    the strike is the float that Python's division gives for the integer
    read from the characters after the option type (the last eight
    characters of a symbol of 15 characters or more), divided by 1000.
    It is the float nearest to that quotient, not the quotient itself:
    the integer is recovered by rounding 1000 times the strike. *)
Theorem strike_decoding (today : date) (s : str) (o : OptionSymbol) :
  parse_option_symbol today s = Ok o ->
  let body := if startswith (lit "O:") s then slice_from 2 s else s in
  let suffix := slice_from (length body - 15 + 7) body in
  exists n x,
    int_of_str suffix = Ok n
    /\ ((15 <= length body)%nat ->
        suffix = skipn (length body - 8) body /\ length suffix = 8%nat)
    /\ strike_price o = PyFloat x
    /\ true_divide n 1000 = Ok x
    /\ nearest_to_quotient x n 1000
    /\ millis x = Some n.
Proof.
  intros H body suffix.
  unfold parse_option_symbol, OptionSymbol_init, init_polygon in H.
  rewrite !drop_last_length in H. fold body in H. fold suffix in H.
  destruct (int_of_str (century today ++ _)) as [y|]; cbn [bind] in H; [|discriminate].
  destruct (int_of_str (slice 2 4 _)) as [m|]; cbn [bind] in H; [|discriminate].
  destruct (int_of_str (slice 4 6 _)) as [d|]; cbn [bind] in H; [|discriminate].
  destruct (date_new y m d) as [e|]; cbn [bind] in H; [|discriminate].
  destruct (index _ body) as [c|]; cbn [bind] in H; [|discriminate].
  destruct (int_of_str suffix) as [n|] eqn:En; cbn [bind] in H; [|discriminate].
  assert (Hlen : (length suffix <= 8)%nat).
  { unfold suffix, slice_from. rewrite length_skipn. lia. }
  assert (Hn : Z.abs n < 10 ^ 8).
  { pose proof (int_of_str_bound _ En) as Hb.
    assert (10 ^ Z.of_nat (length suffix) <= 10 ^ 8)
      by (apply Z.pow_le_mono_r; lia).
    lia. }
  destruct (true_divide_1000 n Hn) as (x & Hx & Hnear & Hmil).
  rewrite Hx in H. cbn [bind] in H. injection H as <-.
  exists n, x. split; [reflexivity|]. split; [|auto].
  intros Hb. unfold suffix, slice_from. split.
  - f_equal. lia.
  - rewrite length_skipn. lia.
Qed.

Lemma strike_decoding_witness :
  exists n x,
    int_of_str (lit "00125000") = Ok n
    /\ true_divide n 1000 = Ok x
    /\ nearest_to_quotient x n 1000
    /\ millis x = Some 125000.
Proof.
  destruct (@strike_decoding (mkdate 2026 11 4) (lit "O:TSLA211015P00125000")
              (mkOptionSymbol (lit "TSLA") (mkdate 2021 10 15) (lit "P")
                 (PyFloat (Finite false 8796093022208000 (-46)))
                 (lit "TSLA211015P00125000")))
    as (n & x & H1 & _ & _ & H4 & H5 & H6); [vm_compute; reflexivity|].
  exists n, x. split; [exact H1|]. split; [exact H4|]. split; [exact H5|].
  rewrite H6. f_equal.
  assert (E : int_of_str (lit "00125000") = Ok 125000) by (vm_compute; reflexivity).
  change (int_of_str (lit "00125000") = Ok n) in H1. congruence.
Defined.

(* ===================================================================== *)
(** * Strike encoding in [build_option_symbol] *)
(* ===================================================================== *)

Lemma split_no_sep (c : ascii) (s : str) : ~ In c s -> split c s = [s].
Proof.
  induction s as [|x s IH]; intros H; simpl; [reflexivity|].
  destruct (eqb_char x c) eqn:E.
  - apply eqb_char_eq in E. subst. exfalso. apply H. now left.
  - rewrite IH; [reflexivity|]. intros Hin. apply H. now right.
Qed.

Lemma split_at_sep (c : ascii) (a b : str) :
  ~ In c a -> split c (a ++ c :: b) = a :: split c b.
Proof.
  induction a as [|x a IH]; intros H; simpl.
  - now rewrite eqb_char_refl.
  - destruct (eqb_char x c) eqn:E.
    + apply eqb_char_eq in E. subst. exfalso. apply H. now left.
    + rewrite IH; [reflexivity|]. intros Hin. apply H. now right.
Qed.

Lemma digits_no_point (s : str) : all_digits s -> ~ In "."%char s.
Proof.
  intros H Hin. unfold all_digits in H. rewrite Forall_forall in H.
  apply H in Hin. discriminate.
Qed.

(** [str] of a float is never a run of digits: it has a point, an [e],
    or is [inf] or [nan]. *)
Lemma layout_not_digits (ds : str) (pt : Z) : ~ all_digits (layout ds pt).
Proof.
  unfold layout, all_digits. intros H. rewrite Forall_forall in H.
  destruct ((pt <=? -4) || (16 <? pt)).
  - specialize (H "e"%char). rewrite !in_app_iff in H.
    discriminate H. right. right. now left.
  - destruct (pt <=? 0).
    + specialize (H "."%char). discriminate H. simpl. right. now left.
    + destruct (Z.of_nat (length ds) <=? pt).
      * specialize (H "."%char). rewrite !in_app_iff in H.
        discriminate H. right. right. now left.
      * specialize (H "."%char). rewrite in_app_iff in H.
        discriminate H. right. now left.
Qed.

Lemma str_of_float_not_digits (x : float64) : ~ all_digits (str_of_float x).
Proof.
  unfold all_digits, str_of_float. intros H. destruct x as [neg m e|neg|].
  - destruct (m =? 0).
    + apply Forall_app in H as [_ H]. rewrite Forall_forall in H.
      specialize (H "."%char). discriminate H. simpl. right. now left.
    + match type of H with
      | context [shortest ?a ?b ?c ?d ?e ?f ?g] =>
          destruct (shortest a b c d e f g) as [c0 p]
      end.
      apply Forall_app in H as [_ H]. now apply layout_not_digits in H.
  - rewrite Forall_forall in H. specialize (H "i"%char).
    discriminate H. destruct neg; simpl; tauto.
  - rewrite Forall_forall in H. specialize (H "n"%char).
    discriminate H. simpl. tauto.
Qed.

Lemma str_of_int_digits (n : Z) :
  all_digits (str_of_int n) -> 0 <= n /\ str_of_int n = digits n.
Proof.
  unfold str_of_int. destruct (n <? 0) eqn:E.
  - intros H. inversion H as [|? ? Hc _]. discriminate Hc.
  - apply Z.ltb_ge in E. auto.
Qed.

Lemma digits_value_firstn (j : nat) (s : str) :
  all_digits s -> (j <= length s)%nat ->
  digits_value (firstn j s) = digits_value s / 10 ^ Z.of_nat (length s - j).
Proof.
  intros Hs Hj. rewrite <- (firstn_skipn j s) at 2.
  rewrite digits_value_app, length_skipn.
  assert (Hk : all_digits (skipn j s)).
  { unfold all_digits in *. rewrite Forall_forall in *.
    intros c Hc. apply Hs. rewrite <- (firstn_skipn j s). apply in_or_app. now right. }
  pose proof (digits_value_bound Hk) as Hb. rewrite length_skipn in Hb.
  assert (0 < 10 ^ Z.of_nat (length s - j)) by (apply Z.pow_pos_nonneg; lia).
  apply Z.div_unique with (r := digits_value (skipn j s)); lia.
Qed.

Lemma all_digits_firstn (j : nat) (s : str) : all_digits s -> all_digits (firstn j s).
Proof.
  unfold all_digits. rewrite !Forall_forall. intros H c Hc.
  apply H. rewrite <- (firstn_skipn j s). apply in_or_app. now left.
Qed.

(** The three fractional digits: padding or cutting, never rounding. *)
Lemma fraction_field (fp : str) :
  all_digits fp ->
  let b := slice_to 3 (ljust 3 "0" fp) in
  all_digits b /\ length b = 3%nat
  /\ digits_value b = digits_value fp * 1000 / 10 ^ Z.of_nat (length fp).
Proof.
  intros Hfp b. unfold b, slice_to, ljust.
  assert (Hall : all_digits (fp ++ repeat "0"%char (3 - length fp))).
  { apply Forall_app. split; [assumption | apply all_digits_zeros]. }
  split; [now apply all_digits_firstn|]. split.
  - rewrite length_firstn, length_app, repeat_length. lia.
  - pose proof (digits_value_bound Hfp) as Hb.
    destruct (Nat.le_gt_cases (length fp) 3) as [Hle|Hgt].
    + rewrite firstn_all2 by (rewrite length_app, repeat_length; lia).
      rewrite digits_value_app, repeat_length.
      replace (digits_value (repeat "0"%char (3 - length fp))) with 0.
      2:{ rewrite <- (app_nil_r (repeat _ _)), digits_value_zeros. reflexivity. }
      assert (Hp : 1000 = 10 ^ Z.of_nat (3 - length fp) * 10 ^ Z.of_nat (length fp)).
      { rewrite <- Z.pow_add_r by lia.
        replace (Z.of_nat (3 - length fp) + Z.of_nat (length fp)) with 3 by lia.
        reflexivity. }
      rewrite Hp at 1. rewrite Z.mul_assoc, Z.div_mul; [lia|].
      apply Z.pow_nonzero; lia.
    + replace (3 - length fp)%nat with 0%nat by lia. simpl repeat. rewrite app_nil_r.
      rewrite digits_value_firstn by (assumption || lia).
      assert (Hp : 10 ^ Z.of_nat (length fp) = 10 ^ Z.of_nat (length fp - 3) * 1000).
      { change 1000 with (10 ^ 3). rewrite <- Z.pow_add_r by lia. f_equal. lia. }
      rewrite Hp. rewrite Z.div_mul_cancel_r; [reflexivity| |lia].
      apply Z.pow_nonzero; lia.
Qed.

Lemma thousandths_split (ip fp : str) :
  all_digits fp ->
  thousandths ip fp
  = digits_value ip * 1000 + digits_value fp * 1000 / 10 ^ Z.of_nat (length fp).
Proof.
  intros Hfp. unfold thousandths. rewrite digits_value_app.
  assert (Hp : 0 < 10 ^ Z.of_nat (length fp)) by (apply Z.pow_pos_nonneg; lia).
  replace ((digits_value ip * 10 ^ Z.of_nat (length fp) + digits_value fp) * 1000)
    with (digits_value fp * 1000 + digits_value ip * 1000 * 10 ^ Z.of_nat (length fp))
    by lia.
  rewrite Z.div_add by lia. lia.
Qed.

(** The strike fields of a plain decimal: five integer digits and three
    fractional digits, which denote the thousandths of the strike. *)
Lemma strike_fields_decimal (k : number) (ip fp : str) :
  all_digits ip -> all_digits fp -> (1 <= length ip <= 5)%nat ->
  str_of_number k = decimal_text ip fp ->
  let a := rjust 5 "0" ip in
  let b := slice_to 3 (ljust 3 "0" fp) in
  strike_fields k = Ok (a, b)
  /\ all_digits (a ++ b) /\ length a = 5%nat /\ length b = 3%nat
  /\ digits_value (a ++ b) = thousandths ip fp.
Proof.
  intros Hip Hfp Hlen Hstr a b.
  destruct (@rjust_digits 5 ip Hip ltac:(lia)) as (A1 & A2 & A3).
  destruct (fraction_field Hfp) as (B1 & B2 & B3).
  fold a in A1, A2, A3. fold b in B1, B2, B3.
  split; [|split; [apply Forall_app; now split | split; [assumption | split; [assumption|]]]].
  - unfold strike_fields. rewrite Hstr. destruct fp as [|f fp'].
    + simpl decimal_text in *.
      replace (contains "." ip) with false
        by (symmetry; apply contains_false; now apply digits_no_point).
      destruct k as [n|x]; simpl in Hstr.
      * rewrite <- Hstr in Hip. destruct (str_of_int_digits _ Hip) as [_ Hd].
        simpl. rewrite Hstr. reflexivity.
      * exfalso. apply (@str_of_float_not_digits x). now rewrite Hstr.
    + unfold decimal_text.
      replace (contains "." (ip ++ "."%char :: f :: fp')) with true
        by (symmetry; apply contains_In, in_or_app; right; now left).
      rewrite split_at_sep by (now apply digits_no_point).
      rewrite split_no_sep by (now apply digits_no_point).
      reflexivity.
  - rewrite digits_value_app, A3, B2, B3, thousandths_split by assumption.
    change (10 ^ Z.of_nat 3) with 1000. reflexivity.
Qed.

(** C4, counterexample: the strike 100000 gives a field of nine digits. *)
Lemma strike_field_of_100000 :
  strike_fields (PyInt 100000) = Ok (lit "100000", lit "000")
  /\ length (lit "100000" ++ lit "000") <> 8%nat.
Proof. split; [vm_compute; reflexivity | vm_compute; lia]. Qed.

Lemma rjust_long (k : nat) (c : ascii) (s : str) :
  (k <= length s)%nat -> rjust k c s = s.
Proof.
  intros H. unfold rjust. now replace (k - length s)%nat with 0%nat by lia.
Qed.

(** The strike fields of a plain decimal with an integer part of any
    length. *)
Lemma strike_fields_text (k : number) (ip fp : str) :
  all_digits ip -> all_digits fp ->
  str_of_number k = decimal_text ip fp ->
  strike_fields k = Ok (rjust 5 "0" ip, slice_to 3 (ljust 3 "0" fp)).
Proof.
  intros Hip Hfp Hstr.
  unfold strike_fields. rewrite Hstr. destruct fp as [|f fp'].
  - simpl decimal_text in *.
    replace (contains "." ip) with false
      by (symmetry; apply contains_false; now apply digits_no_point).
    destruct k as [n|x]; simpl in Hstr.
    + rewrite <- Hstr in Hip. destruct (str_of_int_digits _ Hip) as [_ Hd].
      simpl. rewrite Hstr. reflexivity.
    + exfalso. apply (@str_of_float_not_digits x). now rewrite Hstr.
  - unfold decimal_text.
    replace (contains "." (ip ++ "."%char :: f :: fp')) with true
      by (symmetry; apply contains_In, in_or_app; right; now left).
    rewrite split_at_sep by (now apply digits_no_point).
    rewrite split_no_sep by (now apply digits_no_point).
    reflexivity.
Qed.

Lemma strike_fields_value (ip fp : str) :
  all_digits ip -> all_digits fp ->
  let a := rjust 5 "0" ip in
  let b := slice_to 3 (ljust 3 "0" fp) in
  all_digits (a ++ b) /\ length a = Nat.max 5 (length ip) /\ length b = 3%nat
  /\ digits_value a = digits_value ip
  /\ digits_value b = digits_value fp * 1000 / 10 ^ Z.of_nat (length fp)
  /\ digits_value (a ++ b) = thousandths ip fp.
Proof.
  intros Hip Hfp a b.
  destruct (fraction_field Hfp) as (B1 & B2 & B3). fold b in B1, B2, B3.
  assert (A1 : all_digits a).
  { unfold a, rjust. apply Forall_app. split; [apply all_digits_zeros | assumption]. }
  assert (A2 : length a = Nat.max 5 (length ip)).
  { unfold a, rjust. rewrite length_app, repeat_length. lia. }
  assert (A3 : digits_value a = digits_value ip).
  { unfold a, rjust. apply digits_value_zeros. }
  split; [apply Forall_app; now split|].
  split; [assumption|]. split; [assumption|]. split; [assumption|].
  split; [assumption|].
  rewrite digits_value_app, A3, B2, B3, thousandths_split by assumption.
  change (10 ^ Z.of_nat 3) with 1000. reflexivity.
Qed.

(** C4, amended. For every strike that [str] prints as a plain decimal
    (an int from 0 up, or a float shown as digits, a point and digits),
    the integer part is padded with zeros on the left to five digits, and
    kept whole when it has more than five; the fractional part is padded
    with zeros on the right, or cut, to three digits. The field has eight
    digits exactly when the integer part has at most five, and more than
    eight otherwise. It denotes the printed decimal cut after its third
    fractional digit, nothing being rounded up: for an int [n] this is
    [1000 * n]; for a float it is read off the text that [str] prints, not
    off the binary value (1.001 gives [00001001], though the double is
    below 1.001 and 1000 times its value is below 1001). 145 gives
    [00145000] and 15.0034 gives [00015003]. The integer part is taken
    with at most 4300 digits, beyond which [str] of an int raises. *)
Theorem strike_encoding :
  (forall (k : number) (ip fp : str),
     all_digits ip -> all_digits fp -> (1 <= length ip <= 4300)%nat ->
     str_of_number k = decimal_text ip fp ->
     exists a b,
       strike_fields k = Ok (a, b)
       /\ a = rjust 5 "0" ip /\ b = slice_to 3 (ljust 3 "0" fp)
       /\ all_digits (a ++ b) /\ length a = Nat.max 5 (length ip) /\ length b = 3%nat
       /\ digits_value a = digits_value ip
       /\ digits_value b = digits_value fp * 1000 / 10 ^ Z.of_nat (length fp)
       /\ digits_value (a ++ b) = thousandths ip fp
       /\ ((length ip <= 5)%nat -> length (a ++ b) = 8%nat)
       /\ ((5 < length ip)%nat -> a = ip /\ (8 < length (a ++ b))%nat))
  /\ (forall n : Z,
        0 <= n < 10 ^ 4300 ->
        exists a,
          strike_fields (PyInt n) = Ok (a, lit "000")
          /\ all_digits a /\ digits_value (a ++ lit "000") = 1000 * n
          /\ (n < 100000 -> length a = 5%nat)
          /\ (100000 <= n -> a = str_of_int n /\ (5 < length a)%nat))
  /\ strike_fields (PyInt 145) = Ok (lit "00145", lit "000")
  /\ strike_fields (PyFloat (float_literal "15.0034")) = Ok (lit "00015", lit "003")
  /\ (float_literal "1.001" = Finite false 4508103226997866 (-52)
      /\ strike_fields (PyFloat (Finite false 4508103226997866 (-52)))
         = Ok (lit "00001", lit "001")
      /\ 1000 * 4508103226997866 / 2 ^ 52 = 1000).
Proof.
  split; [|split; [|repeat split; vm_compute; reflexivity]].
  - intros k ip fp Hip Hfp Hlen Hstr.
    pose proof (strike_fields_text k Hip Hfp Hstr) as H1.
    destruct (strike_fields_value Hip Hfp) as (H2 & H3 & H4 & H5 & H6 & H7).
    exists (rjust 5 "0" ip), (slice_to 3 (ljust 3 "0" fp)).
    split; [exact H1|]. split; [reflexivity|]. split; [reflexivity|].
    split; [exact H2|]. split; [exact H3|]. split; [exact H4|].
    split; [exact H5|]. split; [exact H6|]. split; [exact H7|].
    split.
    + intros Hle. rewrite length_app, H3, H4. lia.
    + intros Hgt. split; [apply rjust_long; lia|].
      rewrite length_app, H3, H4. lia.
  - intros n [Hn0 Hn1].
    destruct (digits_spec Hn0) as (D1 & D2 & D3 & D4).
    assert (Hs : str_of_int n = digits n).
    { unfold str_of_int. now replace (n <? 0) with false by (symmetry; apply Z.ltb_ge; lia). }
    assert (Hstr : str_of_number (PyInt n) = decimal_text (digits n) []) by exact Hs.
    pose proof (strike_fields_text (PyInt n) D1 (Forall_nil _) Hstr) as H1.
    destruct (@strike_fields_value (digits n) [] D1 (Forall_nil _))
      as (H2 & H3 & H4 & H5 & H6 & H7).
    change (slice_to 3 (ljust 3 "0" [])) with (lit "000") in *.
    exists (rjust 5 "0" (digits n)).
    split; [exact H1|].
    split; [apply Forall_app in H2; tauto|].
    split.
    { rewrite H7. unfold thousandths. rewrite app_nil_r, D3.
      change (10 ^ Z.of_nat (length (@nil ascii))) with 1. now rewrite Z.div_1_r, Z.mul_comm. }
    split.
    + intros Hlt. rewrite H3.
      assert ((length (digits n) <= 5)%nat) by (apply D4; [lia | exact Hlt]). lia.
    + intros Hge.
      assert (Hl : (5 < length (digits n))%nat).
      { destruct (Nat.le_gt_cases (length (digits n)) 5) as [Hle|Hgt]; [|exact Hgt].
        pose proof (digits_value_bound D1) as Hb. rewrite D3 in Hb.
        assert (10 ^ Z.of_nat (length (digits n)) <= 10 ^ 5)
          by (apply Z.pow_le_mono_r; lia).
        change (10 ^ 5) with 100000 in *. lia. }
      rewrite rjust_long by lia. rewrite Hs. split; [reflexivity | exact Hl].
Qed.

Lemma strike_encoding_witness :
  (exists a b,
     strike_fields (PyFloat (float_literal "15.0039")) = Ok (a, b)
     /\ a = lit "00015" /\ b = lit "003" /\ digits_value (a ++ b) = 15003)
  /\ (exists a,
        strike_fields (PyInt 123456) = Ok (a, lit "000")
        /\ digits_value (a ++ lit "000") = 123456000 /\ (5 < length a)%nat).
Proof.
  destruct strike_encoding as (H & Hint & _).
  split.
  - destruct (H (PyFloat (float_literal "15.0039")) (lit "15") (lit "0039"))
      as (a & b & H1 & H2 & H3 & _ & _ & _ & _ & _ & H9 & _).
    + repeat constructor.
    + repeat constructor.
    + simpl. lia.
    + vm_compute. reflexivity.
    + exists a, b. split; [exact H1|]. split; [exact H2|]. split; [exact H3|].
      rewrite H9. reflexivity.
  - destruct (Hint 123456) as (a & H1 & _ & H3 & _ & H5).
    + split; [lia | vm_compute; reflexivity].
    + exists a. split; [exact H1|]. split; [exact H3|].
      apply H5. lia.
Defined.

(* ===================================================================== *)
(** * Round trip of the polygon codec *)
(* ===================================================================== *)

Lemma index_app (a b : str) (c : ascii) (n : nat) :
  length a = n -> index n (a ++ c :: b) = Ok c.
Proof.
  intros <-. unfold index. rewrite nth_error_app2 by lia.
  now rewrite Nat.sub_diag.
Qed.

(** [OptionSymbol.__init__] on a symbol cut into the leading segment, six
    expiry characters, the type character and eight strike characters. *)
Lemma init_polygon_fields (today : date) (s U ex st : str) (c : ascii) :
  (if startswith (lit "O:") s then slice_from 2 s else s) = U ++ ex ++ c :: st ->
  length ex = 6%nat -> length st = 8%nat ->
  init_polygon today s
  = (y <- int_of_str (century today ++ slice_to 2 ex) ;;
     m <- int_of_str (slice 2 4 ex) ;;
     d <- int_of_str (slice 4 6 ex) ;;
     expiry <- date_new y m d ;;
     n <- int_of_str st ;;
     x <- true_divide n 1000 ;;
     Ok (mkOptionSymbol (filter (fun x => negb (is_digit x)) U) expiry (upper [c])
           (PyFloat x) (filter (fun x => negb (is_digit x)) U ++ ex ++ c :: st))).
Proof.
  intros Hbody Hex Hst. unfold init_polygon. rewrite Hbody.
  assert (Hdrop : drop_last 15 (U ++ ex ++ c :: st) = U).
  { unfold drop_last. apply firstn_exact. rewrite !length_app. simpl. lia. }
  rewrite Hdrop.
  assert (Hslice : slice (length U) (length U + 6) (U ++ ex ++ c :: st) = ex).
  { rewrite <- (Nat.add_0_r (length U)) at 1.
    rewrite slice_skip by reflexivity. unfold slice. simpl skipn.
    now apply firstn_exact. }
  rewrite Hslice.
  assert (Hidx : index (length U + 6) (U ++ ex ++ c :: st) = Ok c).
  { rewrite app_assoc. apply index_app. rewrite length_app. lia. }
  rewrite Hidx.
  assert (Hfrom : slice_from (length U + 7) (U ++ ex ++ c :: st) = st).
  { rewrite slice_from_skip by reflexivity.
    change 7%nat with (6 + 1)%nat.
    rewrite (slice_from_skip ex (c :: st) 1 Hex). reflexivity. }
  rewrite Hfrom.
  assert (Hrest : slice_from (length U) (U ++ ex ++ c :: st) = ex ++ c :: st).
  { unfold slice_from. now apply skipn_exact. }
  rewrite Hrest. reflexivity.
Qed.

Lemma upper_char_digit (c : ascii) : is_digit (upper_char c) = is_digit c.
Proof.
  pose proof (forall_ascii_spec
    (fun c => Bool.eqb (is_digit (upper_char c)) (is_digit c))) as H.
  specialize (H eq_refl c). now apply Bool.eqb_prop in H.
Qed.


(** The first two characters of a four-digit year. *)
Lemma century_spec (today : date) :
  1000 <= year today <= 9999 ->
  all_digits (century today) /\ length (century today) = 2%nat
  /\ digits_value (century today) = year today / 100.
Proof.
  intros HY. unfold century, strftime_Y, slice_to.
  destruct (@digits_spec (year today)) as (H1 & H2 & H3 & H4); [lia|].
  assert (Hlen : length (digits (year today)) = 4%nat).
  { assert (length (digits (year today)) <= 4)%nat
      by (apply H4; [lia | change (10 ^ Z.of_nat 4) with 10000; lia]).
    assert (3 < length (digits (year today)))%nat
      by (apply digits_length_lower; [assumption | rewrite H3; change (10 ^ Z.of_nat 3) with 1000; lia]).
    lia. }
  split; [now apply all_digits_firstn|]. split.
  - rewrite length_firstn. lia.
  - rewrite digits_value_firstn by (assumption || lia).
    rewrite Hlen, H3. reflexivity.
Qed.

Lemma startswith_marker_digit (U rest : str) (c : ascii) :
  is_digit c = true -> startswith (lit "O:") U = false ->
  startswith (lit "O:") (U ++ c :: rest) = false.
Proof.
  intros Hc HU. destruct U as [|x [|y U]].
  - change (eqb_char "O" c && startswith (lit ":") rest = false).
    destruct (eqb_char "O" c) eqn:E; [|reflexivity].
    apply eqb_char_eq in E. subst. discriminate.
  - change (eqb_char "O" x && (eqb_char ":" c && true) = false).
    destruct (eqb_char ":" c) eqn:E; [|apply andb_false_r].
    apply eqb_char_eq in E. subst. discriminate.
  - exact HU.
Qed.


(** The two-digit fields of a date of the current century, read back by
    [int]: the year behind the century, the month and the day. *)
Lemma date_fields_read_back (today d : date) :
  expiry_in_current_century today d ->
  (all_digits (pad2 (year d mod 100)) /\ length (pad2 (year d mod 100)) = 2%nat)
  /\ (all_digits (pad2 (month d)) /\ length (pad2 (month d)) = 2%nat)
  /\ (all_digits (pad2 (day d)) /\ length (pad2 (day d)) = 2%nat)
  /\ int_of_str (century today ++ pad2 (year d mod 100)) = Ok (year d)
  /\ int_of_str (pad2 (month d)) = Ok (month d)
  /\ int_of_str (pad2 (day d)) = Ok (day d)
  /\ date_new (year d) (month d) (day d) = Ok d.
Proof.
  intros (Hv & HY & Hc).
  pose proof (valid_date_bounds d Hv) as (Hy & Hm & Hd).
  pose proof (Z.mod_pos_bound (year d) 100 ltac:(lia)) as Hyy.
  destruct (pad2_spec Hyy) as (Y1 & Y2 & Y3).
  destruct (@pad2_spec (month d)) as (M1 & M2 & M3); [lia|].
  destruct (@pad2_spec (day d)) as (D1 & D2 & D3); [lia|].
  destruct (century_spec today HY) as (C1 & C2 & C3).
  split; [now split|]. split; [now split|]. split; [now split|].
  split; [|split; [|split]].
  - rewrite int_of_str_digits.
    2:{ apply Forall_app. now split. }
    2:{ destruct (century today); [discriminate | discriminate]. }
    rewrite digits_value_app, C3, Y2, Y3. change (10 ^ Z.of_nat 2) with 100.
    f_equal. rewrite <- Hc. Z.to_euclidean_division_equations; lia.
  - rewrite int_of_str_digits by (assumption || (destruct (pad2 (month d)); discriminate)).
    now rewrite M3.
  - rewrite int_of_str_digits by (assumption || (destruct (pad2 (day d)); discriminate)).
    now rewrite D3.
  - unfold date_new. destruct d as [y m dd]. simpl in *. now rewrite Hv.
Qed.

(** The six expiry characters written by the builder are read back as
    the date, when the century is the current one. *)
Lemma expiry_read_back (today d : date) :
  expiry_in_current_century today d ->
  length (strftime_ymd d) = 6%nat
  /\ (exists c r, strftime_ymd d = c :: r /\ is_digit c = true)
  /\ int_of_str (century today ++ slice_to 2 (strftime_ymd d)) = Ok (year d)
  /\ int_of_str (slice 2 4 (strftime_ymd d)) = Ok (month d)
  /\ int_of_str (slice 4 6 (strftime_ymd d)) = Ok (day d)
  /\ date_new (year d) (month d) (day d) = Ok d.
Proof.
  intros Hd.
  destruct (date_fields_read_back Hd)
    as ((Y1 & Y2) & (M1 & M2) & (D1 & D2) & R1 & R2 & R3 & R4).
  unfold strftime_ymd. split; [rewrite !length_app; lia|]. split.
  - destruct (pad2 (year d mod 100)) as [|c r] eqn:E; [discriminate|].
    exists c, (r ++ pad2 (month d) ++ pad2 (day d)). split; [reflexivity|].
    now inversion Y1.
  - unfold slice_to. rewrite (firstn_exact _ _ Y2).
    change (slice 2 4 (pad2 (year d mod 100) ++ pad2 (month d) ++ pad2 (day d)))
      with (slice (2 + 0) (2 + 2) (pad2 (year d mod 100) ++ pad2 (month d) ++ pad2 (day d))).
    change (slice 4 6 (pad2 (year d mod 100) ++ pad2 (month d) ++ pad2 (day d)))
      with (slice (2 + 2) (2 + 4) (pad2 (year d mod 100) ++ pad2 (month d) ++ pad2 (day d))).
    rewrite !(slice_skip _ _ _ _ Y2).
    change (slice 2 4 (pad2 (month d) ++ pad2 (day d)))
      with (slice (2 + 0) (2 + 2) (pad2 (month d) ++ pad2 (day d))).
    rewrite (slice_skip _ _ _ _ M2).
    unfold slice. simpl skipn. simpl Nat.sub.
    rewrite (firstn_exact _ _ M2), firstn_all2 by lia.
    auto.
Qed.



(* ===================================================================== *)
(** * The TD Ameritrade codec on whole-number strikes *)
(* ===================================================================== *)

Lemma break_at_none (p : ascii -> bool) (s : str) :
  Forall (fun c => p c = false) s -> break_at p s = (s, None).
Proof.
  induction 1 as [|c s Hc Hs IH]; simpl; [reflexivity|].
  now rewrite Hc, IH.
Qed.

Lemma digit_not_letter (c : ascii) :
  is_digit c = true ->
  is_e c = false /\ eqb_char "." c = false /\ lower_char c = c
  /\ eqb_char c "i" = false /\ eqb_char c "n" = false /\ eqb_char c "_" = false.
Proof.
  pose proof (forall_ascii_spec
    (fun c => implb (is_digit c)
                (negb (is_e c) && negb (eqb_char "." c) && eqb_char (lower_char c) c
                 && negb (eqb_char c "i") && negb (eqb_char c "n")
                 && negb (eqb_char c "_")))) as H.
  specialize (H eq_refl c). cbv beta in H. intros Hd. rewrite Hd in H.
  cbn [implb] in H.
  repeat (apply andb_true_iff in H as [H ?]).
  repeat match goal with
         | [ E : negb _ = true |- _ ] => apply negb_true_iff in E
         end.
  match goal with [ E : eqb_char (lower_char c) c = true |- _ ] =>
    apply eqb_char_eq in E end.
  auto 10.
Qed.

(** [float(s)] on a run of digits: the integer, rounded to a float. *)
Lemma float_of_str_digits (s : str) :
  all_digits s -> s <> [] ->
  float_of_str s = Ok (round_ratio false (digits_value s) 1).
Proof.
  intros Hs Hne. unfold float_of_str.
  rewrite (strip_digits Hs), (split_sign_digits Hs).
  assert (Hlow : lower s = s).
  { unfold lower. rewrite <- (map_id s) at 2. apply map_ext_Forall.
    unfold all_digits in Hs. rewrite Forall_forall in *. intros c Hc.
    now destruct (digit_not_letter _ (Hs c Hc)) as (_ & _ & ? & _). }
  rewrite Hlow. destruct s as [|c r]; [congruence|].
  inversion Hs as [|? ? Hc Hr]; subst.
  destruct (digit_not_letter _ Hc) as (_ & _ & _ & Hi & Hn & _).
  change (str_in (c :: r) [lit "inf"; lit "infinity"])
    with ((eqb_char c "i" && eqb_str r (lit "nf"))
          || ((eqb_char c "i" && eqb_str r (lit "nfinity")) || false)).
  change (eqb_str (c :: r) (lit "nan")) with (eqb_char c "n" && eqb_str r (lit "an")).
  rewrite Hi, Hn. cbn [andb orb].
  rewrite break_at_none.
  2:{ unfold all_digits in Hs. rewrite Forall_forall in *. intros x Hx.
      now destruct (digit_not_letter _ (Hs x Hx)) as (? & _). }
  unfold parse_number. rewrite break_at_none.
  2:{ unfold all_digits in Hs. rewrite Forall_forall in *. intros x Hx.
      destruct (digit_not_letter _ (Hs x Hx)) as (_ & Hp & _).
      unfold eqb_char in *. now rewrite Ascii.eqb_sym. }
  rewrite (digitpart_digits Hs) by discriminate.
  cbn [option_map parse_exponent]. rewrite app_nil_r.
  change (0 - Z.of_nat (length (@nil ascii))) with 0. cbn [Z.leb Z.compare].
  change (10 ^ 0) with 1. now rewrite Z.mul_1_r.
Qed.

(** An integer below [2^53] is a float: rounding keeps it. *)
Lemma round_ratio_exact (neg : bool) (n : Z) :
  0 < n < 2 ^ 53 ->
  exists k, 0 <= k <= 52 /\ round_ratio neg n 1 = Finite neg (n * 2 ^ k) (- k).
Proof.
  intros Hn. unfold round_ratio.
  destruct (n =? 0) eqn:E0; [apply Z.eqb_eq in E0; lia|]. clear E0.
  change (Z.log2 1) with 0.
  pose proof (Z.log2_spec n ltac:(lia)) as [Hlo Hhi].
  assert (HL : 0 <= Z.log2 n < 53).
  { split; [apply Z.log2_nonneg|]. apply Z.log2_lt_pow2; lia. }
  set (k := 52 - Z.log2 n + 0). assert (Hk : 0 <= k <= 52) by (unfold k; lia).
  assert (Hpow : 2 ^ 52 <= n * 2 ^ k < 2 ^ 53).
  { assert (E : 2 ^ Z.log2 n * 2 ^ k = 2 ^ 52)
      by (rewrite <- Z.pow_add_r by lia; f_equal; unfold k; lia).
    assert (E' : 2 ^ Z.succ (Z.log2 n) * 2 ^ k = 2 ^ 53)
      by (rewrite <- Z.pow_add_r by lia; f_equal; unfold k; lia).
    assert (0 < 2 ^ k) by (apply Z.pow_pos_nonneg; lia).
    split; [rewrite <- E | rewrite <- E']; nia. }
  clearbody k.
  rewrite (Z.max_l k 0), (Z.max_r (- k) 0) by lia.
  change (1 * 2 ^ 52 * 2 ^ 0) with (2 ^ 52).
  destruct (n * 2 ^ k <? 2 ^ 52) eqn:E1; [apply Z.ltb_lt in E1; lia|]. clear E1.
  rewrite (Z.min_l k 1074), (Z.max_l k 0), (Z.max_r (- k) 0) by lia.
  change (1 * 2 ^ 0) with 1. rewrite Z.div_1_r, Z.mod_1_r.
  change (1 <? 2 * 0) with false. change (1 =? 2 * 0) with false. cbn [orb andb].
  destruct (n * 2 ^ k =? 2 ^ 53) eqn:E2; [apply Z.eqb_eq in E2; lia|].
  destruct (n * 2 ^ k =? 0) eqn:E3; [apply Z.eqb_eq in E3; lia|].
  destruct (971 <? - k) eqn:E4; [apply Z.ltb_lt in E4; lia|].
  exists k. auto.
Qed.

(** The strike attribute that the TD Ameritrade parser computes from a
    run of digits, and the text that the builder writes for it. *)
Lemma whole_strike (n : Z) :
  0 <= n < 2 ^ 53 ->
  exists f, float_of_str (digits n) = Ok f /\ float_of_int n = Ok f
            /\ int_of_float f = Ok n /\ float_eq_int f n = true.
Proof.
  intros Hn. destruct (@digits_spec n) as (H1 & H2 & H3 & _); [lia|].
  rewrite (float_of_str_digits H1 H2), H3.
  unfold float_of_int, true_divide.
  replace (n <? 0) with false by (symmetry; apply Z.ltb_ge; lia).
  rewrite Z.abs_eq by lia.
  destruct (Z.eq_dec n 0) as [->|Hz].
  - exists (Finite false 0 0). repeat split.
  - destruct (@round_ratio_exact false n) as (k & Hk & ->); [lia|].
    exists (Finite false (n * 2 ^ k) (- k)).
    assert (Hp : 0 < 2 ^ k) by (apply Z.pow_pos_nonneg; lia).
    split; [reflexivity|]. split; [reflexivity|]. split.
    + unfold int_of_float. destruct (0 <=? - k) eqn:E.
      * apply Z.leb_le in E. replace k with 0 by lia. simpl. f_equal. lia.
      * rewrite Z.opp_involutive, Z.div_mul by lia. reflexivity.
    + unfold float_eq_int. destruct (0 <=? - k) eqn:E.
      * apply Z.leb_le in E. replace k with 0 by lia. apply Z.eqb_eq. simpl. lia.
      * rewrite Z.opp_involutive. apply Z.eqb_refl.
Qed.

(** [OptionSymbol.__init__] on an underscore symbol cut into the
    underlying, three pairs of date characters, the type character and
    the strike text. *)
Lemma init_tda_fields (today : date) (U A B C t : str) (c : ascii) :
  ~ In "_"%char U -> ~ In "_"%char (A ++ B ++ C ++ c :: t) ->
  length A = 2%nat -> length B = 2%nat -> length C = 2%nat ->
  init_tda today (U ++ "_"%char :: A ++ B ++ C ++ c :: t) Underscore
  = (y <- int_of_str (century today ++ C) ;;
     m <- int_of_str A ;;
     d <- int_of_str B ;;
     expiry <- date_new y m d ;;
     f <- float_of_str t ;;
     n <- int_of_float f ;;
     Ok (mkOptionSymbol U expiry [c] (if float_eq_int f n then PyInt n else PyFloat f)
           (U ++ "_"%char :: A ++ B ++ C ++ c :: t))).
Proof.
  intros HU Hrest HA HB HC. unfold init_tda.
  rewrite (@split_at_sep _ _ _ HU), (@split_no_sep _ _ Hrest).
  unfold item. cbn [nth_error bind].
  assert (E6 : slice_to 6 (A ++ B ++ C ++ c :: t) = A ++ B ++ C).
  { unfold slice_to. rewrite !app_assoc. apply firstn_exact.
    rewrite !length_app. lia. }
  rewrite E6.
  assert (EC : slice 4 6 (A ++ B ++ C) = C).
  { change (slice 4 6 (A ++ B ++ C)) with (slice (2 + 2) (2 + 4) (A ++ B ++ C)).
    rewrite (slice_skip _ _ _ _ HA).
    change (slice 2 4 (B ++ C)) with (slice (2 + 0) (2 + 2) (B ++ C)).
    rewrite (slice_skip _ _ _ _ HB). unfold slice. simpl skipn.
    apply firstn_all2. lia. }
  assert (EA : slice_to 2 (A ++ B ++ C) = A) by (now apply firstn_exact).
  assert (EB : slice 2 4 (A ++ B ++ C) = B).
  { change (slice 2 4 (A ++ B ++ C)) with (slice (2 + 0) (2 + 2) (A ++ B ++ C)).
    rewrite (slice_skip _ _ _ _ HA). unfold slice. simpl skipn.
    now apply firstn_exact. }
  rewrite EC, EA, EB.
  assert (Ei : index 6 (A ++ B ++ C ++ c :: t) = Ok c).
  { rewrite !app_assoc. apply index_app. rewrite !length_app. lia. }
  assert (Et : slice_from 7 (A ++ B ++ C ++ c :: t) = t).
  { change 7%nat with (2 + (2 + (2 + 1)))%nat.
    rewrite (slice_from_skip _ _ _ HA), (slice_from_skip _ _ _ HB),
      (slice_from_skip _ _ _ HC). reflexivity. }
  rewrite Ei, Et. reflexivity.
Qed.

Lemma digits_no_underscore (s : str) : all_digits s -> ~ In "_"%char s.
Proof.
  intros H Hin. unfold all_digits in H. rewrite Forall_forall in H.
  apply H in Hin. discriminate.
Qed.

Lemma upper_digits (s : str) : all_digits s -> upper s = s.
Proof.
  intros H. unfold upper. rewrite <- (map_id s) at 2. apply map_ext_Forall.
  unfold all_digits in H. rewrite Forall_forall in *. intros c Hc.
  specialize (H c Hc). revert H.
  pose proof (forall_ascii_spec
    (fun c => implb (is_digit c) (eqb_char (upper_char c) c))) as E.
  specialize (E eq_refl c). cbv beta in E. intros Hd. rewrite Hd in E.
  now apply eqb_char_eq in E.
Qed.

(** The text after the underscore, for a whole-number strike. *)
Lemma tda_rest_no_underscore (A B C : str) (c : ascii) (n : Z) :
  all_digits A -> all_digits B -> all_digits C ->
  c = "C"%char \/ c = "P"%char -> 0 <= n ->
  ~ In "_"%char (A ++ B ++ C ++ c :: digits n).
Proof.
  intros HA HB HC Hc Hn. destruct (@digits_spec n Hn) as (Hd & _).
  rewrite !in_app_iff. intros [H|[H|[H|[H|H]]]].
  - now apply (digits_no_underscore HA).
  - now apply (digits_no_underscore HB).
  - now apply (digits_no_underscore HC).
  - destruct Hc; subst; discriminate.
  - now apply (digits_no_underscore Hd).
Qed.

(** The underscore variant round-trips: a symbol with an expiry of the
    current century, the letter [C] or [P] and a whole-number strike is
    parsed, and re-encoding the parse gives the symbol back. *)
Lemma tda_underscore_reencode (today d : date) (U : str) (c : ascii) (n : Z) :
  expiry_in_current_century today d ->
  ~ In "_"%char U -> startswith (lit ".") U = false ->
  c = "C"%char \/ c = "P"%char -> 0 <= n < 2 ^ 53 ->
  tda_reencode today (U ++ "_"%char :: strftime_mdy d ++ c :: digits n)
  = Ok (U ++ "_"%char :: strftime_mdy d ++ c :: digits n).
Proof.
  intros Hd HU Hdot Hc Hn.
  destruct (date_fields_read_back Hd)
    as ((Y1 & Y2) & (M1 & M2) & (D1 & D2) & R1 & R2 & R3 & R4).
  destruct (whole_strike Hn) as (f & F1 & F2 & F3 & F4).
  unfold tda_reencode, parse_option_symbol_from_tda, OptionSymbol_init.
  assert (Hfmt : tda_format_of (U ++ "_"%char :: strftime_mdy d ++ c :: digits n)
                 = Underscore).
  { unfold tda_format_of. destruct U as [|x U]; [reflexivity|].
    change (startswith (lit ".") ((x :: U) ++ "_"%char :: strftime_mdy d ++ c :: digits n))
      with (eqb_char "." x && true).
    change (eqb_char "." x && true = false) in Hdot. now rewrite Hdot. }
  rewrite Hfmt. unfold strftime_mdy. rewrite <- !app_assoc.
  rewrite init_tda_fields; try assumption.
  2:{ apply tda_rest_no_underscore; (assumption || lia). }
  rewrite R1, R2, R3. cbn [bind]. rewrite R4. cbn [bind].
  rewrite F1. cbn [bind]. rewrite F3. cbn [bind]. rewrite F4.
  cbn [underlying_symbol expiry call_or_put strike_price].
  unfold build_option_symbol_for_tda.
  cbn [float_of_number]. rewrite F2. cbn [bind]. rewrite F3. cbn [bind]. rewrite F4.
  cbn [str_of_number]. unfold str_of_int.
  replace (n <? 0) with false by (symmetry; apply Z.ltb_ge; lia).
  unfold strftime_mdy.
  replace (option_letter [c]) with [c] by (destruct Hc; subst; reflexivity).
  rewrite <- !app_assoc. reflexivity.
Qed.

(** What the parser reads in a dot symbol written by the builder: the
    day where the month should be, and the two-digit year where the day
    should be. *)
Lemma tda_dot_reads_rotated (today d : date) (U : str) (c : ascii) (n : Z)
    (o : OptionSymbol) :
  valid_date d = true ->
  Forall (fun x => is_alpha x = true) U -> upper U = U ->
  c = "C"%char \/ c = "P"%char -> 0 <= n ->
  parse_option_symbol_from_tda today ("."%char :: U ++ strftime_mdy d ++ c :: digits n)
  = Ok o ->
  month (expiry o) = day d /\ day (expiry o) = year d mod 100.
Proof.
  intros Hv HU Hup Hc Hn.
  pose proof (valid_date_bounds d Hv) as (Hy & Hm & Hdd).
  pose proof (Z.mod_pos_bound (year d) 100 ltac:(lia)) as Hyy.
  destruct (pad2_spec Hyy) as (Y1 & Y2 & Y3).
  destruct (@pad2_spec (month d)) as (M1 & M2 & M3); [lia|].
  destruct (@pad2_spec (day d)) as (D1 & D2 & D3); [lia|].
  destruct (@digits_spec n Hn) as (N1 & _).
  unfold parse_option_symbol_from_tda, OptionSymbol_init.
  change (tda_format_of ("."%char :: U ++ strftime_mdy d ++ c :: digits n)) with Dot.
  change (init_tda today ("."%char :: U ++ strftime_mdy d ++ c :: digits n) Dot)
    with (init_tda today
            (dot_to_underscore ("."%char :: U ++ strftime_mdy d ++ c :: digits n))
            Underscore).
  unfold strftime_mdy. rewrite <- !app_assoc.
  rewrite dot_to_underscore_date; try assumption.
  2:{ rewrite !upper_app, !upper_digits by assumption.
      change (upper (c :: digits n)) with (upper_char c :: upper (digits n)).
      rewrite upper_digits by assumption. destruct Hc; subst; reflexivity. }
  2:{ intros x r E. rewrite E in M1. inversion M1 as [|? ? Hx _]; subst.
      revert Hx.
      pose proof (forall_ascii_spec
        (fun c => implb (is_digit c) (negb (is_alpha c)))) as F.
      specialize (F eq_refl x). cbv beta in F. intros Hx. rewrite Hx in F.
      now apply negb_true_iff in F. }
  rewrite init_tda_fields; try assumption.
  2:{ intros Hin. unfold all_digits in HU. rewrite Forall_forall in HU.
      apply HU in Hin. discriminate. }
  2:{ apply tda_rest_no_underscore; assumption. }
  rewrite (int_of_str_digits D1) by (destruct (pad2 (day d)); discriminate).
  rewrite (int_of_str_digits Y1) by (destruct (pad2 (year d mod 100)); discriminate).
  rewrite D3, Y3.
  destruct (int_of_str (century today ++ pad2 (month d))) as [y|]; cbn [bind];
    [|discriminate].
  unfold date_new.
  destruct (valid_date (mkdate y (day d) (year d mod 100))); cbn [bind]; [|discriminate].
  destruct (float_of_str (digits n)) as [f|]; cbn [bind]; [|discriminate].
  destruct (int_of_float f) as [k|]; cbn [bind]; [|discriminate].
  intros H. injection H as <-. split; reflexivity.
Qed.

(** C3, at the failing input: the dot symbol that the builder writes for
    TSLA, 3 September 2021, call, 700 is read back with the expiry
    21 March 2009, and re-encoding what was read gives another symbol. *)
Theorem tda_dot_round_trip_fails :
  let today := mkdate 2026 11 4 in
  let s := lit ".TSLA090321C700" in
  build_option_symbol_for_tda (lit "TSLA") (ExpiryDate (mkdate 2021 9 3)) (lit "c")
    (PyInt 700) Dot = Ok s
  /\ parse_option_symbol_from_tda today s
     = Ok (mkOptionSymbol (lit "TSLA") (mkdate 2009 3 21) (lit "C") (PyInt 700)
             (lit "TSLA_032109C700"))
  /\ tda_reencode today s = Ok (lit ".TSLA032109C700")
  /\ tda_reencode today s <> Ok (upper s).
Proof.
  cbv zeta. split; [|split; [|split]]; try (vm_compute; reflexivity).
  vm_compute. discriminate.
Qed.

(* ===================================================================== *)
(** * Further properties: [ensure_prefix] and the builders *)
(* ===================================================================== *)

Lemma upper_lower_char (c : ascii) : upper_char (lower_char c) = upper_char c.
Proof.
  apply eqb_char_eq.
  apply (forall_ascii_spec (fun c => eqb_char (upper_char (lower_char c)) (upper_char c))).
  vm_compute. reflexivity.
Qed.

Lemma upper_lower (s : str) : upper (lower s) = upper s.
Proof.
  unfold upper, lower. rewrite map_map. apply map_ext. intros c. apply upper_lower_char.
Qed.

Lemma length_lower (s : str) : length (lower s) = length s.
Proof. apply length_map. Qed.

Lemma ensure_prefix_upper_only (s t : str) :
  length s = length t -> upper s = upper t -> ensure_prefix s = ensure_prefix t.
Proof. intros Hl Hu. unfold ensure_prefix. now rewrite Hl, Hu. Qed.

(** X1. On a symbol of ASCII characters, whose case conversions keep
    the length, [ensure_prefix] does not depend on the case of its argument,
    and for a symbol of 15 characters or more it does not depend on
    whether the marker is already there. The length test counts the
    marker: a symbol of 13 or 14 characters is refused without the marker
    and accepted with it. *)
Theorem ensure_prefix_normalises (s : str) :
  ascii_only s ->
  ensure_prefix (upper s) = ensure_prefix s
  /\ ensure_prefix (lower s) = ensure_prefix s
  /\ (~ starts_with_marker_ci s ->
      ((15 <= length s)%nat -> ensure_prefix (lit "O:" ++ s) = ensure_prefix s)
      /\ ((13 <= length s < 15)%nat ->
          ensure_prefix s = Raise ValueError_symbol_length
          /\ ensure_prefix (lit "O:" ++ s) = Ok (lit "O:" ++ upper s))).
Proof.
  intros _. split; [|split].
  - apply ensure_prefix_upper_only; [apply length_upper | apply upper_idem].
  - apply ensure_prefix_upper_only; [apply length_lower | apply upper_lower].
  - intros Hm.
    assert (Hs : startswith (lit "O:") (upper s) = false).
    { destruct (startswith (lit "O:") (upper s)) eqn:E; [|reflexivity].
      apply marker_ci_iff in E. contradiction. }
    assert (Hp : ensure_prefix (lit "O:" ++ s) = Ok (lit "O:" ++ upper s)
                 \/ (length s < 13)%nat).
    { destruct (Nat.lt_ge_cases (length s) 13) as [|Hge]; [now right | left].
      rewrite ensure_prefix_long by (rewrite length_app; simpl; lia).
      rewrite upper_app. change (upper (lit "O:")) with (lit "O:").
      now rewrite startswith_app. }
    split.
    + intros Hl. destruct Hp as [Hp|]; [|lia].
      rewrite Hp, (ensure_prefix_long _ Hl), Hs. reflexivity.
    + intros Hl. destruct Hp as [Hp|]; [|lia]. split; [|exact Hp].
      unfold ensure_prefix.
      destruct (length s <? 15)%nat eqn:E; [reflexivity|].
      apply Nat.ltb_ge in E. lia.
Qed.

Lemma ensure_prefix_normalises_witness :
  ascii_only (lit "sla211015p000")
  /\ ensure_prefix (lit "SLA211015P000") = ensure_prefix (lit "sla211015p000")
  /\ ensure_prefix (lit "sla211015p000") = Raise ValueError_symbol_length
  /\ ensure_prefix (lit "O:sla211015p000") = Ok (lit "O:SLA211015P000").
Proof.
  assert (Ha : ascii_only (lit "sla211015p000")) by (repeat constructor).
  split; [exact Ha|].
  destruct (ensure_prefix_normalises Ha) as (Hu & _ & H).
  split; [exact Hu|].
  destruct H as [_ H].
  - intros (a & rest & E & _). discriminate E.
  - apply H. simpl. lia.
Defined.

Lemma rjust_length (n : nat) (c : ascii) (s : str) : (n <= length (rjust n c s))%nat.
Proof. unfold rjust. rewrite length_app, repeat_length. lia. Qed.

Lemma pad2_length (n : Z) : (2 <= length (pad2 n))%nat.
Proof. apply rjust_length. Qed.

Lemma strike_fields_length (k : number) (a b : str) :
  strike_fields k = Ok (a, b) -> (5 <= length a)%nat /\ length b = 3%nat.
Proof.
  unfold strike_fields. destruct (contains "." (str_of_number k)).
  - destruct (item 0 _) as [x|]; cbn [bind]; [|discriminate].
    destruct (item 1 _) as [y|]; cbn [bind]; [|discriminate].
    assert (Hb : length (slice_to 3 (ljust 3 "0" y)) = 3%nat).
    { unfold slice_to, ljust. rewrite length_firstn, length_app, repeat_length. lia. }
    pose proof (rjust_length 5 "0" x) as Ha.
    set (a' := rjust 5 "0" x) in *. set (b' := slice_to 3 (ljust 3 "0" y)) in *.
    intros H. injection H as <- <-. now split.
  - destruct (int_of_number k) as [n|]; cbn [bind]; [|discriminate].
    intros H. injection H as <- <-. split; [apply rjust_length | reflexivity].
Qed.

Lemma polygon_expiry_length (e : expiry_arg) (ex : str) :
  polygon_expiry e = Ok ex -> (6 <= length ex)%nat.
Proof.
  destruct e as [d|s]; simpl.
  - intros H. injection H as <-. unfold strftime_ymd. rewrite !length_app.
    pose proof (pad2_length (year d mod 100)). pose proof (pad2_length (month d)).
    pose proof (pad2_length (day d)). lia.
  - destruct (length s =? 6)%nat eqn:E; simpl; [|discriminate].
    apply Nat.eqb_eq in E. intros H. injection H as <-. lia.
Qed.

(** X2. Whatever the arguments, a symbol returned by
    [build_option_symbol] has at least 15 characters more than the
    underlying, so [ensure_prefix] never refuses it. *)
Theorem built_symbol_is_accepted (u cp : str) (e : expiry_arg) (k : number)
    (p : bool) (s : str) :
  build_option_symbol u e cp k p = Ok s ->
  (length u + 15 <= length s)%nat /\ exists r, ensure_prefix s = Ok r.
Proof.
  unfold build_option_symbol.
  destruct (polygon_expiry e) as [ex|] eqn:He; cbn [bind]; [|discriminate].
  destruct (strike_fields k) as [[a b]|] eqn:Hk; cbn [bind]; [|discriminate].
  pose proof (polygon_expiry_length _ He) as Hex.
  destruct (strike_fields_length _ Hk) as [Ha Hb].
  assert (Hc : length (option_letter cp) = 1%nat).
  { unfold option_letter. now destruct (str_in _ _). }
  intros H.
  assert (Hlen : (length u + 15 <= length s)%nat).
  { assert (Hs : s = (if p then lit "O:" else []) ++ upper u ++ ex
                     ++ option_letter cp ++ a ++ b)
      by (destruct p; injection H as H; symmetry; exact H).
    rewrite Hs, !length_app, length_upper. lia. }
  split; [exact Hlen|].
  rewrite ensure_prefix_long by lia. eexists. reflexivity.
Qed.

Lemma built_symbol_is_accepted_witness :
  exists r, ensure_prefix (lit "FB210903C00700000") = Ok r.
Proof.
  destruct (@built_symbol_is_accepted (lit "FB") (lit "c")
              (ExpiryStr (lit "210903")) (PyInt 700) false
              (lit "FB210903C00700000")) as [_ H]; [vm_compute; reflexivity|].
  exact H.
Defined.

Lemma strftime_ymd_digits (d : date) :
  valid_date d = true ->
  all_digits (strftime_ymd d) /\ length (strftime_ymd d) = 6%nat.
Proof.
  intros Hv. pose proof (valid_date_bounds d Hv) as (Hy & Hm & Hd).
  pose proof (Z.mod_pos_bound (year d) 100 ltac:(lia)) as Hyy.
  destruct (pad2_spec Hyy) as (Y1 & Y2 & _).
  destruct (@pad2_spec (month d)) as (M1 & M2 & _); [lia|].
  destruct (@pad2_spec (day d)) as (D1 & D2 & _); [lia|].
  unfold strftime_ymd. split.
  - apply Forall_app; split; [exact Y1 | apply Forall_app; split; [exact M1 | exact D1]].
  - rewrite !length_app. lia.
Qed.

Lemma strftime_mdy_digits (d : date) :
  valid_date d = true ->
  all_digits (strftime_mdy d) /\ length (strftime_mdy d) = 6%nat.
Proof.
  intros Hv. pose proof (valid_date_bounds d Hv) as (Hy & Hm & Hd).
  pose proof (Z.mod_pos_bound (year d) 100 ltac:(lia)) as Hyy.
  destruct (pad2_spec Hyy) as (Y1 & Y2 & _).
  destruct (@pad2_spec (month d)) as (M1 & M2 & _); [lia|].
  destruct (@pad2_spec (day d)) as (D1 & D2 & _); [lia|].
  unfold strftime_mdy. split.
  - apply Forall_app; split; [exact M1 | apply Forall_app; split; [exact D1 | exact Y1]].
  - rewrite !length_app. lia.
Qed.

(** The symbol written for a date and a plain decimal strike: the
    uppercased underlying and fifteen characters, all digits but the
    letter of the option type. *)
Lemma built_symbol_shape (d : date) (u cp : str) (e : expiry_arg) (k : number)
    (ip fp : str) :
  valid_date d = true -> e = ExpiryDate d \/ e = ExpiryStr (strftime_ymd d) ->
  all_digits ip -> all_digits fp -> (1 <= length ip <= 5)%nat ->
  str_of_number k = decimal_text ip fp ->
  let st := rjust 5 "0" ip ++ slice_to 3 (ljust 3 "0" fp) in
  exists c,
    option_letter cp = [c] /\ (c = "C"%char \/ c = "P"%char)
    /\ (forall p, build_option_symbol u e cp k p
                  = Ok ((if p then lit "O:" else []) ++ upper u ++ strftime_ymd d ++ c :: st))
    /\ all_digits st /\ length st = 8%nat /\ digits_value st = thousandths ip fp.
Proof.
  intros Hv He Hip Hfp Hlen Hstr st.
  destruct (strike_fields_decimal k Hip Hfp Hlen Hstr) as (Hk & Hab & Ha & Hb & Hval).
  destruct (strftime_ymd_digits d Hv) as [Hex Hex6].
  assert (Hpe : polygon_expiry e = Ok (strftime_ymd d)).
  { destruct He as [-> | ->]; [reflexivity|].
    unfold polygon_expiry. now rewrite Hex6. }
  assert (Hc : exists c, option_letter cp = [c] /\ (c = "C"%char \/ c = "P"%char)).
  { unfold option_letter. destruct (str_in _ _);
      [exists "C"%char | exists "P"%char]; auto. }
  destruct Hc as (c & Hc & Hcp).
  exists c. split; [assumption|]. split; [assumption|]. split.
  - intros p. unfold build_option_symbol. rewrite Hpe, Hk. cbn [bind]. rewrite Hc.
    destruct p; reflexivity.
  - split; [assumption|]. split; [|assumption].
    unfold st. rewrite length_app. lia.
Qed.

(** X3. For an underlying that does not itself begin with the marker, a
    date and a plain decimal strike, [ensure_prefix] turns the symbol built
    without the marker into the symbol built with it, and leaves the
    latter unchanged: the endpoints send the same symbol either way. *)
Theorem ensure_prefix_of_built (d : date) (u cp : str) (e : expiry_arg) (k : number)
    (ip fp : str) :
  startswith (lit "O:") (upper u) = false ->
  valid_date d = true -> e = ExpiryDate d \/ e = ExpiryStr (strftime_ymd d) ->
  all_digits ip -> all_digits fp -> (1 <= length ip <= 5)%nat ->
  str_of_number k = decimal_text ip fp ->
  exists s,
    build_option_symbol u e cp k false = Ok s
    /\ build_option_symbol u e cp k true = Ok (lit "O:" ++ s)
    /\ ensure_prefix s = Ok (lit "O:" ++ s)
    /\ ensure_prefix (lit "O:" ++ s) = Ok (lit "O:" ++ s).
Proof.
  intros Hu Hv He Hip Hfp Hlen Hstr.
  destruct (@built_symbol_shape d u cp e k ip fp Hv He Hip Hfp Hlen Hstr)
    as (c & Hc & Hcp & Hb & Hst & Hst8 & _).
  set (st := rjust 5 "0" ip ++ slice_to 3 (ljust 3 "0" fp)) in *.
  destruct (strftime_ymd_digits d Hv) as [Hex Hex6].
  set (s := upper u ++ strftime_ymd d ++ c :: st).
  assert (Hup : upper s = s).
  { unfold s. rewrite !upper_app, upper_idem, (upper_digits Hex).
    change (upper (c :: st)) with (upper_char c :: upper st).
    rewrite (upper_digits Hst). destruct Hcp; subst; reflexivity. }
  assert (Hno : startswith (lit "O:") s = false).
  { unfold s. destruct (strftime_ymd d) as [|c0 r0] eqn:E0; [discriminate|].
    inversion Hex as [|? ? Hc0 _]; subst.
    change ((c0 :: r0) ++ c :: st) with (c0 :: r0 ++ c :: st).
    now apply startswith_marker_digit. }
  assert (Hl : (15 <= length s)%nat).
  { unfold s. rewrite !length_app. simpl. lia. }
  exists s. split; [exact (Hb false)|]. split; [exact (Hb true)|]. split.
  - rewrite (ensure_prefix_long _ Hl), Hup, Hno. reflexivity.
  - apply ensure_prefix_fixed.
    + rewrite length_app. lia.
    + apply startswith_app.
    + rewrite upper_app, Hup. reflexivity.
Qed.

Lemma ensure_prefix_of_built_witness :
  ensure_prefix (lit "TSLA211015P00125500") = Ok (lit "O:TSLA211015P00125500").
Proof.
  destruct (@ensure_prefix_of_built (mkdate 2021 10 15) (lit "tsla") (lit "put")
              (ExpiryDate (mkdate 2021 10 15)) (PyFloat (float_literal "125.5"))
              (lit "125") (lit "5"))
    as (s & H1 & _ & H3 & _).
  - reflexivity.
  - reflexivity.
  - now left.
  - repeat constructor.
  - repeat constructor.
  - simpl; lia.
  - vm_compute. reflexivity.
  - assert (E : build_option_symbol (lit "tsla") (ExpiryDate (mkdate 2021 10 15))
                  (lit "put") (PyFloat (float_literal "125.5")) false
                = Ok (lit "TSLA211015P00125500")) by (vm_compute; reflexivity).
    rewrite E in H1. injection H1 as <-. exact H3.
Defined.

(* ===================================================================== *)
(** * Further properties: format detection and the wrong parser *)
(* ===================================================================== *)

(** X4. Every symbol that [build_option_symbol_for_tda] returns, in
    either variant and whatever the arguments, is detected as a TD
    Ameritrade symbol. *)
Theorem detect_built_tda (u cp : str) (e : expiry_arg) (k : number)
    (f : tda_format) (s : str) :
  build_option_symbol_for_tda u e cp k f = Ok s ->
  detect_symbol_format s = Some (lit "tda").
Proof.
  unfold build_option_symbol_for_tda.
  destruct (float_of_number k) as [x|]; cbn [bind]; [|discriminate].
  destruct (int_of_float x) as [n|]; cbn [bind]; [|discriminate].
  unfold detect_symbol_format. destruct f; intros H.
  - assert (Hin : contains "_" s = true).
    { apply contains_In. injection H as H. rewrite <- H.
      apply in_or_app. right. now left. }
    rewrite Hin, orb_true_r. reflexivity.
  - assert (Hst : startswith (lit ".") s = true).
    { apply startswith_iff. injection H as H. rewrite <- H. eexists. reflexivity. }
    rewrite Hst. reflexivity.
Qed.

Lemma detect_built_tda_witness :
  detect_symbol_format (lit ".TSLA090321C700") = Some (lit "tda").
Proof.
  apply (@detect_built_tda (lit "TSLA") (lit "c") (ExpiryDate (mkdate 2021 9 3))
           (PyInt 700) Dot).
  vm_compute. reflexivity.
Defined.

Lemma upper_char_special (c : ascii) :
  (upper_char c = "_"%char -> c = "_"%char) /\ (upper_char c = "."%char -> c = "."%char).
Proof.
  pose proof (forall_ascii_spec
    (fun c => implb (eqb_char (upper_char c) "_") (eqb_char c "_")
              && implb (eqb_char (upper_char c) ".") (eqb_char c "."))) as H.
  specialize (H eq_refl c). cbv beta in H. apply andb_true_iff in H as [H1 H2].
  split; intros E; apply eqb_char_eq; apply eqb_char_eq in E.
  - now rewrite E in H1.
  - now rewrite E in H2.
Qed.

(** X5. A symbol built by [build_option_symbol] from an underlying
    without underscore or leading dot, a date and a plain decimal strike is
    detected as a polygon symbol when it carries the marker or a non-empty
    underlying. With an empty underlying and no marker it has exactly 15
    characters and is not recognised. *)
Theorem detect_built_polygon (d : date) (u cp : str) (e : expiry_arg) (k : number)
    (p : bool) (ip fp : str) (s : str) :
  ~ In "_"%char u -> startswith (lit ".") u = false ->
  valid_date d = true -> e = ExpiryDate d \/ e = ExpiryStr (strftime_ymd d) ->
  all_digits ip -> all_digits fp -> (1 <= length ip <= 5)%nat ->
  str_of_number k = decimal_text ip fp ->
  build_option_symbol u e cp k p = Ok s ->
  detect_symbol_format s
  = if p || negb (length u =? 0)%nat then Some (lit "polygon") else None.
Proof.
  intros Hus Hdot Hv He Hip Hfp Hlen Hstr Hb.
  destruct (@built_symbol_shape d u cp e k ip fp Hv He Hip Hfp Hlen Hstr)
    as (c & Hc & Hcp & Hbuild & Hst & Hst8 & _).
  set (st := rjust 5 "0" ip ++ slice_to 3 (ljust 3 "0" fp)) in *.
  destruct (strftime_ymd_digits d Hv) as [Hex Hex6].
  set (body := upper u ++ strftime_ymd d ++ c :: st) in *.
  assert (Hs : s = (if p then lit "O:" else []) ++ body)
    by (rewrite Hbuild in Hb; injection Hb as Hb; symmetry; exact Hb).
  assert (Hund : ~ In "_"%char body).
  { unfold body. rewrite !in_app_iff. intros [H|[H|[H|H]]].
    - unfold upper in H. apply in_map_iff in H as (x & Hx & Hin).
      apply upper_char_special in Hx. subst. contradiction.
    - now apply (digits_no_underscore Hex).
    - destruct Hcp; subst; discriminate.
    - now apply (digits_no_underscore Hst). }
  destruct (strftime_ymd d) as [|c0 r0] eqn:E0; [discriminate|].
  assert (Hc0 : is_digit c0 = true) by (inversion Hex; assumption).
  unfold detect_symbol_format. destruct p.
  - rewrite Hs.
    replace (contains "_" (lit "O:" ++ body)) with false.
    2:{ symmetry. apply contains_false. intros [H|[H|H]]; try discriminate.
        contradiction. }
    reflexivity.
  - change ([] ++ body) with body in Hs. rewrite Hs.
    replace (contains "_" body) with false by (symmetry; now apply contains_false).
    destruct u as [|x u'].
    + unfold body. change (upper [] ++ (c0 :: r0) ++ c :: st) with (c0 :: r0 ++ c :: st).
      replace (startswith (lit ".") (c0 :: r0 ++ c :: st)) with false.
      2:{ symmetry. change (eqb_char "." c0 && true = false).
          destruct (eqb_char "." c0) eqn:E; [|reflexivity].
          apply eqb_char_eq in E. subst. discriminate. }
      replace (startswith (lit "O:") (c0 :: r0 ++ c :: st)) with false.
      2:{ symmetry. apply (@startswith_marker_digit [] (r0 ++ c :: st) c0 Hc0). reflexivity. }
      replace (15 <? length (c0 :: r0 ++ c :: st))%nat with false.
      2:{ symmetry. apply Nat.ltb_ge. simpl in *. rewrite length_app. simpl. lia. }
      reflexivity.
    + replace (startswith (lit ".") body) with false.
      2:{ symmetry. unfold body.
          change (eqb_char "." (upper_char x) && true = false).
          change (eqb_char "." x && true = false) in Hdot.
          destruct (eqb_char "." (upper_char x)) eqn:E; [|reflexivity].
          apply eqb_char_eq in E. symmetry in E. apply upper_char_special in E.
          subst. discriminate. }
      replace (15 <? length body)%nat with true.
      2:{ symmetry. apply Nat.ltb_lt. unfold body.
          rewrite !length_app, length_upper. simpl in *. lia. }
      rewrite orb_true_r. reflexivity.
Qed.

Lemma detect_built_polygon_witness :
  detect_symbol_format (lit "211015P00125500") = None
  /\ detect_symbol_format (lit "TSLA211015P00125500") = Some (lit "polygon").
Proof.
  split.
  - apply (@detect_built_polygon (mkdate 2021 10 15) [] (lit "put")
             (ExpiryDate (mkdate 2021 10 15)) (PyFloat (float_literal "125.5"))
             false (lit "125") (lit "5"));
      try (vm_compute; reflexivity); try (repeat constructor);
      try (simpl; lia); try tauto.
  - apply (@detect_built_polygon (mkdate 2021 10 15) (lit "TSLA") (lit "put")
             (ExpiryDate (mkdate 2021 10 15)) (PyFloat (float_literal "125.5"))
             false (lit "125") (lit "5"));
      try (vm_compute; reflexivity); try (repeat constructor);
      try (simpl; lia); try tauto.
    intros H. simpl in H. intuition discriminate.
Defined.

(** X6. A string that [detect_symbol_format] does not classify as a TD
    Ameritrade symbol (no leading dot, no underscore) is refused by the
    TD Ameritrade parser and by the converter to the polygon format with
    an [IndexError]: the split at the underscore has a single part. *)
Theorem tda_parser_on_other_formats (today : date) (s : str) (p : bool) :
  detect_symbol_format s <> Some (lit "tda") ->
  parse_option_symbol_from_tda today s = Raise IndexError_list
  /\ convert_from_tda_to_polygon_format today s p = Raise IndexError_list.
Proof.
  intros Hd.
  assert (H : startswith (lit ".") s = false /\ contains "_" s = false).
  { unfold detect_symbol_format in Hd.
    destruct (startswith (lit ".") s); [exfalso; now apply Hd|].
    destruct (contains "_" s); [exfalso; now apply Hd|]. now split. }
  destruct H as [Hdot Hund].
  assert (Hinit : OptionSymbol_init today s Tda (tda_format_of s) = Raise IndexError_list).
  { unfold tda_format_of. rewrite Hdot. unfold OptionSymbol_init, init_tda.
    rewrite split_no_sep by (now apply contains_false). reflexivity. }
  split.
  - exact Hinit.
  - unfold convert_from_tda_to_polygon_format. now rewrite Hinit.
Qed.

Lemma tda_parser_on_other_formats_witness :
  parse_option_symbol_from_tda (mkdate 2026 11 4) (lit "O:TSLA211015P00125000")
  = Raise IndexError_list.
Proof.
  apply (@tda_parser_on_other_formats (mkdate 2026 11 4) (lit "O:TSLA211015P00125000") false).
  vm_compute. discriminate.
Defined.

(* ===================================================================== *)
(** * Further properties: what [parse_option_symbol] checks *)
(* ===================================================================== *)

Lemma all_digits_skipn (j : nat) (s : str) : all_digits s -> all_digits (skipn j s).
Proof.
  unfold all_digits. rewrite !Forall_forall. intros H c Hc.
  apply H. rewrite <- (firstn_skipn j s). apply in_or_app. now right.
Qed.

Lemma all_digits_slice (i j : nat) (s : str) : all_digits s -> all_digits (slice i j s).
Proof. intros H. unfold slice. now apply all_digits_firstn, all_digits_skipn. Qed.

Lemma slice_length (i j : nat) (s : str) :
  (j <= length s)%nat -> length (slice i j s) = (j - i)%nat.
Proof. intros H. unfold slice. rewrite length_firstn, length_skipn. lia. Qed.

Lemma nonempty_length (s : str) : (0 < length s)%nat -> s <> [].
Proof. destruct s; simpl; [lia | discriminate]. Qed.

(** The century characters of a calendar date are digits. *)
Lemma century_digits (today : date) :
  valid_date today = true -> all_digits (century today) /\ century today <> [].
Proof.
  intros Hv. pose proof (valid_date_bounds today Hv) as (Hy & _ & _).
  destruct (@digits_spec (year today)) as (H1 & H2 & _); [lia|].
  unfold century, strftime_Y, slice_to. split; [now apply all_digits_firstn|].
  destruct (digits (year today)); [congruence | discriminate].
Qed.

(** X7. On a symbol made of a leading segment, six digits, any one
    character and eight digits, [parse_option_symbol] checks the calendar
    date and nothing else: it raises the [ValueError] of [datetime.date]
    when the six digits are not a date of the current century, and
    otherwise returns the leading segment without its digits, the date,
    the uppercased character as option type whatever it is, and a strike
    worth the eight digits in thousandths. *)
Theorem parse_digit_symbol (today : date) (s U ex st : str) (c : ascii) :
  valid_date today = true ->
  (if startswith (lit "O:") s then slice_from 2 s else s) = U ++ ex ++ c :: st ->
  all_digits ex -> length ex = 6%nat -> all_digits st -> length st = 8%nat ->
  let dt := mkdate (digits_value (century today ++ slice_to 2 ex))
                   (digits_value (slice 2 4 ex)) (digits_value (slice 4 6 ex)) in
  let F := filter (fun x => negb (is_digit x)) U in
  if valid_date dt
  then exists x,
         parse_option_symbol today s
         = Ok (mkOptionSymbol F dt (upper [c]) (PyFloat x) (F ++ ex ++ c :: st))
         /\ millis x = Some (digits_value st)
  else parse_option_symbol today s = Raise ValueError_date.
Proof.
  intros Hv Hbody Hex Hex6 Hst Hst8 dt F.
  destruct (century_digits today Hv) as [Hc Hcne].
  unfold parse_option_symbol, OptionSymbol_init.
  rewrite (@init_polygon_fields today s U ex st c Hbody Hex6 Hst8). fold F.
  rewrite int_of_str_digits.
  2:{ apply Forall_app. split; [assumption | now apply all_digits_firstn]. }
  2:{ destruct (century today); [congruence | discriminate]. }
  cbn [bind].
  rewrite int_of_str_digits
    by (try (now apply all_digits_slice); apply nonempty_length;
        rewrite slice_length; lia).
  cbn [bind].
  rewrite int_of_str_digits
    by (try (now apply all_digits_slice); apply nonempty_length;
        rewrite slice_length; lia).
  cbn [bind]. unfold date_new. fold dt.
  destruct (valid_date dt); cbn [bind]; [|reflexivity].
  rewrite (int_of_str_digits Hst) by (apply nonempty_length; lia). cbn [bind].
  assert (Hn : Z.abs (digits_value st) < 10 ^ 8).
  { pose proof (digits_value_bound Hst) as Hb. rewrite Hst8 in Hb.
    change (10 ^ Z.of_nat 8) with (10 ^ 8) in Hb. lia. }
  destruct (true_divide_1000 _ Hn) as (x & Hx & _ & Hm).
  exists x. rewrite Hx. cbn [bind]. now split.
Qed.

Lemma parse_digit_symbol_witness :
  (exists x,
     parse_option_symbol (mkdate 2026 11 4) (lit "BRK2211015x00125000")
     = Ok (mkOptionSymbol (lit "BRK") (mkdate 2021 10 15) (lit "X") (PyFloat x)
             (lit "BRK211015x00125000"))
     /\ millis x = Some 125000)
  /\ parse_option_symbol (mkdate 2026 11 4) (lit "O:TSLA210230C00125000")
     = Raise ValueError_date.
Proof.
  split.
  - apply (@parse_digit_symbol (mkdate 2026 11 4) (lit "BRK2211015x00125000")
             (lit "BRK2") (lit "211015") (lit "00125000") "x");
      try reflexivity; repeat constructor.
  - apply (@parse_digit_symbol (mkdate 2026 11 4) (lit "O:TSLA210230C00125000")
             (lit "TSLA") (lit "210230") (lit "00125000") "C");
      try reflexivity; repeat constructor.
Defined.

Lemma suffix_fields (A rest : str) :
  slice (length A) (length A + 6) (A ++ rest) = slice_to 6 rest
  /\ index (length A + 6) (A ++ rest) = index 6 rest
  /\ slice_from (length A + 7) (A ++ rest) = slice_from 7 rest
  /\ slice_from (length A) (A ++ rest) = rest.
Proof.
  split; [|split; [|split]].
  - rewrite <- (Nat.add_0_r (length A)) at 1.
    rewrite slice_skip by reflexivity. reflexivity.
  - unfold index. rewrite nth_error_app2 by lia.
    replace (length A + 6 - length A)%nat with 6%nat by lia. reflexivity.
  - now rewrite slice_from_skip.
  - unfold slice_from. now apply skipn_exact.
Qed.

Lemma filter_idem {A : Type} (f : A -> bool) (l : list A) :
  filter f (filter f l) = filter f l.
Proof. apply forallb_filter_id, forallb_filter. Qed.

(** X8. The [option_symbol] attribute of a parsed symbol (the symbol
    without the marker and without the digits of the leading segment) is
    a fixed point of the parser: unless it begins with the marker itself,
    parsing it again gives the same object. *)
Theorem parse_canonical_symbol (today : date) (s : str) (o : OptionSymbol) :
  parse_option_symbol today s = Ok o ->
  startswith (lit "O:") (option_symbol o) = false ->
  parse_option_symbol today (option_symbol o) = Ok o.
Proof.
  unfold parse_option_symbol, OptionSymbol_init. intros Hp Hno.
  set (body := if startswith (lit "O:") s then slice_from 2 s else s).
  set (A := drop_last 15 body).
  set (rest := skipn (length A) body).
  set (F := filter (fun x => negb (is_digit x)) A).
  assert (Hbody : body = A ++ rest).
  { unfold rest, A, drop_last. rewrite length_firstn.
    replace (Nat.min (length body - 15) (length body)) with (length body - 15)%nat by lia.
    now rewrite firstn_skipn. }
  destruct (suffix_fields A rest) as (S1 & S2 & S3 & S4).
  assert (Hinit : forall t B, (if startswith (lit "O:") t then slice_from 2 t else t)
                              = B ++ rest ->
                  drop_last 15 (B ++ rest) = B ->
                  init_polygon today t
                  = (y <- int_of_str (century today ++ slice_to 2 (slice_to 6 rest)) ;;
                     m <- int_of_str (slice 2 4 (slice_to 6 rest)) ;;
                     d <- int_of_str (slice 4 6 (slice_to 6 rest)) ;;
                     expiry <- date_new y m d ;;
                     c <- index 6 rest ;;
                     n <- int_of_str (slice_from 7 rest) ;;
                     x <- true_divide n 1000 ;;
                     Ok (mkOptionSymbol (filter (fun x => negb (is_digit x)) B) expiry
                           (upper [c]) (PyFloat x)
                           (filter (fun x => negb (is_digit x)) B ++ rest)))).
  { intros t B Ht Hdrop. unfold init_polygon. rewrite Ht, Hdrop.
    destruct (suffix_fields B rest) as (T1 & T2 & T3 & T4).
    rewrite T1, T2, T3, T4. reflexivity. }
  assert (HA : drop_last 15 (A ++ rest) = A) by (rewrite <- Hbody; reflexivity).
  rewrite (Hinit s A Hbody HA) in Hp. fold F in Hp.
  assert (Ho : option_symbol o = F ++ rest).
  { destruct (int_of_str (century today ++ _)) as [y|]; cbn [bind] in Hp; [|discriminate].
    destruct (int_of_str (slice 2 4 _)) as [m|]; cbn [bind] in Hp; [|discriminate].
    destruct (int_of_str (slice 4 6 _)) as [d|]; cbn [bind] in Hp; [|discriminate].
    destruct (date_new y m d) as [e|]; cbn [bind] in Hp; [|discriminate].
    destruct (index 6 rest) as [c|]; cbn [bind] in Hp; [|discriminate].
    destruct (int_of_str (slice_from 7 rest)) as [n|]; cbn [bind] in Hp; [|discriminate].
    destruct (true_divide n 1000) as [x|]; cbn [bind] in Hp; [|discriminate].
    injection Hp as <-. reflexivity. }
  rewrite Ho in Hno |- *.
  assert (HF : drop_last 15 (F ++ rest) = F).
  { unfold drop_last. destruct (Nat.le_gt_cases 15 (length body)) as [Hge|Hlt].
    - apply firstn_exact. rewrite length_app. unfold rest. rewrite length_skipn.
      unfold A. rewrite drop_last_length. lia.
    - assert (EA : A = []).
      { unfold A, drop_last. replace (length body - 15)%nat with 0%nat by lia. reflexivity. }
      unfold F. rewrite EA. simpl filter. simpl app.
      rewrite EA in Hbody. simpl in Hbody. rewrite <- Hbody.
      replace (length body - 15)%nat with 0%nat by lia. reflexivity. }
  rewrite (Hinit (F ++ rest) F) by (rewrite ?Hno; auto).
  unfold F at 1 2. rewrite filter_idem. fold F. exact Hp.
Qed.

Lemma parse_canonical_symbol_witness :
  exists o,
    parse_option_symbol (mkdate 2026 11 4) (lit "O:BRK2211015c00125000") = Ok o
    /\ option_symbol o = lit "BRK211015c00125000"
    /\ parse_option_symbol (mkdate 2026 11 4) (lit "BRK211015c00125000") = Ok o.
Proof.
  destruct (parse_option_symbol (mkdate 2026 11 4) (lit "O:BRK2211015c00125000"))
    as [o|] eqn:E; [|vm_compute in E; discriminate].
  exists o. split; [reflexivity|].
  assert (Ho : option_symbol o = lit "BRK211015c00125000")
    by (vm_compute in E; injection E as <-; reflexivity).
  split; [exact Ho|]. rewrite <- Ho.
  apply (@parse_canonical_symbol (mkdate 2026 11 4) (lit "O:BRK2211015c00125000") o E).
  rewrite Ho. reflexivity.
Defined.

(* ===================================================================== *)
(** * Further properties: conversion between the two formats *)
(* ===================================================================== *)

(** An integer below [2^53] in absolute value is a float. *)
Lemma float_of_int_exact (n : Z) :
  Z.abs n < 2 ^ 53 ->
  exists f, float_of_int n = Ok f /\ int_of_float f = Ok n /\ float_eq_int f n = true.
Proof.
  intros Hn. unfold float_of_int, true_divide.
  destruct (Z.eq_dec n 0) as [->|Hz].
  - exists (Finite false 0 0). repeat split.
  - destruct (@round_ratio_exact (n <? 0) (Z.abs n)) as (k & Hk & ->); [lia|].
    exists (Finite (n <? 0) (Z.abs n * 2 ^ k) (- k)).
    assert (Hp : 0 < 2 ^ k) by (apply Z.pow_pos_nonneg; lia).
    split; [reflexivity|].
    assert (Hs : (if n <? 0 then - Z.abs n else Z.abs n) = n)
      by (destruct (n <? 0) eqn:E; [apply Z.ltb_lt in E | apply Z.ltb_ge in E]; lia).
    split.
    + unfold int_of_float. destruct (0 <=? - k) eqn:E.
      * apply Z.leb_le in E. replace k with 0 by lia.
        change (2 ^ 0) with 1. change (2 ^ (-0)) with 1. rewrite !Z.mul_1_r. now rewrite Hs.
      * rewrite Z.opp_involutive, Z.div_mul by lia. now rewrite Hs.
    + unfold float_eq_int. destruct (0 <=? - k) eqn:E.
      * apply Z.leb_le in E. replace k with 0 by lia.
        change (2 ^ 0) with 1. change (2 ^ (-0)) with 1. apply Z.eqb_eq.
        destruct (n <? 0); lia.
      * rewrite Z.opp_involutive. apply Z.eqb_eq.
        rewrite <- Hs at 2. destruct (n <? 0); lia.
Qed.

(** The float read from eight digits worth a whole number of units. *)
Lemma true_divide_thousands (q : Z) :
  0 <= q < 100000 ->
  exists f, true_divide (1000 * q) 1000 = Ok f
            /\ int_of_float f = Ok q /\ float_eq_int f q = true.
Proof.
  intros Hq. destruct (Z.eq_dec q 0) as [->|Hz].
  - exists (Finite false 0 0). repeat split.
  - destruct (@round_ratio_1000 false (1000 * q)) as (m & k & Hx & Hk & Hm & Hd);
      [change (10 ^ 8) with 100000000; lia|].
    assert (Hp : 0 < 2 ^ k) by (apply Z.pow_pos_nonneg; lia).
    assert (Em : m = q * 2 ^ k) by lia. subst m.
    exists (Finite false (q * 2 ^ k) (- k)). unfold true_divide.
    replace (1000 * q <? 0) with false by (symmetry; apply Z.ltb_ge; lia).
    rewrite Z.abs_eq by lia. rewrite Hx.
    split; [reflexivity|]. split.
    + unfold int_of_float.
      replace (0 <=? - k) with false by (symmetry; apply Z.leb_gt; lia).
      rewrite Z.opp_involutive, Z.div_mul by lia. reflexivity.
    + unfold float_eq_int.
      replace (0 <=? - k) with false by (symmetry; apply Z.leb_gt; lia).
      rewrite Z.opp_involutive. apply Z.eqb_refl.
Qed.

(** The TD Ameritrade builder on a strike with a whole value. *)
Lemma build_tda_integral (u cp : str) (e : expiry_arg) (k : number) (fmt : tda_format)
    (f : float64) (n : Z) :
  float_of_number k = Ok f -> int_of_float f = Ok n -> float_eq_int f n = true ->
  build_option_symbol_for_tda u e cp k fmt
  = Ok (match fmt with
        | Dot => "."%char :: u
        | Underscore => u ++ ["_"%char]
        end
        ++ match e with ExpiryDate d => strftime_mdy d | ExpiryStr s => s end
        ++ option_letter cp ++ str_of_int n).
Proof.
  intros Hf Hn He. unfold build_option_symbol_for_tda.
  rewrite Hf. cbn [bind]. rewrite Hn. cbn [bind]. rewrite He. cbn [str_of_number].
  destruct fmt; [|reflexivity].
  now rewrite <- app_assoc.
Qed.

Lemma letter_is_letter (c : ascii) :
  c = "C"%char \/ c = "P"%char -> option_letter [c] = [c] /\ upper [c] = [c].
Proof. intros [-> | ->]; split; reflexivity. Qed.

(** The polygon builder on parsed fields with a whole strike. *)
Lemma build_polygon_whole (d : date) (U : str) (c : ascii) (n : Z) (p : bool) :
  c = "C"%char \/ c = "P"%char -> 0 <= n ->
  build_option_symbol U (ExpiryDate d) [c] (PyInt n) p
  = Ok ((if p then lit "O:" else []) ++ upper U ++ strftime_ymd d
        ++ c :: rjust 5 "0" (digits n) ++ lit "000").
Proof.
  intros Hc Hn. destruct (letter_is_letter Hc) as [Hl _].
  destruct (@digits_spec n Hn) as (Hd & _).
  unfold build_option_symbol. cbn [polygon_expiry bind]. rewrite Hl.
  assert (Hs : str_of_int n = digits n).
  { unfold str_of_int. now replace (n <? 0) with false by (symmetry; apply Z.ltb_ge; lia). }
  unfold strike_fields. cbn [str_of_number int_of_number]. rewrite Hs.
  replace (contains "." (digits n)) with false
    by (symmetry; apply contains_false; now apply digits_no_point).
  cbn [bind]. rewrite Hs. destruct p; reflexivity.
Qed.

(** What the TD Ameritrade parser reads in an underscore symbol with a
    whole-number strike. *)
Lemma parse_tda_underscore_whole (today d : date) (U : str) (c : ascii) (n : Z) :
  expiry_in_current_century today d ->
  ~ In "_"%char U -> startswith (lit ".") U = false ->
  c = "C"%char \/ c = "P"%char -> 0 <= n < 2 ^ 53 ->
  OptionSymbol_init today (U ++ "_"%char :: strftime_mdy d ++ c :: digits n) Tda
    (tda_format_of (U ++ "_"%char :: strftime_mdy d ++ c :: digits n))
  = Ok (mkOptionSymbol U d [c] (PyInt n)
          (U ++ "_"%char :: strftime_mdy d ++ c :: digits n)).
Proof.
  intros Hd HU Hdot Hc Hn.
  destruct (date_fields_read_back Hd)
    as ((Y1 & Y2) & (M1 & M2) & (D1 & D2) & R1 & R2 & R3 & R4).
  destruct (whole_strike Hn) as (f & F1 & F2 & F3 & F4).
  assert (Hfmt : tda_format_of (U ++ "_"%char :: strftime_mdy d ++ c :: digits n)
                 = Underscore).
  { unfold tda_format_of. destruct U as [|x U]; [reflexivity|].
    change (startswith (lit ".") ((x :: U) ++ "_"%char :: strftime_mdy d ++ c :: digits n))
      with (eqb_char "." x && true).
    change (eqb_char "." x && true = false) in Hdot. now rewrite Hdot. }
  rewrite Hfmt. unfold OptionSymbol_init, strftime_mdy. rewrite <- !app_assoc.
  rewrite init_tda_fields; try assumption.
  2:{ apply tda_rest_no_underscore; (assumption || lia). }
  rewrite R1, R2, R3. cbn [bind]. rewrite R4. cbn [bind].
  rewrite F1. cbn [bind]. rewrite F3. cbn [bind]. rewrite F4. reflexivity.
Qed.

Lemma is_alpha_upper (c : ascii) : is_alpha (upper_char c) = is_alpha c.
Proof.
  pose proof (forall_ascii_spec
    (fun c => Bool.eqb (is_alpha (upper_char c)) (is_alpha c))) as H.
  specialize (H eq_refl c). now apply Bool.eqb_prop in H.
Qed.

(** What the TD Ameritrade parser reads in a dot symbol whose date is
    written year first. *)
Lemma parse_tda_dot_whole (today d : date) (U : str) (c : ascii) (n : Z) :
  expiry_in_current_century today d ->
  Forall (fun x => is_alpha x = true) U ->
  c = "C"%char \/ c = "P"%char -> 0 <= n < 2 ^ 53 ->
  OptionSymbol_init today ("."%char :: U ++ strftime_ymd d ++ c :: digits n) Tda
    (tda_format_of ("."%char :: U ++ strftime_ymd d ++ c :: digits n))
  = Ok (mkOptionSymbol (upper U) d [c] (PyInt n)
          (upper U ++ "_"%char :: strftime_mdy d ++ c :: digits n)).
Proof.
  intros Hd HU Hc Hn.
  destruct (date_fields_read_back Hd)
    as ((Y1 & Y2) & (M1 & M2) & (D1 & D2) & R1 & R2 & R3 & R4).
  destruct (whole_strike Hn) as (f & F1 & F2 & F3 & F4).
  destruct (@digits_spec n ltac:(lia)) as (N1 & _).
  assert (HU' : Forall (fun x => is_alpha x = true) (upper U)).
  { unfold upper. rewrite Forall_map. rewrite Forall_forall in *.
    intros x Hx. rewrite is_alpha_upper. now apply HU. }
  change (tda_format_of ("."%char :: U ++ strftime_ymd d ++ c :: digits n)) with Dot.
  unfold OptionSymbol_init.
  change (init_tda today ("."%char :: U ++ strftime_ymd d ++ c :: digits n) Dot)
    with (init_tda today
            (dot_to_underscore ("."%char :: U ++ strftime_ymd d ++ c :: digits n))
            Underscore).
  assert (Hdu : dot_to_underscore ("."%char :: U ++ strftime_ymd d ++ c :: digits n)
                = dot_to_underscore ("."%char :: upper U ++ strftime_ymd d ++ c :: digits n)).
  { unfold dot_to_underscore.
    change (slice_from 1 ("."%char :: U ++ strftime_ymd d ++ c :: digits n))
      with (U ++ strftime_ymd d ++ c :: digits n).
    change (slice_from 1 ("."%char :: upper U ++ strftime_ymd d ++ c :: digits n))
      with (upper U ++ strftime_ymd d ++ c :: digits n).
    now rewrite !(upper_app _ (strftime_ymd d ++ c :: digits n)), upper_idem. }
  rewrite Hdu. unfold strftime_ymd, strftime_mdy. rewrite <- !app_assoc.
  rewrite dot_to_underscore_date; try assumption.
  2:{ apply upper_idem. }
  2:{ rewrite !upper_app, !upper_digits by assumption.
      change (upper (c :: digits n)) with (upper_char c :: upper (digits n)).
      rewrite upper_digits by assumption. destruct Hc; subst; reflexivity. }
  2:{ intros x r E. rewrite E in Y1. inversion Y1 as [|? ? Hx _]; subst.
      revert Hx.
      pose proof (forall_ascii_spec
        (fun c => implb (is_digit c) (negb (is_alpha c)))) as F.
      specialize (F eq_refl x). cbv beta in F. intros Hx. rewrite Hx in F.
      now apply negb_true_iff in F. }
  rewrite init_tda_fields; try assumption.
  2:{ intros Hin. rewrite Forall_forall in HU'. apply HU' in Hin. discriminate. }
  2:{ apply tda_rest_no_underscore; (assumption || lia). }
  rewrite R1, R2, R3. cbn [bind]. rewrite R4. cbn [bind].
  rewrite F1. cbn [bind]. rewrite F3. cbn [bind]. rewrite F4. reflexivity.
Qed.

(** What the polygon parser reads in a symbol whose eight strike digits
    are worth a whole number of units. *)
Lemma parse_polygon_whole (today d : date) (U st : str) (c : ascii) (q : Z) (p : bool) :
  expiry_in_current_century today d ->
  no_digits U -> (p = false -> startswith (lit "O:") U = false) ->
  all_digits st -> length st = 8%nat -> digits_value st = 1000 * q -> 0 <= q < 100000 ->
  exists f,
    OptionSymbol_init today
      ((if p then lit "O:" else []) ++ U ++ strftime_ymd d ++ c :: st) Polygon Underscore
    = Ok (mkOptionSymbol U d (upper [c]) (PyFloat f) (U ++ strftime_ymd d ++ c :: st))
    /\ int_of_float f = Ok q /\ float_eq_int f q = true.
Proof.
  intros Hd HU Hmark Hst Hst8 Hval Hq.
  destruct (expiry_read_back Hd) as (Hex & (c0 & r0 & Hc0 & Hdig) & R1 & R2 & R3 & R4).
  destruct (true_divide_thousands Hq) as (f & F1 & F2 & F3).
  exists f. split; [|now split].
  set (body := U ++ strftime_ymd d ++ c :: st).
  assert (Hstrip : (if startswith (lit "O:") ((if p then lit "O:" else []) ++ body)
                    then slice_from 2 ((if p then lit "O:" else []) ++ body)
                    else (if p then lit "O:" else []) ++ body) = body).
  { destruct p.
    - rewrite startswith_app. reflexivity.
    - change ([] ++ body) with body. unfold body. rewrite Hc0.
      change ((c0 :: r0) ++ c :: st) with (c0 :: r0 ++ c :: st).
      rewrite startswith_marker_digit; [reflexivity | assumption | now apply Hmark]. }
  unfold OptionSymbol_init.
  rewrite (@init_polygon_fields today _ U (strftime_ymd d) st c Hstrip Hex Hst8).
  assert (HF : filter (fun x => negb (is_digit x)) U = U).
  { clear - HU. induction HU as [|x U Hx HU IH]; simpl; [reflexivity|].
    now rewrite Hx, IH. }
  rewrite HF, R1, R2, R3. cbn [bind]. rewrite R4. cbn [bind].
  rewrite (int_of_str_digits Hst) by (apply nonempty_length; lia).
  cbn [bind]. rewrite Hval, F1. reflexivity.
Qed.

(** X9. [convert_from_tda_to_polygon_format] on an underscore symbol
    (underlying, underscore, [MMDDYY], [C] or [P], whole-number strike)
    with an expiry of the current century gives the polygon symbol of the
    same contract: uppercased underlying, [YYMMDD], the letter, the strike
    padded to five digits and [000]. *)
Theorem convert_underscore_to_polygon (today d : date) (U : str) (c : ascii) (n : Z)
    (p : bool) :
  expiry_in_current_century today d ->
  ~ In "_"%char U -> startswith (lit ".") U = false ->
  c = "C"%char \/ c = "P"%char -> 0 <= n < 2 ^ 53 ->
  convert_from_tda_to_polygon_format today
    (U ++ "_"%char :: strftime_mdy d ++ c :: digits n) p
  = Ok ((if p then lit "O:" else []) ++ upper U ++ strftime_ymd d
        ++ c :: rjust 5 "0" (digits n) ++ lit "000").
Proof.
  intros Hd HU Hdot Hc Hn. unfold convert_from_tda_to_polygon_format.
  rewrite (@parse_tda_underscore_whole today d U c n Hd HU Hdot Hc Hn).
  cbn [bind underlying_symbol expiry call_or_put strike_price].
  apply build_polygon_whole; [assumption | lia].
Qed.

Lemma convert_underscore_to_polygon_witness :
  convert_from_tda_to_polygon_format (mkdate 2026 11 4) (lit "TSLA_090321C700") true
  = Ok (lit "O:TSLA210903C00700000").
Proof.
  apply (@convert_underscore_to_polygon (mkdate 2026 11 4) (mkdate 2021 9 3)
           (lit "TSLA") "C" 700 true).
  - split; [reflexivity | split; [simpl; lia | reflexivity]].
  - intros H. simpl in H. intuition discriminate.
  - reflexivity.
  - now left.
  - change (2 ^ 53) with 9007199254740992. lia.
Defined.

(** X10. [convert_from_tda_to_polygon_format] on a dot symbol whose six
    date digits are written year first (dot, alphabetic underlying,
    [YYMMDD], [C] or [P], whole-number strike) gives the polygon symbol
    with the same six date digits. *)
Theorem convert_dot_to_polygon (today d : date) (U : str) (c : ascii) (n : Z)
    (p : bool) :
  expiry_in_current_century today d ->
  Forall (fun x => is_alpha x = true) U ->
  c = "C"%char \/ c = "P"%char -> 0 <= n < 2 ^ 53 ->
  convert_from_tda_to_polygon_format today
    ("."%char :: U ++ strftime_ymd d ++ c :: digits n) p
  = Ok ((if p then lit "O:" else []) ++ upper U ++ strftime_ymd d
        ++ c :: rjust 5 "0" (digits n) ++ lit "000").
Proof.
  intros Hd HU Hc Hn. unfold convert_from_tda_to_polygon_format.
  rewrite (@parse_tda_dot_whole today d U c n Hd HU Hc Hn).
  cbn [bind underlying_symbol expiry call_or_put strike_price].
  rewrite build_polygon_whole by (assumption || lia).
  now rewrite upper_idem.
Qed.

Lemma convert_dot_to_polygon_witness :
  convert_from_tda_to_polygon_format (mkdate 2026 11 4) (lit ".tsla210903C700") false
  = Ok (lit "TSLA210903C00700000").
Proof.
  apply (@convert_dot_to_polygon (mkdate 2026 11 4) (mkdate 2021 9 3)
           (lit "tsla") "C" 700 false).
  - split; [reflexivity | split; [simpl; lia | reflexivity]].
  - repeat constructor.
  - now left.
  - change (2 ^ 53) with 9007199254740992. lia.
Defined.

Lemma no_digits_upper (u : str) : no_digits u -> no_digits (upper u).
Proof.
  unfold no_digits, upper. rewrite Forall_map. apply Forall_impl.
  intros c Hc. now rewrite upper_char_digit.
Qed.

(** X11. Converting a polygon symbol built by [build_option_symbol]
    (readable underlying, expiry of the current century, plain decimal
    strike with a whole value [q]) to the TD Ameritrade format gives what
    [build_option_symbol_for_tda] writes for the same contract, in either
    variant: the strike appears as the integer [q], without padding. *)
Theorem convert_built_to_tda (today d : date) (u cp : str) (e : expiry_arg)
    (k : number) (p : bool) (ip fp : str) (q : Z) (fmt : tda_format) :
  underlying_readable u p ->
  expiry_in_current_century today d ->
  e = ExpiryDate d \/ e = ExpiryStr (strftime_ymd d) ->
  all_digits ip -> all_digits fp -> (1 <= length ip <= 5)%nat ->
  str_of_number k = decimal_text ip fp ->
  thousandths ip fp = 1000 * q ->
  exists sym,
    build_option_symbol u e cp k p = Ok sym
    /\ convert_from_polygon_to_tda_format today sym fmt
       = build_option_symbol_for_tda (upper u) (ExpiryDate d) (option_letter cp)
           (PyInt q) fmt
    /\ convert_from_polygon_to_tda_format today sym fmt
       = Ok (match fmt with
             | Dot => "."%char :: upper u
             | Underscore => upper u ++ ["_"%char]
             end ++ strftime_mdy d ++ option_letter cp ++ digits q).
Proof.
  intros [Hu Hmark] Hd He Hip Hfp Hlen Hstr Hq.
  assert (Hv : valid_date d = true) by (destruct Hd as [Hv _]; exact Hv).
  destruct (@built_symbol_shape d u cp e k ip fp Hv He Hip Hfp Hlen Hstr)
    as (c & Hc & Hcp & Hbuild & Hst & Hst8 & Hval).
  set (st := rjust 5 "0" ip ++ slice_to 3 (ljust 3 "0" fp)) in *.
  assert (Hqr : 0 <= q < 100000).
  { pose proof (digits_value_bound Hst) as Hb. rewrite Hst8, Hval, Hq in Hb.
    change (10 ^ Z.of_nat 8) with 100000000 in Hb. lia. }
  destruct (letter_is_letter Hcp) as [Hl Hup].
  destruct (@parse_polygon_whole today d (upper u) st c q p Hd (no_digits_upper Hu) Hmark
              Hst Hst8 ltac:(now rewrite Hval) Hqr) as (f & Hparse & F1 & F2).
  destruct (@float_of_int_exact q) as (g & G1 & G2 & G3);
    [change (2 ^ 53) with 9007199254740992; lia|].
  assert (Hsq : str_of_int q = digits q).
  { unfold str_of_int. now replace (q <? 0) with false by (symmetry; apply Z.ltb_ge; lia). }
  exists ((if p then lit "O:" else []) ++ upper u ++ strftime_ymd d ++ c :: st).
  split; [apply Hbuild|].
  assert (Hconv : convert_from_polygon_to_tda_format today
                    ((if p then lit "O:" else []) ++ upper u ++ strftime_ymd d ++ c :: st) fmt
                  = Ok (match fmt with
                        | Dot => "."%char :: upper u
                        | Underscore => upper u ++ ["_"%char]
                        end ++ strftime_mdy d ++ option_letter cp ++ digits q)).
  { unfold convert_from_polygon_to_tda_format. rewrite Hparse.
    cbn [bind underlying_symbol expiry call_or_put strike_price]. rewrite Hup.
    rewrite (@build_tda_integral (upper u) [c] (ExpiryDate d) (PyFloat f) fmt f q eq_refl F1 F2).
    now rewrite Hl, Hc, Hsq. }
  split; [|exact Hconv].
  rewrite Hconv.
  rewrite (@build_tda_integral (upper u) (option_letter cp) (ExpiryDate d) (PyInt q) fmt
             g q G1 G2 G3).
  now rewrite Hc, Hl, Hsq.
Qed.

Lemma convert_built_to_tda_witness :
  convert_from_polygon_to_tda_format (mkdate 2026 11 4) (lit "O:TSLA211015P00125000")
    Underscore
  = Ok (lit "TSLA_101521P125").
Proof.
  destruct (@convert_built_to_tda (mkdate 2026 11 4) (mkdate 2021 10 15) (lit "tsla")
              (lit "put") (ExpiryDate (mkdate 2021 10 15))
              (PyFloat (float_literal "125.0")) true (lit "125") (lit "0") 125 Underscore)
    as (sym & H1 & _ & H3).
  - split; [repeat constructor | discriminate].
  - split; [reflexivity | split; [simpl; lia | reflexivity]].
  - now left.
  - repeat constructor.
  - repeat constructor.
  - simpl; lia.
  - vm_compute. reflexivity.
  - reflexivity.
  - assert (E : build_option_symbol (lit "tsla") (ExpiryDate (mkdate 2021 10 15))
                  (lit "put") (PyFloat (float_literal "125.0")) true
                = Ok (lit "O:TSLA211015P00125000")) by (vm_compute; reflexivity).
    rewrite E in H1. injection H1 as <-. exact H3.
Defined.

(** X12. The two converters are inverse of each other on the underscore
    variant: for an uppercase underlying without digit, underscore or
    leading dot or marker, an expiry of the current century, the letter
    [C] or [P] and a whole-number strike below 100000, converting the TD
    Ameritrade symbol to the polygon format and back gives it again, and
    so does converting the polygon symbol to the underscore format and
    back. *)
Theorem convert_round_trip (today d : date) (U : str) (c : ascii) (n : Z) (p : bool) :
  expiry_in_current_century today d ->
  no_digits U -> upper U = U -> ~ In "_"%char U ->
  startswith (lit ".") U = false -> startswith (lit "O:") U = false ->
  c = "C"%char \/ c = "P"%char -> 0 <= n < 100000 ->
  let tda := U ++ "_"%char :: strftime_mdy d ++ c :: digits n in
  let polygon := (if p then lit "O:" else []) ++ U ++ strftime_ymd d
                 ++ c :: rjust 5 "0" (digits n) ++ lit "000" in
  convert_from_tda_to_polygon_format today tda p = Ok polygon
  /\ convert_from_polygon_to_tda_format today polygon Underscore = Ok tda.
Proof.
  intros Hd HU Hup Hund Hdot Hmark Hc Hn tda polygon.
  assert (Hn53 : 0 <= n < 2 ^ 53) by (change (2 ^ 53) with 9007199254740992; lia).
  destruct (@digits_spec n ltac:(lia)) as (N1 & N2 & N3 & N4).
  destruct (letter_is_letter Hc) as [Hl Hupc].
  split.
  - unfold convert_from_tda_to_polygon_format, tda.
    rewrite (@parse_tda_underscore_whole today d U c n Hd Hund Hdot Hc Hn53).
    cbn [bind underlying_symbol expiry call_or_put strike_price].
    rewrite build_polygon_whole by (assumption || lia). now rewrite Hup.
  - destruct (@rjust_digits 5 (digits n) N1) as (A1 & A2 & A3).
    { apply N4; [lia | change (10 ^ Z.of_nat 5) with 100000; lia]. }
    assert (Hst : all_digits (rjust 5 "0" (digits n) ++ lit "000")).
    { apply Forall_app. split; [assumption | repeat constructor]. }
    assert (Hst8 : length (rjust 5 "0" (digits n) ++ lit "000") = 8%nat)
      by (rewrite length_app, A2; reflexivity).
    assert (Hval : digits_value (rjust 5 "0" (digits n) ++ lit "000") = 1000 * n).
    { rewrite digits_value_app, A3, N3. change (digits_value (lit "000")) with 0.
      change (10 ^ Z.of_nat (length (lit "000"))) with 1000. lia. }
    destruct (@parse_polygon_whole today d U _ c n p Hd HU (fun _ => Hmark) Hst Hst8 Hval Hn)
      as (f & Hparse & F1 & F2).
    unfold convert_from_polygon_to_tda_format, polygon. rewrite Hparse.
    cbn [bind underlying_symbol expiry call_or_put strike_price]. rewrite Hupc.
    rewrite (@build_tda_integral U [c] (ExpiryDate d) (PyFloat f) Underscore f n eq_refl F1 F2).
    rewrite Hl. unfold str_of_int.
    replace (n <? 0) with false by (symmetry; apply Z.ltb_ge; lia).
    unfold tda. rewrite <- !app_assoc. reflexivity.
Qed.

Lemma convert_round_trip_witness :
  convert_from_tda_to_polygon_format (mkdate 2026 11 4) (lit "TSLA_090321C700") false
  = Ok (lit "TSLA210903C00700000")
  /\ convert_from_polygon_to_tda_format (mkdate 2026 11 4) (lit "TSLA210903C00700000")
       Underscore
     = Ok (lit "TSLA_090321C700").
Proof.
  apply (@convert_round_trip (mkdate 2026 11 4) (mkdate 2021 9 3) (lit "TSLA") "C" 700 false).
  - split; [reflexivity | split; [simpl; lia | reflexivity]].
  - repeat constructor.
  - reflexivity.
  - intros H. simpl in H. intuition discriminate.
  - reflexivity.
  - reflexivity.
  - now left.
  - lia.
Defined.

(** X13. [build_option_symbol_for_tda] writes a strike with a whole value
    as an integer: the float of an int below [2^53] in absolute value
    gives the same symbol as the int itself, whose last characters are the
    decimal digits of the int (700.0 and 700 both give [...C700]). *)
Theorem tda_builder_whole_strike (n : Z) (u cp : str) (e : expiry_arg)
    (fmt : tda_format) :
  Z.abs n < 2 ^ 53 ->
  exists f,
    float_of_int n = Ok f
    /\ build_option_symbol_for_tda u e cp (PyFloat f) fmt
       = build_option_symbol_for_tda u e cp (PyInt n) fmt
    /\ exists pre, build_option_symbol_for_tda u e cp (PyInt n) fmt
                   = Ok (pre ++ option_letter cp ++ str_of_int n).
Proof.
  intros Hn. destruct (float_of_int_exact n Hn) as (f & F1 & F2 & F3).
  exists f. split; [exact F1|].
  rewrite (@build_tda_integral u cp e (PyFloat f) fmt f n eq_refl F2 F3).
  rewrite (@build_tda_integral u cp e (PyInt n) fmt f n F1 F2 F3).
  split; [reflexivity|].
  exists (match fmt with
          | Dot => "."%char :: u
          | Underscore => u ++ ["_"%char]
          end ++ match e with ExpiryDate d => strftime_mdy d | ExpiryStr s => s end).
  now rewrite <- app_assoc.
Qed.

Lemma tda_builder_whole_strike_witness :
  Z.abs 700 < 2 ^ 53
  /\ exists f,
       float_of_int 700 = Ok f
       /\ build_option_symbol_for_tda (lit "TSLA") (ExpiryStr (lit "090321")) (lit "c")
            (PyFloat f) Underscore
          = build_option_symbol_for_tda (lit "TSLA") (ExpiryStr (lit "090321")) (lit "c")
              (PyInt 700) Underscore.
Proof.
  assert (Hn : Z.abs 700 < 2 ^ 53)
    by (change (2 ^ 53) with 9007199254740992; simpl; lia).
  split; [exact Hn|].
  destruct (@tda_builder_whole_strike 700 (lit "TSLA") (lit "c")
              (ExpiryStr (lit "090321")) Underscore Hn) as (f & H1 & H2 & _).
  exists f. split; assumption.
Defined.

(* ===================================================================== *)
(** * Further properties: when the builders raise *)
(* ===================================================================== *)

Lemma split_nonempty (c : ascii) (s : str) : split c s <> [].
Proof.
  destruct s as [|x r]; simpl; [discriminate|].
  destruct (eqb_char x c); [discriminate|].
  destruct (split c r); discriminate.
Qed.

Lemma split_two_parts (c : ascii) (s : str) :
  contains c s = true -> exists a b l, split c s = a :: b :: l.
Proof.
  intros H. apply contains_In in H.
  induction s as [|x r IH]; [destruct H|].
  simpl. destruct (eqb_char x c) eqn:E.
  - destruct (split c r) as [|h t] eqn:S; [now apply split_nonempty in S|].
    now exists [], h, t.
  - destruct H as [H|H]; [subst; now rewrite eqb_char_refl in E|].
    destruct (IH H) as (a & b & l & S). rewrite S. now exists (x :: a), b, l.
Qed.

Lemma strike_fields_finite (k : number) :
  match k with
  | PyFloat (Infinity _) => strike_fields k = Raise OverflowError_inf_to_int
  | PyFloat NaN => strike_fields k = Raise ValueError_nan_to_int
  | _ => exists sd, strike_fields k = Ok sd
  end.
Proof.
  assert (G : (exists n, int_of_number k = Ok n) ->
              exists sd, strike_fields k = Ok sd).
  { intros [n Hn]. unfold strike_fields.
    destruct (contains "." (str_of_number k)) eqn:C.
    - destruct (split_two_parts _ _ C) as (a & b & l & S). rewrite S.
      cbn [item nth_error bind]. eauto.
    - rewrite Hn. cbn [bind]. eauto. }
  destruct k as [n|[neg m e|neg|]].
  - apply G. now exists n.
  - apply G. unfold int_of_number, int_of_float. eauto.
  - destruct neg; reflexivity.
  - reflexivity.
Qed.

(** X14. [build_option_symbol] checks nothing but the length of an
    expiry string. Once the expiry is accepted it returns a symbol for
    every int strike of at most 4300 digits (beyond which [str] of an int
    raises), negative or not, and for every finite float; for a float
    strike it raises only when the strike is infinite ([OverflowError] of
    [int(inf)]) or a NaN ([ValueError] of [int(nan)]), whatever the
    underlying and the option type. *)
Theorem polygon_builder_failures (u cp : str) (e : expiry_arg) (k : number) (p : bool) :
  (forall s, e = ExpiryStr s -> length s = 6%nat) ->
  match k with
  | PyInt n =>
      Z.abs n < 10 ^ 4300 -> exists s, build_option_symbol u e cp k p = Ok s
  | PyFloat (Finite _ _ _) => exists s, build_option_symbol u e cp k p = Ok s
  | PyFloat (Infinity _) =>
      build_option_symbol u e cp k p = Raise OverflowError_inf_to_int
  | PyFloat NaN => build_option_symbol u e cp k p = Raise ValueError_nan_to_int
  end.
Proof.
  intros He.
  assert (Hex : exists ex, polygon_expiry e = Ok ex).
  { destruct e as [d|s]; simpl; [eauto|].
    rewrite (He s eq_refl). simpl. eauto. }
  destruct Hex as [ex Hex].
  pose proof (strike_fields_finite k) as Hk.
  unfold build_option_symbol. rewrite Hex. cbn [bind].
  destruct k as [n|[neg m e'|neg|]].
  - intros _. destruct Hk as [[a b] Hk]. rewrite Hk. cbn [bind]. destruct p; eauto.
  - destruct Hk as [[a b] Hk]. rewrite Hk. cbn [bind]. destruct p; eauto.
  - now rewrite Hk.
  - now rewrite Hk.
Qed.

Lemma polygon_builder_failures_witness :
  (exists s, build_option_symbol (lit "tsla") (ExpiryStr (lit "211015")) (lit "p")
               (PyInt (-125)) false = Ok s)
  /\ build_option_symbol (lit "tsla") (ExpiryStr (lit "211015")) (lit "p")
       (PyFloat (Infinity false)) false = Raise OverflowError_inf_to_int.
Proof.
  split.
  - apply (@polygon_builder_failures (lit "tsla") (lit "p") (ExpiryStr (lit "211015"))
             (PyInt (-125)) false).
    + intros s H. injection H as <-. reflexivity.
    + vm_compute. reflexivity.
  - apply (@polygon_builder_failures (lit "tsla") (lit "p") (ExpiryStr (lit "211015"))
             (PyFloat (Infinity false)) false).
    intros s H. injection H as <-. reflexivity.
Defined.

Lemma round_ratio_not_nan (neg : bool) (n d : Z) : round_ratio neg n d <> NaN.
Proof.
  unfold round_ratio.
  destruct (n =? 0); [discriminate|].
  repeat match goal with
         | |- context [if ?b then _ else _] => destruct b
         | |- context [let '(_, _) := ?x in _] => destruct x
         end; discriminate.
Qed.

Lemma float_of_int_finite (n : Z) (f : float64) :
  float_of_int n = Ok f -> exists neg m e, f = Finite neg m e.
Proof.
  unfold float_of_int, true_divide. intros H.
  pose proof (round_ratio_not_nan (n <? 0) (Z.abs n) 1) as Hn.
  destruct (round_ratio (n <? 0) (Z.abs n) 1) as [neg m e|neg|];
    [|discriminate|congruence].
  injection H as <-. eauto.
Qed.

(** X15. [build_option_symbol_for_tda] checks neither the underlying nor
    the expiry (a string of any length is copied) nor the option type: it
    raises exactly when the strike has no finite float value. A finite
    float and an int that [float()] can convert give a symbol; an int
    too large for a float gives the [OverflowError] of [float()], an
    infinite strike the [OverflowError] of [int()], a NaN the
    [ValueError] of [int()]. The int [2^1024], which
    [build_option_symbol] accepts, is refused. *)
Theorem tda_builder_failures (u cp : str) (e : expiry_arg) (k : number)
    (fmt : tda_format) :
  match k with
  | PyInt n =>
      if raises (float_of_int n)
      then build_option_symbol_for_tda u e cp k fmt = Raise OverflowError_int_to_float
      else exists s, build_option_symbol_for_tda u e cp k fmt = Ok s
  | PyFloat (Finite _ _ _) => exists s, build_option_symbol_for_tda u e cp k fmt = Ok s
  | PyFloat (Infinity _) =>
      build_option_symbol_for_tda u e cp k fmt = Raise OverflowError_inf_to_int
  | PyFloat NaN => build_option_symbol_for_tda u e cp k fmt = Raise ValueError_nan_to_int
  end
  /\ (forall n, Z.abs n < 2 ^ 53 -> raises (float_of_int n) = false)
  /\ raises (float_of_int (2 ^ 1024)) = true.
Proof.
  split; [|split].
  - unfold build_option_symbol_for_tda.
    destruct k as [n|[neg m e'|neg|]]; cbn [float_of_number bind].
    + destruct (float_of_int n) as [f|err] eqn:F; cbn [raises bind].
      * destruct (float_of_int_finite _ F) as (neg & m & e' & ->).
        cbn [int_of_float bind]. destruct fmt; eauto.
      * unfold float_of_int, true_divide in F.
        destruct (round_ratio (n <? 0) (Z.abs n) 1); try discriminate F.
        now injection F as <-.
    + cbn [int_of_float bind]. destruct fmt; eauto.
    + reflexivity.
    + reflexivity.
  - intros n Hn. destruct (float_of_int_exact n Hn) as (f & F & _). now rewrite F.
  - vm_compute. reflexivity.
Qed.
